(** * Mobile auction marketplace backend

    A shallow embedding of [backend/models.py], [backend/serializers.py],
    [backend/forms.py] and [backend/views.py], and the properties of the
    data model and of the request handlers proved about it.

    Conventions of the embedding.
    - A [DateTimeField] value is the number of microseconds since the epoch
      (an aware datetime, microsecond resolution), a [Z].
    - A [DecimalField(max_digits=10, decimal_places=2)] column holds an exact
      number of hundredths, a [Z] ([1500] is 15.00).
    - A table is the list of its rows in storage order; [Model.objects] is
      passed explicitly; a foreign key column holds the primary key of the
      row it points to.
    - [timezone.now()] is an argument [now] of every function that reads the
      clock.
    - [ImageField] columns carry no behaviour of their own and are left out
      of the rows. *)

From Stdlib Require Import ZArith QArith Qabs String Ascii List Lia.
From Stdlib Require Import Floats.PrimFloat Floats.SpecFloat Floats.FloatOps.
From Stdlib Require Import Floats.FloatAxioms.
From Stdlib Require Import Numbers.Cyclic.Int63.Uint63.
From stdpp Require Import base option list gmap strings sorting pretty.

Local Open Scope string_scope.
Local Open Scope list_scope.
Local Open Scope Z_scope.

(** ** Values handed back by Python helpers

    [None], a [float] and a [dict] are the only Python values the helpers
    of [models.py] return that are not rows or strings. *)

#[warnings="-register-all"]
Inductive PyValue : Type :=
| PyNone
| PyFloat (f : float)
| PyDict (entries : list (string * PyValue)).

(** The double of an integer: exact below 2^53 in absolute value. *)
Definition float_of_Z (z : Z) : float :=
  let a := PrimFloat.of_uint63 (Uint63.of_Z (Z.abs z)) in
  if decide (z < 0) then (- a)%float else a.

(** ** [datetime.timedelta] *)

Module timedelta.

(** Python keeps a [timedelta] normalised: [0 <= seconds < 86400] and
    [0 <= microseconds < 1000000]; only [days] carries the sign. *)
Record t : Type := mk { days : Z; seconds : Z; microseconds : Z }.

(** [timedelta(microseconds=us)], normalised with floor division. *)
Definition of_microseconds (us : Z) : t :=
  {| days := us / 86400000000;
     seconds := (us mod 86400000000) / 1000000;
     microseconds := us mod 1000000 |}.

Definition to_microseconds (self : t) : Z :=
  (days self * 86400 + seconds self) * 1000000 + microseconds self.

(** [timedelta(hours=h)] *)
Definition of_hours (h : Z) : t := of_microseconds (h * 3600000000).

(** [total_seconds()]: the exact quotient; Python rounds it to a float, which
    keeps its sign and whether it is zero. *)
Definition total_seconds (self : t) : Q :=
  Qmake (to_microseconds self) 1000000.

(** ["%0wd" % n] for [0 <= n]. *)
Definition zero_pad (w : nat) (n : Z) : string :=
  let s := pretty n in
  String.concat "" (replicate (w - String.length s) "0") +:+ s.

(** [str(timedelta)], as [datetime.timedelta.__str__]. *)
Definition str (self : t) : string :=
  let mm := seconds self / 60 in
  let ss := seconds self mod 60 in
  let hh := mm / 60 in
  let mm := mm mod 60 in
  let s := pretty hh +:+ ":" +:+ zero_pad 2 mm +:+ ":" +:+ zero_pad 2 ss in
  let s :=
    if decide (days self = 0) then s
    else pretty (days self) +:+ " day"
         +:+ (if decide (Z.abs (days self) = 1) then "" else "s")
         +:+ ", " +:+ s in
  if decide (microseconds self = 0) then s
  else s +:+ "." +:+ zero_pad 6 (microseconds self).

End timedelta.

(** [end - start] of two datetimes. *)
Definition datetime_sub (a b : Z) : timedelta.t :=
  timedelta.of_microseconds (a - b).

(** [dt + delta] *)
Definition datetime_add (a : Z) (d : timedelta.t) : Z :=
  a + timedelta.to_microseconds d.

(** ** Models ([backend/models.py]) *)

(** [django.contrib.auth.models.User], the backing account. *)
Module User.
Record t : Type := mk {
  pk : nat;
  username : string;
  email : string;
  password : string;   (* the stored hash *)
  first_name : string;
  last_name : string;
  is_active : bool }.
End User.

(** [rest_framework.authtoken.models.Token]: [key] is the primary key and
    [user] a one-to-one reference to the account. *)
Module Token.
Record t : Type := mk { key : string; user : nat }.
End Token.

Module Review.

(** [class Rating(models.IntegerChoices)] *)
Module Rating.
Definition rate_1_stars : Z := 1.
Definition rate_2_stars : Z := 2.
Definition rate_3_stars : Z := 3.
Definition rate_4_stars : Z := 4.
Definition rate_5_stars : Z := 5.
(** [Rating.choices]: the (value, label) pairs in declaration order. *)
Definition choices : list (Z * string) :=
  [ (rate_1_stars, "Rate 1 Stars"); (rate_2_stars, "Rate 2 Stars");
    (rate_3_stars, "Rate 3 Stars"); (rate_4_stars, "Rate 4 Stars");
    (rate_5_stars, "Rate 5 Stars") ].
End Rating.

Record t : Type := mk {
  pk : nat;
  reviewer : nat;
  reviewed_profile : nat;
  feedback : string;
  numerical_rating : Z;
  timestamp : Z }.

End Review.

(** [Avg(...)] over the values of an integer column: SQL [AVG] is [NULL] on
    no rows, and otherwise a floating-point number, which Django hands on as
    a [float]. It is the sum divided by the count in double precision, as
    SQLite, the database of a Django project whose settings name no other,
    computes it. *)
Definition Avg (xs : list Z) : PyValue :=
  match xs with
  | [] => PyNone
  | _ => PyFloat (float_of_Z (foldr Z.add 0 xs) / float_of_Z (Z.of_nat (length xs)))
  end.

Module Profile.

Record t : Type := mk {
  pk : nat;
  username : string;
  last_name : string;
  first_name : string;
  bio_text : string;
  join_date : Z;
  user : nat }.

(** [Review.objects.filter(reviewed_profile=self)] *)
Definition received_reviews (Review_objects : list Review.t) (self : t)
  : list Review.t :=
  filter (λ r, Review.reviewed_profile r = pk self) Review_objects.

(** [get_average_rating]: [QuerySet.aggregate] hands back a [dict] with one
    entry per aggregate, keyed [<field>__avg]. *)
Definition get_average_rating (Review_objects : list Review.t) (self : t)
  : PyValue :=
  PyDict [ ("numerical_rating__avg",
            Avg (Review.numerical_rating <$> received_reviews Review_objects self)) ].

End Profile.

Module Bid.

Record t : Type := mk {
  pk : nat;
  item : nat;
  bidder : nat;
  bid_amount : Z;
  timestamp : Z }.

(** The order of [order_by('-bid_amount')]: larger amounts first. *)
Definition by_amount_desc (a b : t) : Prop := bid_amount b ≤ bid_amount a.

#[global] Instance by_amount_desc_dec : RelDecision by_amount_desc.
Proof. intros a b. unfold by_amount_desc. apply _. Defined.

(** The order of [order_by('-timestamp')]. *)
Definition by_timestamp_desc (a b : t) : Prop := timestamp b ≤ timestamp a.

#[global] Instance by_timestamp_desc_dec : RelDecision by_timestamp_desc.
Proof. intros a b. unfold by_timestamp_desc. apply _. Defined.

End Bid.

(** What [get_time_left] returns: the string ["Ended"] or a [timedelta]. *)
Inductive TimeLeft : Type :=
| TimeLeftStr (s : string)
| TimeLeftDelta (d : timedelta.t).

Module Item.

Record t : Type := mk {
  pk : nat;
  owner : nat;
  title : string;
  description : string;
  starting_bid : Z;
  listed_at : Z;
  end_time : Z }.

(** [Bid.objects.filter(item=self)] *)
Definition bids_of (Bid_objects : list Bid.t) (self : t) : list Bid.t :=
  filter (λ b, Bid.item b = pk self) Bid_objects.

Definition get_num_bids (Bid_objects : list Bid.t) (self : t) : nat :=
  length (bids_of Bid_objects self).

(** [order_by('-bid_amount').first()], then [if highest:] (a model instance
    is always truthy, so only [None] takes the fall-through). *)
Definition get_current_bid (Bid_objects : list Bid.t) (self : t) : Z :=
  let highest :=
    head (merge_sort Bid.by_amount_desc (bids_of Bid_objects self)) in
  match highest with
  | Some b => Bid.bid_amount b
  | None => starting_bid self
  end.

Definition get_time_left (now : Z) (self : t) : TimeLeft :=
  let time_left := datetime_sub (end_time self) now in
  if Qlt_le_dec (timedelta.total_seconds time_left) 0
  then TimeLeftStr "Ended"
  else TimeLeftDelta time_left.

(** The order of [order_by('end_time')]: earlier first. *)
Definition by_end_time (a b : t) : Prop := end_time a ≤ end_time b.

#[global] Instance by_end_time_dec : RelDecision by_end_time.
Proof. intros a b. unfold by_end_time. apply _. Defined.

(** The order of [order_by('-listed_at')]: newest first. *)
Definition by_listed_at_desc (a b : t) : Prop := listed_at b ≤ listed_at a.

#[global] Instance by_listed_at_desc_dec : RelDecision by_listed_at_desc.
Proof. intros a b. unfold by_listed_at_desc. apply _. Defined.

End Item.

Module Comment.
Record t : Type := mk {
  pk : nat;
  item : nat;
  profile : nat;
  text : string;
  timestamp : Z }.
End Comment.

(** ** The database *)

(** [Model.objects.get(...)] on the rows that match. *)
Inductive GetResult (A : Type) : Type :=
| Got (row : A)
| DoesNotExist
| MultipleObjectsReturned.
Arguments Got {A} row.
Arguments DoesNotExist {A}.
Arguments MultipleObjectsReturned {A}.

Definition get {A : Type} (matching : list A) : GetResult A :=
  match matching with
  | [] => DoesNotExist
  | [row] => Got row
  | _ => MultipleObjectsReturned
  end.

(** [QuerySet.exists()] *)
Definition exists_ {A : Type} (matching : list A) : bool :=
  match matching with [] => false | _ => true end.

(** The tables, and the next value of each auto-increment primary key that
    the handlers below draw from. *)
Record Store : Type := mkStore {
  User_objects : list User.t;
  Token_objects : list Token.t;
  Profile_objects : list Profile.t;
  Item_objects : list Item.t;
  Bid_objects : list Bid.t;
  Comment_objects : list Comment.t;
  Review_objects : list Review.t;
  User_seq : nat;
  Profile_seq : nat;
  Bid_seq : nat;
  Review_seq : nat }.

Definition set_users (db : Store) (us : list User.t) (seq : nat) : Store :=
  mkStore us (Token_objects db) (Profile_objects db) (Item_objects db)
    (Bid_objects db) (Comment_objects db) (Review_objects db)
    seq (Profile_seq db) (Bid_seq db) (Review_seq db).

Definition set_tokens (db : Store) (ts : list Token.t) : Store :=
  mkStore (User_objects db) ts (Profile_objects db) (Item_objects db)
    (Bid_objects db) (Comment_objects db) (Review_objects db)
    (User_seq db) (Profile_seq db) (Bid_seq db) (Review_seq db).

Definition set_profiles (db : Store) (ps : list Profile.t) (seq : nat) : Store :=
  mkStore (User_objects db) (Token_objects db) ps (Item_objects db)
    (Bid_objects db) (Comment_objects db) (Review_objects db)
    (User_seq db) seq (Bid_seq db) (Review_seq db).

Definition set_items (db : Store) (its : list Item.t) : Store :=
  mkStore (User_objects db) (Token_objects db) (Profile_objects db) its
    (Bid_objects db) (Comment_objects db) (Review_objects db)
    (User_seq db) (Profile_seq db) (Bid_seq db) (Review_seq db).

Definition set_bids (db : Store) (bs : list Bid.t) (seq : nat) : Store :=
  mkStore (User_objects db) (Token_objects db) (Profile_objects db)
    (Item_objects db) bs (Comment_objects db) (Review_objects db)
    (User_seq db) (Profile_seq db) seq (Review_seq db).

Definition set_comments (db : Store) (cs : list Comment.t) : Store :=
  mkStore (User_objects db) (Token_objects db) (Profile_objects db)
    (Item_objects db) (Bid_objects db) cs (Review_objects db)
    (User_seq db) (Profile_seq db) (Bid_seq db) (Review_seq db).

Definition set_reviews (db : Store) (rs : list Review.t) (seq : nat) : Store :=
  mkStore (User_objects db) (Token_objects db) (Profile_objects db)
    (Item_objects db) (Bid_objects db) (Comment_objects db) rs
    (User_seq db) (Profile_seq db) (Bid_seq db) seq.

(** [Profile.objects.get(user=user)] *)
Definition Profile_get_by_user (db : Store) (user : nat) : GetResult Profile.t :=
  get (filter (λ p, Profile.user p = user) (Profile_objects db)).

(** [Profile.objects.get(pk=pk)] and its siblings; a primary key matches at
    most one row, so [filter(pk=pk)] is looked up with [list_find]. *)
Definition Profile_by_pk (db : Store) (pk : nat) : option Profile.t :=
  snd <$> list_find (λ p, Profile.pk p = pk) (Profile_objects db).

Definition User_by_pk (db : Store) (pk : nat) : option User.t :=
  snd <$> list_find (λ u, User.pk u = pk) (User_objects db).

Definition Item_by_pk (db : Store) (pk : nat) : option Item.t :=
  snd <$> list_find (λ i, Item.pk i = pk) (Item_objects db).

Definition Review_by_pk (db : Store) (pk : nat) : option Review.t :=
  snd <$> list_find (λ r, Review.pk r = pk) (Review_objects db).

(** [instance.delete()] of an Item: [on_delete=CASCADE] takes its Bids and
    Comments with it. *)
Definition delete_item (db : Store) (pk : nat) : Store :=
  set_comments
    (set_bids
       (set_items db (filter (λ i, Item.pk i ≠ pk) (Item_objects db)))
       (filter (λ b, Bid.item b ≠ pk) (Bid_objects db)) (Bid_seq db))
    (filter (λ c, Comment.item c ≠ pk) (Comment_objects db)).

(** [instance.save()] of an existing Item: the row with its primary key is
    replaced. *)
Definition save_item (db : Store) (it : Item.t) : Store :=
  set_items db
    ((λ i, if decide (Item.pk i = Item.pk it) then it else i) <$> Item_objects db).

Definition save_review (db : Store) (r : Review.t) : Store :=
  set_reviews db
    ((λ x, if decide (Review.pk x = Review.pk r) then r else x) <$> Review_objects db)
    (Review_seq db).

(** ** Decimal amounts as they arrive

    [decimal.Decimal.as_tuple()]: a sign, the digits of the coefficient and
    an exponent. The coefficient has no leading zero; zero is the one digit
    [0]. Only finite decimals are modelled (NaN and the infinities are
    refused by both field classes before any precision check). *)

Module Decimal.

Record t : Type := mk { sign : bool; digits : list Z; exponent : Z }.

(** The coefficient the digit tuple spells. *)
Definition coefficient (d : t) : Z :=
  foldl (λ acc x, 10 * acc + x) 0 (digits d).

Definition well_formed (d : t) : Prop :=
  digits d ≠ [] ∧ Forall (λ x, 0 ≤ x < 10) (digits d) ∧
  (∀ x rest, digits d = x :: rest → rest ≠ [] → x ≠ 0).

(** The value in hundredths, for a decimal with at most two decimal places:
    what [quantize(Decimal('.01'))] keeps and the column stores. *)
Definition to_hundredths (d : t) : Z :=
  (if sign d then -1 else 1) * coefficient d * 10 ^ (exponent d + 2).

End Decimal.

(** [django.core.validators.DecimalValidator(max_digits, decimal_places)]:
    [true] when the value passes. *)
Definition DecimalValidator (max_digits decimal_places : Z) (value : Decimal.t)
  : bool :=
  let len := Z.of_nat (length (Decimal.digits value)) in
  let exponent := Decimal.exponent value in
  let '(digits, decimals) :=
    if decide (0 ≤ exponent) then
      ((if decide (Decimal.digits value = [0]) then len else len + exponent), 0)
    else if decide (len < Z.abs exponent) then (Z.abs exponent, Z.abs exponent)
    else (len, Z.abs exponent) in
  let whole_digits := digits - decimals in
  bool_decide (digits ≤ max_digits) &&
  bool_decide (decimals ≤ decimal_places) &&
  bool_decide (whole_digits ≤ max_digits - decimal_places).

(** [rest_framework.fields.DecimalField.validate_precision] *)
Definition validate_precision (max_digits decimal_places : Z) (value : Decimal.t)
  : bool :=
  let len := Z.of_nat (length (Decimal.digits value)) in
  let exponent := Decimal.exponent value in
  let '(total_digits, whole_digits, places) :=
    if decide (0 ≤ exponent) then (len + exponent, len + exponent, 0)
    else if decide (Z.abs exponent < len)
         then (len, len - Z.abs exponent, Z.abs exponent)
         else (Z.abs exponent, 0, Z.abs exponent) in
  bool_decide (total_digits ≤ max_digits) &&
  bool_decide (places ≤ decimal_places) &&
  bool_decide (whole_digits ≤ max_digits - decimal_places).

(** [float(d)] of a stored amount [d] (given in hundredths): the double
    nearest to [d]. For fewer than 2^53 hundredths both operands of the
    division are exact, and an IEEE division is correctly rounded. *)
Definition float_of_decimal (hundredths : Z) : float :=
  let q := (PrimFloat.of_uint63 (Uint63.of_Z (Z.abs hundredths))
            / PrimFloat.of_uint63 100%uint63)%float in
  if decide (hundredths < 0) then (- q)%float else q.

(** The exact value of a finite float as a fraction [num / 2^k] or an
    integer multiple; [None] for NaN and the infinities. *)
Definition float_value (f : float) : option Q :=
  match Prim2SF f with
  | S754_zero _ => Some (Qmake 0 1)
  | S754_finite s m e =>
      let n := if s then Z.neg m else Z.pos m in
      Some (if decide (0 ≤ e) then Qmake (n * 2 ^ e) 1
            else Qmake n (Z.to_pos (2 ^ (- e))))
  | _ => None
  end.

(** The second half of [binary_round_aux]: the rounded mantissa is brought
    back to 53 digits. *)
Definition renormalise (sx : bool) (m1 : Z) (e : Z) : spec_float :=
  let '(mrs, e'') := shr_fexp prec emax m1 e loc_Exact in
  match shr_m mrs with
  | Z0 => S754_zero sx
  | Zpos m => if Z.leb e'' (emax - prec) then S754_finite sx m e'' else S754_infinity sx
  | _ => S754_nan
  end.

(** ** Requests and responses *)

Inductive Method : Type := GET | POST | PUT | PATCH | DELETE.

(** A scalar of a JSON request body. *)
Inductive Json : Type :=
| JNull
| JBool (b : bool)
| JInt (z : Z)
| JString (s : string).

(** Python's [str(data)] on such a scalar. *)
Definition py_str (data : Json) : string :=
  match data with
  | JNull => "None"
  | JBool true => "True"
  | JBool false => "False"
  | JInt z => pretty z
  | JString s => s
  end.

(** A computation that may raise. *)
Inductive Result (A : Type) : Type :=
| Ok (a : A)
| Raise (exception : string).
Arguments Ok {A} a.
Arguments Raise {A} exception.

(** A monetary value in an outbound representation: a decimal rendered
    exactly, or a binary floating-point number. *)
Inductive Amount : Type :=
| AmountDecimal (hundredths : Z)
| AmountFloat (f : float).

(** ** Text as a serializer field takes it

    A text is the sequence of the bytes of its UTF-8 encoding. *)

Definition utf8 (bytes : list nat) : string :=
  string_of_list_ascii (ascii_of_nat <$> bytes).

(** The characters [str.isspace] holds of, which [str.strip] removes:
    U+0009 to U+000D, U+001C to U+0020, U+0085, U+00A0, U+1680, U+2000 to
    U+200A, U+2028, U+2029, U+202F, U+205F and U+3000. *)
Definition whitespace : list string :=
  utf8 <$>
    [ [9%nat]; [10%nat]; [11%nat]; [12%nat]; [13%nat];
      [28%nat]; [29%nat]; [30%nat]; [31%nat]; [32%nat];
      [194; 133]%nat; [194; 160]%nat; [225; 154; 128]%nat;
      [226; 128; 128]%nat; [226; 128; 129]%nat; [226; 128; 130]%nat;
      [226; 128; 131]%nat; [226; 128; 132]%nat; [226; 128; 133]%nat;
      [226; 128; 134]%nat; [226; 128; 135]%nat; [226; 128; 136]%nat;
      [226; 128; 137]%nat; [226; 128; 138]%nat; [226; 128; 168]%nat;
      [226; 128; 169]%nat; [226; 128; 175]%nat; [226; 129; 159]%nat;
      [227; 128; 128]%nat ].

(** [s] without its prefix [w], when it starts with [w]. *)
Fixpoint without_prefix (w s : string) : option string :=
  match w, s with
  | EmptyString, _ => Some s
  | String a w', String b s' => if decide (a = b) then without_prefix w' s' else None
  | String _ _, EmptyString => None
  end.

(** [s] without its first character, when that is one of [spaces]. *)
Definition without_leading (spaces : list string) (s : string) : option string :=
  head (omap (λ w, without_prefix w s) spaces).

Fixpoint lstrip_go (spaces : list string) (fuel : nat) (s : string) : string :=
  match fuel with
  | O => s
  | S fuel =>
      match without_leading spaces s with
      | Some rest => lstrip_go spaces fuel rest
      | None => s
      end
  end.

(** [str.lstrip()], [str.rstrip()] and [str.strip()]. A character at the
    end of a text is found as the reverse of its bytes at the start of the
    reversed text. *)
Definition lstrip (s : string) : string :=
  lstrip_go whitespace (String.length s) s.

Definition rstrip (s : string) : string :=
  String.rev (lstrip_go (String.rev <$> whitespace) (String.length s) (String.rev s)).

Definition strip (s : string) : string := rstrip (lstrip s).

(** ['\x00' in value] *)
Fixpoint has_null_character (s : string) : bool :=
  match s with
  | EmptyString => false
  | String a rest => bool_decide (a = "000"%char) || has_null_character rest
  end.

(** A surrogate, U+D800 to U+DFFF, in [value]. A JSON escape can bring one
    in alone; it is held as the three bytes that the encoding scheme gives
    its code point, the first 237 and the second from 160 to 191, a pair
    that no other character produces. *)
Fixpoint has_surrogate_character (s : string) : bool :=
  match s with
  | EmptyString => false
  | String a rest =>
      match rest with
      | String b _ =>
          bool_decide (nat_of_ascii a = 237%nat) &&
          bool_decide (160 ≤ nat_of_ascii b)%nat && bool_decide (nat_of_ascii b ≤ 191)%nat
      | EmptyString => false
      end || has_surrogate_character rest
  end.

Module CharField.
(** The [CharField] that [ModelSerializer] builds for a
    [TextField(blank=True)], applied to a JSON string: [run_validation]
    trims the surrounding whitespace ([trim_whitespace] is on by default),
    lets the empty text through ([allow_blank]) and refuses a text with a
    NUL character ([ProhibitNullCharactersValidator]) or with a surrogate
    ([ProhibitSurrogateCharactersValidator]); [None] is a validation
    error. *)
Definition run_validation (data : string) : option string :=
  let value := strip data in
  if has_null_character value || has_surrogate_character value then None else Some value.
End CharField.

(** ** Serializers ([backend/serializers.py]) *)

Module UserSerializer.
Record data : Type := mk {
  id : nat;
  username : string;
  email : string;
  first_name : string;
  last_name : string }.
Definition to_representation (u : User.t) : data :=
  {| id := User.pk u; username := User.username u; email := User.email u;
     first_name := User.first_name u; last_name := User.last_name u |}.
End UserSerializer.

Module ProfileSerializer.
(** [user] is the nested, read-only [UserSerializer]; the foreign key is
    not null, and [None] stands for a reference that resolves to no row. *)
Record data : Type := mk {
  id : nat;
  username : string;
  first_name : string;
  last_name : string;
  bio_text : string;
  join_date : Z;
  user : option UserSerializer.data }.
Definition to_representation (db : Store) (p : Profile.t) : data :=
  {| id := Profile.pk p; username := Profile.username p;
     first_name := Profile.first_name p; last_name := Profile.last_name p;
     bio_text := Profile.bio_text p; join_date := Profile.join_date p;
     user := UserSerializer.to_representation <$> User_by_pk db (Profile.user p) |}.
End ProfileSerializer.

Module ItemSerializer.

Record data : Type := mk {
  id : nat;
  owner : option ProfileSerializer.data;
  title : string;
  description : string;
  starting_bid : Amount;
  listed_at : Z;
  end_time : Z;
  num_bids : nat;
  current_bid : Amount;
  time_left : string }.

Definition get_num_bids (db : Store) (obj : Item.t) : nat :=
  Item.get_num_bids (Bid_objects db) obj.

Definition get_current_bid (db : Store) (obj : Item.t) : float :=
  float_of_decimal (Item.get_current_bid (Bid_objects db) obj).

(** [time_left == "Ended"] is false for a [timedelta]; [str] of a string is
    the string. *)
Definition get_time_left (now : Z) (obj : Item.t) : string :=
  match Item.get_time_left now obj with
  | TimeLeftStr s => if decide (s = "Ended") then "Ended" else s
  | TimeLeftDelta d => timedelta.str d
  end.

(** The model fields go out as the field classes render them (a
    [DecimalField] as the exact decimal), the three method fields as their
    methods return them. *)
Definition to_representation (db : Store) (now : Z) (obj : Item.t) : data :=
  {| id := Item.pk obj;
     owner := ProfileSerializer.to_representation db <$> Profile_by_pk db (Item.owner obj);
     title := Item.title obj;
     description := Item.description obj;
     starting_bid := AmountDecimal (Item.starting_bid obj);
     listed_at := Item.listed_at obj;
     end_time := Item.end_time obj;
     num_bids := get_num_bids db obj;
     current_bid := AmountFloat (get_current_bid db obj);
     time_left := get_time_left now obj |}.

(** The writable fields of a request body; [None] is a key that is absent,
    and a text field that is present is a JSON string. *)
Record payload : Type := mkPayload {
  in_owner_id : option nat;
  in_title : option string;
  in_description : option string;
  in_starting_bid : option Decimal.t;
  in_end_time : option Z }.

(** [is_valid()]: the names of the fields that fail, in the order of
    [Meta.fields]. [end_time] is the one required field, and only when the
    update is not partial. *)
Definition errors (db : Store) (partial : bool) (d : payload) : list string :=
  (match in_owner_id d with
   | Some pk => if Profile_by_pk db pk is Some _ then [] else ["owner_id"]
   | None => []
   end) ++
  (match in_title d with
   | Some text => if CharField.run_validation text is Some _ then [] else ["title"]
   | None => []
   end) ++
  (match in_description d with
   | Some text => if CharField.run_validation text is Some _ then [] else ["description"]
   | None => []
   end) ++
  (match in_starting_bid d with
   | Some a => if validate_precision 10 2 a then [] else ["starting_bid"]
   | None => []
   end) ++
  (match in_end_time d with
   | Some _ => []
   | None => if partial then [] else ["end_time"]
   end).

(** [ModelSerializer.update]: every validated field is set on the instance,
    then [instance.save()] ([listed_at] is [auto_now]). *)
Definition update (now : Z) (instance : Item.t) (d : payload) : Item.t :=
  {| Item.pk := Item.pk instance;
     Item.owner := default (Item.owner instance) (in_owner_id d);
     Item.title :=
       default (Item.title instance) (in_title d ≫= CharField.run_validation);
     Item.description :=
       default (Item.description instance) (in_description d ≫= CharField.run_validation);
     Item.starting_bid :=
       default (Item.starting_bid instance) (Decimal.to_hundredths <$> in_starting_bid d);
     Item.listed_at := now;
     Item.end_time := default (Item.end_time instance) (in_end_time d) |}.

End ItemSerializer.

Module BidSerializer.

Record data : Type := mk {
  id : nat;
  item : option ItemSerializer.data;
  bidder : option ProfileSerializer.data;
  bid_amount : Amount;
  timestamp : Z }.

Definition to_representation (db : Store) (now : Z) (obj : Bid.t) : data :=
  {| id := Bid.pk obj;
     item := ItemSerializer.to_representation db now <$> Item_by_pk db (Bid.item obj);
     bidder := ProfileSerializer.to_representation db <$> Profile_by_pk db (Bid.bidder obj);
     bid_amount := AmountDecimal (Bid.bid_amount obj);
     timestamp := Bid.timestamp obj |}.

Record payload : Type := mkPayload {
  in_item_id : option nat;
  in_bidder_id : option nat;
  in_bid_amount : option Decimal.t }.

(** [item_id] and [bid_amount] are required, [bidder_id] is not; the class
    adds no [validate] method, so the amount meets the field's precision
    check and nothing else. *)
Definition errors (db : Store) (d : payload) : list string :=
  (match in_item_id d with
   | Some pk => if Item_by_pk db pk is Some _ then [] else ["item_id"]
   | None => ["item_id"]
   end) ++
  (match in_bidder_id d with
   | Some pk => if Profile_by_pk db pk is Some _ then [] else ["bidder_id"]
   | None => []
   end) ++
  (match in_bid_amount d with
   | Some a => if validate_precision 10 2 a then [] else ["bid_amount"]
   | None => ["bid_amount"]
   end).

Definition is_valid (db : Store) (d : payload) : bool :=
  bool_decide (errors db d = []).

End BidSerializer.

Module ReviewSerializer.

Record data : Type := mk {
  id : nat;
  reviewer : option ProfileSerializer.data;
  reviewed_profile : option ProfileSerializer.data;
  feedback : string;
  numerical_rating : Z;
  timestamp : Z }.

Definition to_representation (db : Store) (obj : Review.t) : data :=
  {| id := Review.pk obj;
     reviewer := ProfileSerializer.to_representation db <$> Profile_by_pk db (Review.reviewer obj);
     reviewed_profile :=
       ProfileSerializer.to_representation db <$> Profile_by_pk db (Review.reviewed_profile obj);
     feedback := Review.feedback obj;
     numerical_rating := Review.numerical_rating obj;
     timestamp := Review.timestamp obj |}.

Record payload : Type := mkPayload {
  in_reviewer_id : option nat;
  in_reviewed_profile_id : option nat;
  in_feedback : option string;
  in_numerical_rating : option Json }.

(** The [ChoiceField] that [numerical_rating] (an [IntegerField] with
    [choices]) maps to: the input is looked up by [str(data)] among the
    choices' keys; [null] is refused before the lookup. *)
Definition numerical_rating_to_internal_value (data : Json) : option Z :=
  match data with
  | JNull => None
  | _ => (fst ∘ snd) <$>
         list_find (λ c : Z * string, pretty (fst c) = py_str data) Review.Rating.choices
  end.

Definition errors (db : Store) (partial : bool) (d : payload) : list string :=
  (match in_reviewer_id d with
   | Some pk => if Profile_by_pk db pk is Some _ then [] else ["reviewer_id"]
   | None => []
   end) ++
  (match in_reviewed_profile_id d with
   | Some pk => if Profile_by_pk db pk is Some _ then [] else ["reviewed_profile_id"]
   | None => if partial then [] else ["reviewed_profile_id"]
   end) ++
  (match in_feedback d with
   | Some text => if CharField.run_validation text is Some _ then [] else ["feedback"]
   | None => []
   end) ++
  (match in_numerical_rating d with
   | Some data =>
       if numerical_rating_to_internal_value data is Some _ then [] else ["numerical_rating"]
   | None => if partial then [] else ["numerical_rating"]
   end).

(** The rating and the feedback among the validated data, when the body
    carries them. *)
Definition validated_rating (d : payload) : option Z :=
  in_numerical_rating d ≫= numerical_rating_to_internal_value.

Definition validated_feedback (d : payload) : option string :=
  in_feedback d ≫= CharField.run_validation.

Definition update (now : Z) (instance : Review.t) (d : payload) : Review.t :=
  {| Review.pk := Review.pk instance;
     Review.reviewer := default (Review.reviewer instance) (in_reviewer_id d);
     Review.reviewed_profile :=
       default (Review.reviewed_profile instance) (in_reviewed_profile_id d);
     Review.feedback := default (Review.feedback instance) (validated_feedback d);
     Review.numerical_rating :=
       default (Review.numerical_rating instance) (validated_rating d);
     Review.timestamp := now |}.

End ReviewSerializer.

(** ** Forms ([backend/forms.py])

    A form record holds the fields of a bound form. A text field is held
    as its cleaned value, that is, as the form field hands it on: Django's
    [CharField] has stripped the surrounding whitespace, and a text with a
    NUL character, which that field refuses, is not among the records. A
    decimal is held as it arrives and validated by [cleaned]. [empty] is
    the form bound to an empty [request.POST], which is what a PUT binds:
    Django parses form data only for POST. *)

Module UpdateItemForm.
(** [fields = ['title','description','item_image','starting_bid','end_time']];
    [starting_bid] and [end_time] are required ([blank=False]), and
    [None] is a value that is missing or does not parse. *)
Record data : Type := mk {
  title : string;
  description : string;
  starting_bid : option Decimal.t;
  end_time : option Z }.

Definition empty : data :=
  {| title := ""; description := ""; starting_bid := None; end_time := None |}.

(** [cleaned_data] for the two required fields, when the form is valid. *)
Definition cleaned (d : data) : option (Z * Z) :=
  match starting_bid d, end_time d with
  | Some a, Some e =>
      if DecimalValidator 10 2 a then Some (Decimal.to_hundredths a, e) else None
  | _, _ => None
  end.

Definition is_valid (d : data) : bool :=
  if cleaned d is Some _ then true else false.

(** [form.save()] on the instance of the view ([listed_at] is [auto_now]). *)
Definition save (now : Z) (instance : Item.t) (d : data) (c : Z * Z) : Item.t :=
  {| Item.pk := Item.pk instance;
     Item.owner := Item.owner instance;
     Item.title := title d;
     Item.description := description d;
     Item.starting_bid := fst c;
     Item.listed_at := now;
     Item.end_time := snd c |}.
End UpdateItemForm.

Module CreateBidForm.
(** [fields = ['bid_amount']]: one required decimal field whose validators
    are those of the model field, [DecimalValidator(10, 2)]; the class
    defines no [clean] method of its own. *)
Record data : Type := mk { bid_amount : option Decimal.t }.

Definition empty : data := {| bid_amount := None |}.

(** [cleaned_data['bid_amount']] in hundredths, when the form is valid. *)
Definition cleaned (d : data) : option Z :=
  match bid_amount d with
  | Some a => if DecimalValidator 10 2 a then Some (Decimal.to_hundredths a) else None
  | None => None
  end.

Definition is_valid (d : data) : bool :=
  if cleaned d is Some _ then true else false.
End CreateBidForm.

(** ** Views ([backend/views.py]) *)

Inductive Body : Type :=
| Page (template : string)
| Redirect (url_name : string)
| Http404
| MethodNotAllowed
| NotAuthenticated
| ErrorMessage (error : string)
| FieldErrors (fields : list string)
| AuthBody (token : string) (user : UserSerializer.data)
    (profile : option ProfileSerializer.data)
| ItemList (items : list ItemSerializer.data)
| ItemBody (item : ItemSerializer.data)
| BidBody (bid : BidSerializer.data)
| ReviewBody (review : ReviewSerializer.data)
| NoContent
| Uncaught (exception : string).

Record Response : Type := mkResponse { status_code : nat; body : Body }.

Definition HTTP_200_OK : nat := 200.
Definition HTTP_201_CREATED : nat := 201.
Definition HTTP_204_NO_CONTENT : nat := 204.
Definition HTTP_302_FOUND : nat := 302.
Definition HTTP_400_BAD_REQUEST : nat := 400.
Definition HTTP_401_UNAUTHORIZED : nat := 401.
Definition HTTP_404_NOT_FOUND : nat := 404.
Definition HTTP_405_METHOD_NOT_ALLOWED : nat := 405.
Definition HTTP_500_INTERNAL_SERVER_ERROR : nat := 500.

(** An exception no handler catches. *)
Definition server_error (exception : string) : Response :=
  mkResponse HTTP_500_INTERNAL_SERVER_ERROR (Uncaught exception).

(** Modelled from the spec: the project settings (and with them
    [DEFAULT_PERMISSION_CLASSES] of the JSON API) are not among the sources;
    section 9 of the specification has the generic endpoints answer
    "any authenticated-or-even-unauthenticated caller", which is the
    framework's own default, [AllowAny]. *)
Definition default_permission (method : Method) (user : option nat) : bool := true.

(** Python truthiness of [request.data.get(key)]: [None] and the empty
    string are falsy. *)
Definition truthy (v : option string) : bool :=
  match v with
  | Some s => bool_decide (s ≠ "")
  | None => false
  end.

(** The password hasher and the two normalisers of the authentication
    library: [normalize_email] lowers the domain of an address, and
    [normalize_username] is [unicodedata.normalize('NFKC', username)]. *)
Class AuthLibrary : Type := {
  make_password : string → string;
  check_password : string → string → bool;
  normalize_email : string → string;
  normalize_username : string → string }.

Module MyLoginRequiredMixin.
(** Only [Profile.DoesNotExist] is caught. *)
Definition get_logged_in_profile (db : Store) (user : nat)
  : Result (option Profile.t) :=
  match Profile_get_by_user db user with
  | Got p => Ok (Some p)
  | DoesNotExist => Ok None
  | MultipleObjectsReturned => Raise "MultipleObjectsReturned"
  end.

(** [handle_no_permission]: an anonymous visitor is sent to the login page. *)
Definition login_redirect : Response := mkResponse HTTP_302_FOUND (Redirect "login").
End MyLoginRequiredMixin.

(** [SingleObjectMixin.get_object]: [queryset.filter(pk=pk).get()], where a
    miss raises [Http404]. *)
Definition get_object (queryset : list Item.t) (pk : nat) : option Item.t :=
  snd <$> list_find (λ i, Item.pk i = pk) queryset.

Module UpdateItemView.

Definition get_queryset (db : Store) (user : nat) : Result (list Item.t) :=
  match MyLoginRequiredMixin.get_logged_in_profile db user with
  | Raise e => Raise e
  | Ok (Some profile) =>
      Ok (filter (λ i, Item.owner i = Profile.pk profile) (Item_objects db))
  | Ok None => Ok []
  end.

Definition dispatch (db : Store) (now : Z) (user : option nat) (method : Method)
    (pk : nat) (form : UpdateItemForm.data) : Response * Store :=
  let form := if method is PUT then UpdateItemForm.empty else form in
  match user with
  | None => (MyLoginRequiredMixin.login_redirect, db)
  | Some u =>
      match method with
      | PATCH | DELETE =>
          (mkResponse HTTP_405_METHOD_NOT_ALLOWED MethodNotAllowed, db)
      | _ =>
          match get_queryset db u with
          | Raise e => (server_error e, db)
          | Ok queryset =>
              match get_object queryset pk with
              | None => (mkResponse HTTP_404_NOT_FOUND Http404, db)
              | Some object =>
                  match method with
                  | GET => (mkResponse HTTP_200_OK (Page "project/update_item_form.html"), db)
                  | _ =>
                      match UpdateItemForm.cleaned form with
                      | Some c =>
                          (mkResponse HTTP_302_FOUND (Redirect "item_detail"),
                           save_item db (UpdateItemForm.save now object form c))
                      | None =>
                          (mkResponse HTTP_200_OK (Page "project/update_item_form.html"), db)
                      end
                  end
              end
          end
      end
  end.

End UpdateItemView.

Module DeleteItemView.

Definition get_queryset (db : Store) (user : nat) : Result (list Item.t) :=
  match MyLoginRequiredMixin.get_logged_in_profile db user with
  | Raise e => Raise e
  | Ok (Some profile) =>
      Ok (filter (λ i, Item.owner i = Profile.pk profile) (Item_objects db))
  | Ok None => Ok []
  end.

Definition dispatch (db : Store) (user : option nat) (method : Method) (pk : nat)
  : Response * Store :=
  match user with
  | None => (MyLoginRequiredMixin.login_redirect, db)
  | Some u =>
      match method with
      | PUT | PATCH =>
          (mkResponse HTTP_405_METHOD_NOT_ALLOWED MethodNotAllowed, db)
      | _ =>
          match get_queryset db u with
          | Raise e => (server_error e, db)
          | Ok queryset =>
              match get_object queryset pk with
              | None => (mkResponse HTTP_404_NOT_FOUND Http404, db)
              | Some object =>
                  match method with
                  | GET => (mkResponse HTTP_200_OK (Page "project/delete_item_form.html"), db)
                  | _ => (mkResponse HTTP_302_FOUND (Redirect "item_list"),
                          delete_item db (Item.pk object))
                  end
              end
          end
      end
  end.

End DeleteItemView.

Module CreateBidView.

(** [Item.objects.get(pk=item_id)] is not guarded, in [get_context_data] as
    in [form_valid]. *)
Definition dispatch (db : Store) (now : Z) (user : option nat) (method : Method)
    (item_id : nat) (form : CreateBidForm.data) : Response * Store :=
  let form := if method is PUT then CreateBidForm.empty else form in
  match user with
  | None => (MyLoginRequiredMixin.login_redirect, db)
  | Some u =>
      match method with
      | PATCH | DELETE =>
          (mkResponse HTTP_405_METHOD_NOT_ALLOWED MethodNotAllowed, db)
      | GET =>
          match Item_by_pk db item_id with
          | None => (server_error "DoesNotExist", db)
          | Some _ => (mkResponse HTTP_200_OK (Page "project/create_bid_form.html"), db)
          end
      | _ =>
          match Item_by_pk db item_id with
          | None => (server_error "DoesNotExist", db)
          | Some item =>
              match CreateBidForm.cleaned form with
              | Some amount =>
                  match MyLoginRequiredMixin.get_logged_in_profile db u with
                  | Raise e => (server_error e, db)
                  | Ok None =>
                      (mkResponse HTTP_302_FOUND (Redirect "create_profile"), db)
                  | Ok (Some profile) =>
                      let bid :=
                        {| Bid.pk := Bid_seq db;
                           Bid.item := Item.pk item;
                           Bid.bidder := Profile.pk profile;
                           Bid.bid_amount := amount;
                           Bid.timestamp := now |} in
                      (mkResponse HTTP_302_FOUND (Redirect "item_detail"),
                       set_bids db (Bid_objects db ++ [bid]) (S (Bid_seq db)))
                  end
              | None =>
                  (mkResponse HTTP_200_OK (Page "project/create_bid_form.html"), db)
              end
          end
      end
  end.

End CreateBidView.

(** *** The JSON API *)

Definition not_permitted : Response :=
  mkResponse HTTP_401_UNAUTHORIZED NotAuthenticated.

Module ItemDetailAPIView.

(** [queryset = Item.objects.all()]: the generic view looks the object up
    among all Items, whoever asks. *)
Definition queryset (db : Store) : list Item.t := Item_objects db.

Definition dispatch (db : Store) (now later : Z) (user : option nat)
    (method : Method) (pk : nat) (data : ItemSerializer.payload)
  : Response * Store :=
  if negb (default_permission method user) then (not_permitted, db) else
  match method with
  | POST => (mkResponse HTTP_405_METHOD_NOT_ALLOWED MethodNotAllowed, db)
  | _ =>
      match get_object (queryset db) pk with
      | None => (mkResponse HTTP_404_NOT_FOUND Http404, db)
      | Some instance =>
          match method with
          | GET =>
              (mkResponse HTTP_200_OK
                 (ItemBody (ItemSerializer.to_representation db later instance)), db)
          | DELETE =>
              (mkResponse HTTP_204_NO_CONTENT NoContent,
               delete_item db (Item.pk instance))
          | _ =>
              let partial := if method is PATCH then true else false in
              match ItemSerializer.errors db partial data with
              | [] =>
                  let instance' := ItemSerializer.update now instance data in
                  let db' := save_item db instance' in
                  (mkResponse HTTP_200_OK
                     (ItemBody (ItemSerializer.to_representation db' later instance')), db')
              | errs => (mkResponse HTTP_400_BAD_REQUEST (FieldErrors errs), db)
              end
          end
      end
  end.

End ItemDetailAPIView.

Module BidListCreateAPIView.

(** [serializer.save()] without a bidder violates the column's [NOT NULL]:
    [bidder_id] is optional for the serializer and the view sets none. *)
Definition post (db : Store) (now later : Z) (user : option nat)
    (data : BidSerializer.payload) : Response * Store :=
  if negb (default_permission POST user) then (not_permitted, db) else
  match BidSerializer.errors db data with
  | [] =>
      match BidSerializer.in_item_id data, BidSerializer.in_bidder_id data,
            BidSerializer.in_bid_amount data with
      | Some item, Some bidder, Some amount =>
          let bid :=
            {| Bid.pk := Bid_seq db;
               Bid.item := item;
               Bid.bidder := bidder;
               Bid.bid_amount := Decimal.to_hundredths amount;
               Bid.timestamp := now |} in
          let db' := set_bids db (Bid_objects db ++ [bid]) (S (Bid_seq db)) in
          (mkResponse HTTP_201_CREATED
             (BidBody (BidSerializer.to_representation db' later bid)), db')
      | _, _, _ => (server_error "IntegrityError", db)
      end
  | errs => (mkResponse HTTP_400_BAD_REQUEST (FieldErrors errs), db)
  end.

End BidListCreateAPIView.

Module ReviewListCreateAPIView.

Definition post (db : Store) (now : Z) (user : option nat)
    (data : ReviewSerializer.payload) : Response * Store :=
  if negb (default_permission POST user) then (not_permitted, db) else
  match ReviewSerializer.errors db false data with
  | [] =>
      match ReviewSerializer.in_reviewer_id data,
            ReviewSerializer.in_reviewed_profile_id data,
            ReviewSerializer.validated_rating data with
      | Some reviewer, Some reviewed, Some rating =>
          let review :=
            {| Review.pk := Review_seq db;
               Review.reviewer := reviewer;
               Review.reviewed_profile := reviewed;
               Review.feedback := default "" (ReviewSerializer.validated_feedback data);
               Review.numerical_rating := rating;
               Review.timestamp := now |} in
          let db' := set_reviews db (Review_objects db ++ [review]) (S (Review_seq db)) in
          (mkResponse HTTP_201_CREATED
             (ReviewBody (ReviewSerializer.to_representation db' review)), db')
      | _, _, _ => (server_error "IntegrityError", db)
      end
  | errs => (mkResponse HTTP_400_BAD_REQUEST (FieldErrors errs), db)
  end.

End ReviewListCreateAPIView.

Module ReviewDetailAPIView.

Definition delete_review (db : Store) (pk : nat) : Store :=
  set_reviews db (filter (λ r, Review.pk r ≠ pk) (Review_objects db)) (Review_seq db).

Definition dispatch (db : Store) (now : Z) (user : option nat) (method : Method)
    (pk : nat) (data : ReviewSerializer.payload) : Response * Store :=
  if negb (default_permission method user) then (not_permitted, db) else
  match method with
  | POST => (mkResponse HTTP_405_METHOD_NOT_ALLOWED MethodNotAllowed, db)
  | _ =>
      match Review_by_pk db pk with
      | None => (mkResponse HTTP_404_NOT_FOUND Http404, db)
      | Some instance =>
          match method with
          | GET =>
              (mkResponse HTTP_200_OK
                 (ReviewBody (ReviewSerializer.to_representation db instance)), db)
          | DELETE => (mkResponse HTTP_204_NO_CONTENT NoContent, delete_review db pk)
          | _ =>
              let partial := if method is PATCH then true else false in
              match ReviewSerializer.errors db partial data with
              | [] =>
                  let instance' := ReviewSerializer.update now instance data in
                  let db' := save_review db instance' in
                  (mkResponse HTTP_200_OK
                     (ReviewBody (ReviewSerializer.to_representation db' instance')), db')
              | errs => (mkResponse HTTP_400_BAD_REQUEST (FieldErrors errs), db)
              end
          end
      end
  end.

End ReviewDetailAPIView.

Module FeaturedItemsAPIView.

(** "return active items (not ended)": the rows the view selects. *)
Definition items (db : Store) (now : Z) : list Item.t :=
  merge_sort Item.by_listed_at_desc
    (filter (λ i, now < Item.end_time i) (Item_objects db)).

Definition get (db : Store) (now later : Z) (user : option nat) : Response :=
  if negb (default_permission GET user) then not_permitted else
  mkResponse HTTP_200_OK
    (ItemList (ItemSerializer.to_representation db later <$> items db now)).

End FeaturedItemsAPIView.

Module EndingSoonItemsAPIView.

(** The rows the view selects, before serialization. *)
Definition items (db : Store) (now : Z) : list Item.t :=
  let tomorrow := datetime_add now (timedelta.of_hours 24) in
  merge_sort Item.by_end_time
    (filter (λ i, now < Item.end_time i ∧ Item.end_time i ≤ tomorrow) (Item_objects db)).

(** [later] is the clock as the serializer reads it for [time_left]. *)
Definition get (db : Store) (now later : Z) (user : option nat) : Response :=
  if negb (default_permission GET user) then not_permitted else
  mkResponse HTTP_200_OK
    (ItemList (ItemSerializer.to_representation db later <$> items db now)).

End EndingSoonItemsAPIView.

(** [django.contrib.auth.authenticate] with the model backend: the account
    of that name, when the password checks and the account is active. *)
Definition authenticate `{AuthLibrary} (db : Store) (username password : string)
  : Result (option User.t) :=
  match get (filter (λ u, User.username u = username) (User_objects db)) with
  | Got user =>
      if check_password password (User.password user) && User.is_active user
      then Ok (Some user) else Ok None
  | DoesNotExist => Ok None
  | MultipleObjectsReturned => Raise "MultipleObjectsReturned"
  end.

(** [Token.objects.get_or_create(user=user)]; [key] is the fresh random key
    a new token takes. *)
Definition Token_get_or_create (db : Store) (user : nat) (key : string)
  : Result (Token.t * Store) :=
  match get (filter (λ t, Token.user t = user) (Token_objects db)) with
  | Got token => Ok (token, db)
  | DoesNotExist =>
      let token := {| Token.key := key; Token.user := user |} in
      Ok (token, set_tokens db (Token_objects db ++ [token]))
  | MultipleObjectsReturned => Raise "MultipleObjectsReturned"
  end.

Module LoginAPIView.

(** [permission_classes = [AllowAny]]. The view reads its two fields with
    [request.data.get(key)], which is [None] for a key that is absent and
    for one that is [null] alike, so the body is given as the map of its
    text fields. *)
Definition post `{AuthLibrary} (db : Store) (data : gmap string string)
    (key : string) : Response * Store :=
  let username := data !! "username" in
  let password := data !! "password" in
  if negb (truthy username) || negb (truthy password) then
    (mkResponse HTTP_400_BAD_REQUEST (ErrorMessage "Username and password required"), db)
  else
    match authenticate db (default "" username) (default "" password) with
    | Raise e => (server_error e, db)
    | Ok None =>
        (mkResponse HTTP_401_UNAUTHORIZED (ErrorMessage "Invalid credentials"), db)
    | Ok (Some user) =>
        match Token_get_or_create db (User.pk user) key with
        | Raise e => (server_error e, db)
        | Ok (token, db') =>
            let user_data := UserSerializer.to_representation user in
            match Profile_get_by_user db' (User.pk user) with
            | Got profile =>
                (mkResponse HTTP_200_OK
                   (AuthBody (Token.key token) user_data
                      (Some (ProfileSerializer.to_representation db' profile))), db')
            | DoesNotExist =>
                (mkResponse HTTP_200_OK (AuthBody (Token.key token) user_data None), db')
            | MultipleObjectsReturned => (server_error "MultipleObjectsReturned", db')
            end
        end
    end.

End LoginAPIView.

(** [User.objects.create_user]: the username is normalised, the e-mail
    address too, the password is hashed, and the row is inserted. The
    insert fails on a [None] in a text column ([NOT NULL]) and on a
    username that an account already has ([UNIQUE]). *)
Definition create_user `{AuthLibrary} (db : Store) (username email password : string)
    (first_name last_name : option string) : Result (User.t * Store) :=
  match first_name, last_name with
  | Some first_name, Some last_name =>
      let username := normalize_username username in
      if exists_ (filter (λ u, User.username u = username) (User_objects db))
      then Raise "IntegrityError"
      else
        let user :=
          {| User.pk := User_seq db;
             User.username := username;
             User.email := normalize_email email;
             User.password := make_password password;
             User.first_name := first_name;
             User.last_name := last_name;
             User.is_active := true |} in
        Ok (user, set_users db (User_objects db ++ [user]) (S (User_seq db)))
  | _, _ => Raise "IntegrityError"
  end.

(** [Profile.objects.create(user=..., username=..., ...)]: the text columns
    of a Profile are [NOT NULL] as well. *)
Definition Profile_create (db : Store) (now : Z) (user : User.t)
    (username : option string) (first_name last_name : string)
    (bio_text : option string) : Result (Profile.t * Store) :=
  match username, bio_text with
  | Some username, Some bio_text =>
      let profile :=
        {| Profile.pk := Profile_seq db;
           Profile.username := username;
           Profile.last_name := last_name;
           Profile.first_name := first_name;
           Profile.bio_text := bio_text;
           Profile.join_date := now;
           Profile.user := User.pk user |} in
      Ok (profile, set_profiles db (Profile_objects db ++ [profile]) (S (Profile_seq db)))
  | _, _ => Raise "IntegrityError"
  end.

Module RegisterAPIView.

(** [request.data] maps each key that is present to a JSON string or to
    [null], which is [None] here: [request.data.get(key)] is [None] for a
    key that is absent or [null], and [request.data.get(key, default)] is
    the default only for a key that is absent. No exception is caught and
    no transaction spans the three creates: what was inserted before an
    exception stays. *)
Definition post `{AuthLibrary} (db : Store) (now : Z) (data : gmap string (option string))
    (key : string) : Response * Store :=
  let username := mjoin (data !! "username") in
  let email := mjoin (data !! "email") in
  let password := mjoin (data !! "password") in
  let first_name := default (Some "") (data !! "first_name") in
  let last_name := default (Some "") (data !! "last_name") in
  let profile_username := default username (data !! "profile_username") in
  let bio_text := default (Some "") (data !! "bio_text") in
  if negb (truthy username) || negb (truthy email) || negb (truthy password) then
    (mkResponse HTTP_400_BAD_REQUEST
       (ErrorMessage "Username, email, and password required"), db)
  else if exists_ (filter (λ u, User.username u = default "" username) (User_objects db))
  then (mkResponse HTTP_400_BAD_REQUEST (ErrorMessage "Username already exists"), db)
  else
    match create_user db (default "" username) (default "" email) (default "" password)
            first_name last_name with
    | Raise e => (server_error e, db)
    | Ok (user, db1) =>
        match Profile_create db1 now user profile_username
                (default "" first_name) (default "" last_name) bio_text with
        | Raise e => (server_error e, db1)
        | Ok (profile, db2) =>
            let token := {| Token.key := key; Token.user := User.pk user |} in
            let db3 := set_tokens db2 (Token_objects db2 ++ [token]) in
            (mkResponse HTTP_201_CREATED
               (AuthBody (Token.key token) (UserSerializer.to_representation user)
                  (Some (ProfileSerializer.to_representation db3 profile))), db3)
        end
    end.

End RegisterAPIView.

(** ** Integrity of the authentication tables

    [username] is unique on accounts and [Token.user] is one-to-one, both
    by the schema; [Profile.user] is a plain foreign key, and every handler
    that creates a Profile creates its account with it. Primary keys come
    from the sequence, so they lie below its next value. *)

Definition unique_usernames (db : Store) : Prop :=
  NoDup (User.username <$> User_objects db).

Definition one_token_per_user (db : Store) : Prop :=
  NoDup (Token.user <$> Token_objects db).

Definition one_profile_per_user (db : Store) : Prop :=
  NoDup (Profile.user <$> Profile_objects db).

Definition well_formed (db : Store) : Prop :=
  unique_usernames db ∧ one_token_per_user db ∧ one_profile_per_user db ∧
  Forall (λ u, (User.pk u < User_seq db)%nat) (User_objects db) ∧
  Forall (λ t, (Token.user t < User_seq db)%nat) (Token_objects db) ∧
  Forall (λ p, (Profile.user p < User_seq db)%nat) (Profile_objects db).

(** Requests to the two endpoints that write the authentication tables. *)
Inductive AuthRequest : Type :=
| LoginRequest (data : gmap string string) (key : string)
| RegisterRequest (now : Z) (data : gmap string (option string)) (key : string).

Definition serve `{AuthLibrary} (db : Store) (request : AuthRequest)
  : Response * Store :=
  match request with
  | LoginRequest data key => LoginAPIView.post db data key
  | RegisterRequest now data key => RegisterAPIView.post db now data key
  end.

(** The store after a sequence of such requests. *)
Definition serve_all `{AuthLibrary} (db : Store) (requests : list AuthRequest)
  : Store :=
  foldl (λ db request, snd (serve db request)) db requests.

(** What makes [register] refuse: a required field that is missing, [null]
    or empty, or a username that an account already has. *)
Definition register_refused (db : Store) (data : gmap string (option string)) : Prop :=
  truthy (mjoin (data !! "username")) = false ∨
  truthy (mjoin (data !! "email")) = false ∨
  truthy (mjoin (data !! "password")) = false ∨
  ∃ u, u ∈ User_objects db ∧ mjoin (data !! "username") = Some (User.username u).

(** What [register] is given when nothing stands in the way of the three
    creates: the username is in the normal form that [create_user] brings
    it to, and no optional field is [null]. *)
Definition register_plain `{AuthLibrary} (data : gmap string (option string)) : Prop :=
  (∀ username, mjoin (data !! "username") = Some username →
               normalize_username username = username) ∧
  data !! "first_name" ≠ Some None ∧
  data !! "last_name" ≠ Some None ∧
  data !! "profile_username" ≠ Some None ∧
  data !! "bio_text" ≠ Some None.

(** ** Amounts a [DecimalField(max_digits=10, decimal_places=2)] can hold

    A decimal written with at most two decimal places (and no exponent
    notation) whose value has fewer than 10^10 hundredths: at most 10
    digits, 2 of them after the point. Neither the sign nor any Item's
    bids enter. *)
Definition representable_10_2 (d : Decimal.t) : Prop :=
  Decimal.well_formed d ∧
  -2 ≤ Decimal.exponent d ≤ 0 ∧
  Z.abs (Decimal.to_hundredths d) < 10 ^ 10.

(** ** Ending soon

    The Items whose end is strictly after [now] and at most 24 hours after. *)
Definition ends_within_24_hours (now : Z) (i : Item.t) : Prop :=
  now < Item.end_time i ∧ Item.end_time i ≤ now + 24 * 3600000000.

(** ** Who may change an Item

    The acting account [user] has no Profile, or has the one Profile
    [profile] and no Item with primary key [pk] belongs to it. *)
Definition not_owned_by_acting_profile (db : Store) (user pk : nat) : Prop :=
  MyLoginRequiredMixin.get_logged_in_profile db user = Ok None ∨
  ∃ profile,
    MyLoginRequiredMixin.get_logged_in_profile db user = Ok (Some profile) ∧
    ∀ item, item ∈ Item_objects db → Item.pk item = pk →
            Item.owner item ≠ Profile.pk profile.

(** ** A small marketplace, for the examples

    Accounts [alice] and [bob] with one Profile each; [alice_p] lists a vase
    at 10.00 that ends one hour after [t0]; [bob_p] has bid 15.00 on it. An
    authentication library that keeps passwords and e-mail addresses as
    they are stands in for the real one, and normalises the usernames of
    the examples as NFKC does. *)

Module Example.

(** The text [fish] written with the ligature U+FB01 for its first two
    letters, which NFKC replaces by the two letters. *)
Definition fish_ligature : string := utf8 [239; 172; 129; 115; 104]%nat.

Definition plain_auth : AuthLibrary :=
  {| make_password := λ raw, raw;
     check_password := λ raw encoded, bool_decide (raw = encoded);
     normalize_email := λ e, e;
     normalize_username := λ name, if decide (name = fish_ligature) then "fish" else name |}.

Definition t0 : Z := 1700000000000000.
Definition hour : Z := 3600000000.

Definition alice : User.t :=
  {| User.pk := 1; User.username := "alice"; User.email := "alice@example.org";
     User.password := "pw123"; User.first_name := ""; User.last_name := "";
     User.is_active := true |}.

Definition bob : User.t :=
  {| User.pk := 2; User.username := "bob"; User.email := "bob@example.org";
     User.password := "hunter2"; User.first_name := ""; User.last_name := "";
     User.is_active := true |}.

Definition alice_p : Profile.t :=
  {| Profile.pk := 1; Profile.username := "alice_p"; Profile.last_name := "";
     Profile.first_name := ""; Profile.bio_text := ""; Profile.join_date := t0;
     Profile.user := 1 |}.

Definition bob_p : Profile.t :=
  {| Profile.pk := 2; Profile.username := "bob_p"; Profile.last_name := "";
     Profile.first_name := ""; Profile.bio_text := ""; Profile.join_date := t0;
     Profile.user := 2 |}.

Definition vase : Item.t :=
  {| Item.pk := 1; Item.owner := 1; Item.title := "Vase"; Item.description := "";
     Item.starting_bid := 1000; Item.listed_at := t0; Item.end_time := t0 + hour |}.

Definition bid_15 : Bid.t :=
  {| Bid.pk := 1; Bid.item := 1; Bid.bidder := 2; Bid.bid_amount := 1500;
     Bid.timestamp := t0 |}.

Definition db : Store :=
  {| User_objects := [alice; bob];
     Token_objects := [];
     Profile_objects := [alice_p; bob_p];
     Item_objects := [vase];
     Bid_objects := [bid_15];
     Comment_objects := [];
     Review_objects := [];
     User_seq := 3; Profile_seq := 3; Bid_seq := 2; Review_seq := 1 |}.

(** An Item listed at 0.10 that nobody has bid on, alone in a store. *)
Definition dime : Item.t :=
  {| Item.pk := 7; Item.owner := 1; Item.title := "Dime"; Item.description := "";
     Item.starting_bid := 10; Item.listed_at := t0; Item.end_time := t0 + hour |}.

Definition dime_db : Store :=
  {| User_objects := [alice]; Token_objects := []; Profile_objects := [alice_p];
     Item_objects := [dime]; Bid_objects := []; Comment_objects := [];
     Review_objects := [];
     User_seq := 2; Profile_seq := 2; Bid_seq := 1; Review_seq := 1 |}.

(** The amounts -5.00, 0.00 and 0.01. *)
Definition minus_five : Decimal.t := Decimal.mk true [5; 0; 0] (-2).
Definition zero_amount : Decimal.t := Decimal.mk false [0] (-2).
Definition one_cent : Decimal.t := Decimal.mk false [1] (-2).

(** Bob reviews Alice with the given rating. *)
Definition review_of_alice (rating : Json) : ReviewSerializer.payload :=
  ReviewSerializer.mkPayload (Some 2%nat) (Some 1%nat) (Some "Thanks") (Some rating).

Definition no_change : ItemSerializer.payload :=
  ItemSerializer.mkPayload None None None None None.

Definition blank_form : UpdateItemForm.data :=
  {| UpdateItemForm.title := ""; UpdateItemForm.description := "";
     UpdateItemForm.starting_bid := None; UpdateItemForm.end_time := None |}.

End Example.

(** * The rest of the views, forms and serializers *)

(** A JSON response: serializer data; an [{'error': ...}] object a view
    builds itself; the framework's own body for a status it answers
    (401, 404, 405); the field errors of a serializer (400); no body; or an
    exception that no handler catches. *)
Inductive ResponseOf (A : Type) : Type :=
| Data (status : nat) (data : A)
| ErrorObject (status : nat) (error : string)
| Detail (status : nat)
| Invalid (fields : list string)
| NoBody (status : nat)
| Crashed (exception : string).
Arguments Data {A} status data.
Arguments ErrorObject {A} status error.
Arguments Detail {A} status.
Arguments Invalid {A} fields.
Arguments NoBody {A} status.
Arguments Crashed {A} exception.

(** The order of [order_by('-timestamp')] on Reviews and on Comments. *)
Definition Review_by_timestamp_desc (a b : Review.t) : Prop :=
  Review.timestamp b ≤ Review.timestamp a.

#[global] Instance Review_by_timestamp_desc_dec : RelDecision Review_by_timestamp_desc.
Proof. intros a b. unfold Review_by_timestamp_desc. apply _. Defined.

Definition Comment_by_timestamp_desc (a b : Comment.t) : Prop :=
  Comment.timestamp b ≤ Comment.timestamp a.

#[global] Instance Comment_by_timestamp_desc_dec : RelDecision Comment_by_timestamp_desc.
Proof. intros a b. unfold Comment_by_timestamp_desc. apply _. Defined.

Definition Comment_by_pk (db : Store) (pk : nat) : option Comment.t :=
  snd <$> list_find (λ c, Comment.pk c = pk) (Comment_objects db).

(** [instance.save()] and [instance.delete()] of a Comment. *)
Definition save_comment (db : Store) (c : Comment.t) : Store :=
  set_comments db
    ((λ x, if decide (Comment.pk x = Comment.pk c) then c else x) <$> Comment_objects db).

Definition delete_comment (db : Store) (pk : nat) : Store :=
  set_comments db (filter (λ c, Comment.pk c ≠ pk) (Comment_objects db)).

Module CommentSerializer.

Record data : Type := mk {
  id : nat;
  item : option ItemSerializer.data;
  profile : option ProfileSerializer.data;
  text : string;
  timestamp : Z }.

Definition to_representation (db : Store) (now : Z) (obj : Comment.t) : data :=
  {| id := Comment.pk obj;
     item := ItemSerializer.to_representation db now <$> Item_by_pk db (Comment.item obj);
     profile := ProfileSerializer.to_representation db <$> Profile_by_pk db (Comment.profile obj);
     text := Comment.text obj;
     timestamp := Comment.timestamp obj |}.

Record payload : Type := mkPayload {
  in_item_id : option nat;
  in_profile_id : option nat;
  in_text : option string }.

(** [item_id] is required (unless the update is partial), [profile_id] and
    [text] are not; a [text] that is present is a JSON string. *)
Definition errors (db : Store) (partial : bool) (d : payload) : list string :=
  (match in_item_id d with
   | Some pk => if Item_by_pk db pk is Some _ then [] else ["item_id"]
   | None => if partial then [] else ["item_id"]
   end) ++
  (match in_profile_id d with
   | Some pk => if Profile_by_pk db pk is Some _ then [] else ["profile_id"]
   | None => []
   end) ++
  (match in_text d with
   | Some text => if CharField.run_validation text is Some _ then [] else ["text"]
   | None => []
   end).

Definition update (now : Z) (instance : Comment.t) (d : payload) : Comment.t :=
  {| Comment.pk := Comment.pk instance;
     Comment.item := default (Comment.item instance) (in_item_id d);
     Comment.profile := default (Comment.profile instance) (in_profile_id d);
     Comment.text := default (Comment.text instance) (in_text d ≫= CharField.run_validation);
     Comment.timestamp := now |}.

End CommentSerializer.

Module CreateItemForm.
(** The same fields as [UpdateItemForm]. *)
Record data : Type := mk {
  title : string;
  description : string;
  starting_bid : option Decimal.t;
  end_time : option Z }.

Definition empty : data :=
  {| title := ""; description := ""; starting_bid := None; end_time := None |}.

Definition cleaned (d : data) : option (Z * Z) :=
  match starting_bid d, end_time d with
  | Some a, Some e =>
      if DecimalValidator 10 2 a then Some (Decimal.to_hundredths a, e) else None
  | _, _ => None
  end.
End CreateItemForm.

Module CreateReviewForm.
(** [fields = ['numerical_rating','feedback']]: the rating arrives as text
    and must be the text of one of the choices ([None] is a field that is
    absent); [feedback] may be blank. *)
Record data : Type := mk { numerical_rating : option string; feedback : string }.

Definition empty : data := {| numerical_rating := None; feedback := "" |}.

(** [cleaned_data['numerical_rating']]: the choice whose [str] is the
    submitted text, coerced to an integer; an empty value fails the
    required check, and no choice has an empty [str]. *)
Definition cleaned (d : data) : option Z :=
  raw ← numerical_rating d;
  (fst ∘ snd) <$> list_find (λ c : Z * string, pretty (fst c) = raw) Review.Rating.choices.
End CreateReviewForm.

Module CreateCommentForm.
(** [fields = ['text']], and [text] may be blank: the form has no required
    field, so the form bound to an empty [request.POST] is valid too. *)
Record data : Type := mk { text : string }.

Definition empty : data := {| text := "" |}.
End CreateCommentForm.

Module HomeView.
(** [context['featured_items']]: the first ten of the open Items, newest
    listing first. *)
Definition get_context_data (db : Store) (now : Z) : list Item.t :=
  take 10 (merge_sort Item.by_listed_at_desc
             (filter (λ i, now < Item.end_time i) (Item_objects db))).
End HomeView.

Module ItemAuctionListView.
Definition get_queryset (db : Store) : list Item.t :=
  merge_sort Item.by_listed_at_desc (Item_objects db).
End ItemAuctionListView.

Module CreateItemView.

(** [pk] is the primary key the database assigns to the new row. The form
    is validated first; [form_valid] then asks for the acting Profile. *)
Definition dispatch (db : Store) (now : Z) (user : option nat) (method : Method)
    (form : CreateItemForm.data) (pk : nat) : Response * Store :=
  let form := if method is PUT then CreateItemForm.empty else form in
  match user with
  | None => (MyLoginRequiredMixin.login_redirect, db)
  | Some u =>
      match method with
      | PATCH | DELETE =>
          (mkResponse HTTP_405_METHOD_NOT_ALLOWED MethodNotAllowed, db)
      | GET => (mkResponse HTTP_200_OK (Page "project/create_item_form.html"), db)
      | _ =>
          match CreateItemForm.cleaned form with
          | Some c =>
              match MyLoginRequiredMixin.get_logged_in_profile db u with
              | Raise e => (server_error e, db)
              | Ok None =>
                  (mkResponse HTTP_302_FOUND (Redirect "create_profile"), db)
              | Ok (Some profile) =>
                  let item :=
                    {| Item.pk := pk;
                       Item.owner := Profile.pk profile;
                       Item.title := CreateItemForm.title form;
                       Item.description := CreateItemForm.description form;
                       Item.starting_bid := fst c;
                       Item.listed_at := now;
                       Item.end_time := snd c |} in
                  (mkResponse HTTP_302_FOUND (Redirect "item_detail"),
                   set_items db (Item_objects db ++ [item]))
              end
          | None =>
              (mkResponse HTTP_200_OK (Page "project/create_item_form.html"), db)
          end
      end
  end.

End CreateItemView.

Module CreateCommentView.

(** As in [CreateBidView], [Item.objects.get(pk=item_id)] is not guarded;
    [pk] is the primary key the database assigns to the new row. *)
Definition dispatch (db : Store) (now : Z) (user : option nat) (method : Method)
    (item_id : nat) (form : CreateCommentForm.data) (pk : nat) : Response * Store :=
  let form := if method is PUT then CreateCommentForm.empty else form in
  match user with
  | None => (MyLoginRequiredMixin.login_redirect, db)
  | Some u =>
      match method with
      | PATCH | DELETE =>
          (mkResponse HTTP_405_METHOD_NOT_ALLOWED MethodNotAllowed, db)
      | GET =>
          match Item_by_pk db item_id with
          | None => (server_error "DoesNotExist", db)
          | Some _ =>
              (mkResponse HTTP_200_OK (Page "project/create_comment_form.html"), db)
          end
      | _ =>
          match Item_by_pk db item_id with
          | None => (server_error "DoesNotExist", db)
          | Some item =>
              match MyLoginRequiredMixin.get_logged_in_profile db u with
              | Raise e => (server_error e, db)
              | Ok None =>
                  (mkResponse HTTP_302_FOUND (Redirect "create_profile"), db)
              | Ok (Some profile) =>
                  let comment :=
                    {| Comment.pk := pk;
                       Comment.item := Item.pk item;
                       Comment.profile := Profile.pk profile;
                       Comment.text := CreateCommentForm.text form;
                       Comment.timestamp := now |} in
                  (mkResponse HTTP_302_FOUND (Redirect "item_detail"),
                   set_comments db (Comment_objects db ++ [comment]))
              end
          end
      end
  end.

End CreateCommentView.

Module CreateReviewView.

(** [Profile.objects.get(pk=profile_id)] is not guarded, in
    [get_context_data] as in [form_valid]; nothing compares the reviewer with
    the reviewed Profile. *)
Definition dispatch (db : Store) (now : Z) (user : option nat) (method : Method)
    (profile_id : nat) (form : CreateReviewForm.data) : Response * Store :=
  let form := if method is PUT then CreateReviewForm.empty else form in
  match user with
  | None => (MyLoginRequiredMixin.login_redirect, db)
  | Some u =>
      match method with
      | PATCH | DELETE =>
          (mkResponse HTTP_405_METHOD_NOT_ALLOWED MethodNotAllowed, db)
      | GET =>
          match Profile_by_pk db profile_id with
          | None => (server_error "DoesNotExist", db)
          | Some _ =>
              (mkResponse HTTP_200_OK (Page "project/create_review_form.html"), db)
          end
      | _ =>
          match Profile_by_pk db profile_id with
          | None => (server_error "DoesNotExist", db)
          | Some reviewed_profile =>
              match CreateReviewForm.cleaned form with
              | Some rating =>
                  match MyLoginRequiredMixin.get_logged_in_profile db u with
                  | Raise e => (server_error e, db)
                  | Ok None =>
                      (mkResponse HTTP_302_FOUND (Redirect "create_profile"), db)
                  | Ok (Some reviewer) =>
                      let review :=
                        {| Review.pk := Review_seq db;
                           Review.reviewer := Profile.pk reviewer;
                           Review.reviewed_profile := Profile.pk reviewed_profile;
                           Review.feedback := CreateReviewForm.feedback form;
                           Review.numerical_rating := rating;
                           Review.timestamp := now |} in
                      (mkResponse HTTP_302_FOUND (Redirect "profile_detail"),
                       set_reviews db (Review_objects db ++ [review]) (S (Review_seq db)))
                  end
              | None =>
                  (mkResponse HTTP_200_OK (Page "project/create_review_form.html"), db)
              end
          end
      end
  end.

End CreateReviewView.

Module ItemBidsAPIView.

(** [Bid.objects.filter(item=item).order_by('-timestamp')] *)
Definition bids (db : Store) (item : Item.t) : list Bid.t :=
  merge_sort Bid.by_timestamp_desc (Item.bids_of (Bid_objects db) item).

Definition get (db : Store) (later : Z) (user : option nat) (item_id : nat)
  : ResponseOf (list BidSerializer.data) :=
  if negb (default_permission GET user) then Detail HTTP_401_UNAUTHORIZED else
  match Item_by_pk db item_id with
  | Some item =>
      Data HTTP_200_OK (BidSerializer.to_representation db later <$> bids db item)
  | None => ErrorObject HTTP_404_NOT_FOUND "Item not found"
  end.

End ItemBidsAPIView.

Module ItemCommentsAPIView.

Definition comments (db : Store) (item : Item.t) : list Comment.t :=
  merge_sort Comment_by_timestamp_desc
    (filter (λ c, Comment.item c = Item.pk item) (Comment_objects db)).

Definition get (db : Store) (later : Z) (user : option nat) (item_id : nat)
  : ResponseOf (list CommentSerializer.data) :=
  if negb (default_permission GET user) then Detail HTTP_401_UNAUTHORIZED else
  match Item_by_pk db item_id with
  | Some item =>
      Data HTTP_200_OK (CommentSerializer.to_representation db later <$> comments db item)
  | None => ErrorObject HTTP_404_NOT_FOUND "Item not found"
  end.

End ItemCommentsAPIView.

Module ProfileItemsAPIView.

Definition items (db : Store) (profile : Profile.t) : list Item.t :=
  merge_sort Item.by_listed_at_desc
    (filter (λ i, Item.owner i = Profile.pk profile) (Item_objects db)).

Definition get (db : Store) (later : Z) (user : option nat) (profile_id : nat)
  : ResponseOf (list ItemSerializer.data) :=
  if negb (default_permission GET user) then Detail HTTP_401_UNAUTHORIZED else
  match Profile_by_pk db profile_id with
  | Some profile =>
      Data HTTP_200_OK (ItemSerializer.to_representation db later <$> items db profile)
  | None => ErrorObject HTTP_404_NOT_FOUND "Profile not found"
  end.

End ProfileItemsAPIView.

Module ProfileReviewsAPIView.

Definition reviews (db : Store) (profile : Profile.t) : list Review.t :=
  merge_sort Review_by_timestamp_desc
    (Profile.received_reviews (Review_objects db) profile).

Definition get (db : Store) (user : option nat) (profile_id : nat)
  : ResponseOf (list ReviewSerializer.data) :=
  if negb (default_permission GET user) then Detail HTTP_401_UNAUTHORIZED else
  match Profile_by_pk db profile_id with
  | Some profile =>
      Data HTTP_200_OK (ReviewSerializer.to_representation db <$> reviews db profile)
  | None => ErrorObject HTTP_404_NOT_FOUND "Profile not found"
  end.

End ProfileReviewsAPIView.

Module CommentDetailAPIView.

(** [queryset = Comment.objects.all()], like the other generic views. *)
Definition dispatch (db : Store) (now later : Z) (user : option nat)
    (method : Method) (pk : nat) (data : CommentSerializer.payload)
  : ResponseOf CommentSerializer.data * Store :=
  if negb (default_permission method user) then (Detail HTTP_401_UNAUTHORIZED, db) else
  match method with
  | POST => (Detail HTTP_405_METHOD_NOT_ALLOWED, db)
  | _ =>
      match Comment_by_pk db pk with
      | None => (Detail HTTP_404_NOT_FOUND, db)
      | Some instance =>
          match method with
          | GET =>
              (Data HTTP_200_OK (CommentSerializer.to_representation db later instance), db)
          | DELETE =>
              (NoBody HTTP_204_NO_CONTENT, delete_comment db pk)
          | _ =>
              let partial := if method is PATCH then true else false in
              match CommentSerializer.errors db partial data with
              | [] =>
                  let instance' := CommentSerializer.update now instance data in
                  let db' := save_comment db instance' in
                  (Data HTTP_200_OK (CommentSerializer.to_representation db' later instance'),
                   db')
              | errs => (Invalid errs, db)
              end
          end
      end
  end.

End CommentDetailAPIView.

Module TokenAuthentication.

(** Modelled from the spec: the authentication classes of the JSON API are
    named in the project settings, which are not among the sources. The
    specification has a "bearer opaque token in a request header, one token
    per account" and "Unauthorized (missing/invalid credentials or token -
    401)"; that is the framework's [TokenAuthentication]. [authorization]
    is the key in the request's [Authorization] header, if there is one.
    [request.user] is the account of the token with that key, when the
    account is active; without a header, with a key no token has, or for an
    account that is not active, the request has no user. *)
Definition authenticate (db : Store) (authorization : option string)
  : Result (option User.t) :=
  match authorization with
  | None => Ok None
  | Some key =>
      match get (filter (λ t, Token.key t = key) (Token_objects db)) with
      | Got token =>
          match User_by_pk db (Token.user token) with
          | Some user => if User.is_active user then Ok (Some user) else Ok None
          | None => Raise "DoesNotExist"
          end
      | DoesNotExist => Ok None
      | MultipleObjectsReturned => Raise "MultipleObjectsReturned"
      end
  end.

End TokenAuthentication.

Module CurrentUserAPIView.

(** [permission_classes = [IsAuthenticated]]: a request without a user is
    turned away, with the 401 of [TokenAuthentication]. Only
    [Profile.DoesNotExist] is caught. *)
Definition get (db : Store) (authorization : option string)
  : ResponseOf (UserSerializer.data * option ProfileSerializer.data) :=
  match TokenAuthentication.authenticate db authorization with
  | Raise e => Crashed e
  | Ok None => Detail HTTP_401_UNAUTHORIZED
  | Ok (Some u) =>
      let user_data := UserSerializer.to_representation u in
      match Profile_get_by_user db (User.pk u) with
      | Got profile =>
          Data HTTP_200_OK (user_data, Some (ProfileSerializer.to_representation db profile))
      | DoesNotExist => Data HTTP_200_OK (user_data, None)
      | MultipleObjectsReturned => Crashed "MultipleObjectsReturned"
      end
  end.

End CurrentUserAPIView.

(** Every stored rating is one of the five choices. *)
Definition ratings_in_range (db : Store) : Prop :=
  Forall (λ r, 1 ≤ Review.numerical_rating r ≤ 5) (Review_objects db).

(** * Properties *)

(** ** Ordered querysets *)

Section order_by.
Context {A : Type} (R : relation A) `{!RelDecision R, !Transitive R, !Total R}.

(** [order_by(...).first()] is a row of the queryset that the order puts
    before every other row. *)
Lemma first_of_order_by (l : list A) (x : A) :
  head (merge_sort R l) = Some x → x ∈ l ∧ ∀ y, y ∈ l → R x y.
Proof.
  intros Hhd. apply head_Some in Hhd as [rest Hrest].
  pose proof (merge_sort_Permutation R l) as Hperm.
  pose proof (StronglySorted_merge_sort R l) as Hsorted.
  rewrite Hrest in Hperm, Hsorted.
  split.
  - rewrite <- Hperm. left.
  - intros y Hy. rewrite <- Hperm in Hy.
    apply elem_of_cons in Hy as [-> | Hy].
    + destruct (total R x x); assumption.
    + apply StronglySorted_inv in Hsorted as [_ Hall].
      rewrite Forall_forall in Hall. by apply Hall.
Qed.

Lemma first_of_order_by_None (l : list A) :
  head (merge_sort R l) = None ↔ l = [].
Proof.
  rewrite head_None. split.
  - intros Hnil. pose proof (merge_sort_Permutation R l) as Hperm.
    rewrite Hnil in Hperm. symmetry in Hperm. by apply Permutation_nil_r in Hperm.
  - by intros ->.
Qed.

End order_by.

#[global] Instance by_amount_desc_trans : Transitive Bid.by_amount_desc.
Proof. unfold Bid.by_amount_desc. intros a b c ??. lia. Qed.

#[global] Instance by_amount_desc_total : Total Bid.by_amount_desc.
Proof. unfold Bid.by_amount_desc. intros a b. lia. Qed.

#[global] Instance by_end_time_trans : Transitive Item.by_end_time.
Proof. unfold Item.by_end_time. intros a b c ??. lia. Qed.

#[global] Instance by_end_time_total : Total Item.by_end_time.
Proof. unfold Item.by_end_time. intros a b. lia. Qed.

(** ** Current bid and number of bids *)

Lemma elem_of_bids_of (Bid_objects : list Bid.t) (self : Item.t) (b : Bid.t) :
  b ∈ Item.bids_of Bid_objects self ↔ b ∈ Bid_objects ∧ Bid.item b = Item.pk self.
Proof. unfold Item.bids_of. rewrite list_elem_of_filter. tauto. Qed.

(** C1. An Item none of whose Bids exist has [current_bid = starting_bid]
    and [num_bids = 0]; an Item with at least one Bid has as [current_bid]
    the amount of one of its Bids, and no Bid of the Item has a larger
    amount: the maximum [bid_amount] among its Bids. *)
Theorem current_bid_is_max_or_starting_bid (Bid_objects : list Bid.t) (self : Item.t) :
  ((∀ b, b ∈ Bid_objects → Bid.item b ≠ Item.pk self) →
     Item.get_current_bid Bid_objects self = Item.starting_bid self ∧
     Item.get_num_bids Bid_objects self = 0%nat) ∧
  ((∃ b, b ∈ Bid_objects ∧ Bid.item b = Item.pk self) →
     (0 < Item.get_num_bids Bid_objects self)%nat ∧
     (∃ b, b ∈ Bid_objects ∧ Bid.item b = Item.pk self ∧
           Item.get_current_bid Bid_objects self = Bid.bid_amount b) ∧
     (∀ b, b ∈ Bid_objects → Bid.item b = Item.pk self →
           Bid.bid_amount b ≤ Item.get_current_bid Bid_objects self)).
Proof.
  unfold Item.get_current_bid, Item.get_num_bids. split.
  - intros Hnone.
    assert (Item.bids_of Bid_objects self = []) as ->.
    { apply elem_of_nil_inv. intros b [Hb Hit]%elem_of_bids_of.
      by apply (Hnone b). }
    done.
  - intros (b0 & Hb0 & Hit0).
    assert (b0 ∈ Item.bids_of Bid_objects self) as Hin0 by by apply elem_of_bids_of.
    destruct (head (merge_sort Bid.by_amount_desc (Item.bids_of Bid_objects self)))
      as [h|] eqn:Hhd.
    + apply first_of_order_by in Hhd as [Hh Hmax]; [|apply _..].
      apply elem_of_bids_of in Hh as [Hh1 Hh2].
      split; [|split].
      * destruct (Item.bids_of Bid_objects self); [by apply elem_of_nil in Hin0|simpl; lia].
      * by exists h.
      * intros b Hb Hit. apply (Hmax b). by apply elem_of_bids_of.
    + apply first_of_order_by_None in Hhd. rewrite Hhd in Hin0.
      by apply elem_of_nil in Hin0.
Qed.

Lemma current_bid_is_max_or_starting_bid_witness :
  (Item.get_current_bid [] Example.vase = 1000 ∧
   Item.get_num_bids [] Example.vase = 0%nat) ∧
  (0 < Item.get_num_bids [Example.bid_15] Example.vase)%nat ∧
  (∃ b, b ∈ [Example.bid_15] ∧ Bid.item b = 1%nat ∧
        Item.get_current_bid [Example.bid_15] Example.vase = Bid.bid_amount b) ∧
  (∀ b, b ∈ [Example.bid_15] → Bid.item b = 1%nat →
        Bid.bid_amount b ≤ Item.get_current_bid [Example.bid_15] Example.vase).
Proof.
  split.
  - apply (proj1 (current_bid_is_max_or_starting_bid [] Example.vase)).
    intros b Hb. by apply elem_of_nil in Hb.
  - apply (proj2 (current_bid_is_max_or_starting_bid [Example.bid_15] Example.vase)).
    exists Example.bid_15. split; [left|done].
Defined.

(** ** Time left *)

Lemma to_microseconds_of_microseconds (us : Z) :
  timedelta.to_microseconds (timedelta.of_microseconds us) = us.
Proof.
  unfold timedelta.to_microseconds, timedelta.of_microseconds. simpl.
  rewrite <- (Z.mod_mod_divide us 86400000000 1000000) by (by exists 86400).
  pose proof (Z.div_mod us 86400000000 ltac:(lia)) as Hday.
  pose proof (Z.div_mod (us mod 86400000000) 1000000 ltac:(lia)) as Hsec.
  lia.
Qed.

Lemma total_seconds_sign (us : Z) :
  (timedelta.total_seconds (timedelta.of_microseconds us) < 0)%Q ↔ us < 0.
Proof.
  unfold timedelta.total_seconds. rewrite to_microseconds_of_microseconds.
  unfold Qlt. simpl. lia.
Qed.

(** A decimal numeral does not start with the letter E. *)
Lemma pretty_N_go_head (x : N) (s : string) :
  (0 < x)%N → ∃ c rest, pretty_N_go x s = String c rest ∧ c ≠ "E"%char.
Proof.
  revert s. induction (N.lt_wf_0 x) as [x _ IH]. intros s Hpos.
  rewrite pretty_N_go_step by done.
  destruct (decide (x `div` 10 = 0)%N) as [Hz | Hnz].
  - rewrite Hz, pretty_N_go_0. eexists _, _. split; [done|].
    unfold pretty_N_char. by repeat case_match.
  - apply IH.
    + apply N.div_lt; [done | reflexivity].
    + by apply N.neq_0_lt_0.
Qed.

Lemma pretty_Z_head (z : Z) :
  ∃ c rest, pretty z = String c rest ∧ c ≠ "E"%char.
Proof.
  destruct z as [|p|p]; unfold pretty, pretty_Z.
  - by eexists _, _.
  - unfold pretty, pretty_positive, pretty, pretty_N.
    rewrite decide_False by done. by apply pretty_N_go_head.
  - eexists _, _. by split.
Qed.

Lemma append_String (c : ascii) (r s : string) :
  String c r +:+ s = String c (r +:+ s).
Proof. reflexivity. Qed.

Lemma timedelta_str_not_Ended (d : timedelta.t) : timedelta.str d ≠ "Ended".
Proof.
  unfold timedelta.str.
  destruct (pretty_Z_head (timedelta.seconds d / 60 / 60))
    as (c1 & r1 & -> & Hc1).
  destruct (pretty_Z_head (timedelta.days d)) as (c2 & r2 & -> & Hc2).
  repeat case_decide; rewrite !append_String; congruence.
Qed.

(** An auction whose end lies strictly in the past reads ["Ended"], from
    the model helper and from the serializer. *)
Lemma time_left_past (now : Z) (self : Item.t) :
  Item.end_time self < now →
  Item.get_time_left now self = TimeLeftStr "Ended" ∧
  ItemSerializer.get_time_left now self = "Ended".
Proof.
  intros Hlt. unfold ItemSerializer.get_time_left, Item.get_time_left, datetime_sub.
  destruct (Qlt_le_dec _ _) as [Hq | Hq]; [done|].
  apply Qle_not_lt in Hq. exfalso. apply Hq, total_seconds_sign. lia.
Qed.

(** An auction whose end is not before [now] reads the remaining duration,
    and the serializer renders that duration with [str]: a string other than
    ["Ended"]. *)
Lemma time_left_not_past (now : Z) (self : Item.t) :
  now ≤ Item.end_time self →
  Item.get_time_left now self = TimeLeftDelta (datetime_sub (Item.end_time self) now) ∧
  timedelta.to_microseconds (datetime_sub (Item.end_time self) now)
    = Item.end_time self - now ∧
  ItemSerializer.get_time_left now self
    = timedelta.str (datetime_sub (Item.end_time self) now) ∧
  ItemSerializer.get_time_left now self ≠ "Ended".
Proof.
  intros Hle. unfold ItemSerializer.get_time_left, Item.get_time_left, datetime_sub.
  destruct (Qlt_le_dec _ _) as [Hq | Hq].
  - apply (proj1 (total_seconds_sign _)) in Hq. lia.
  - split; [done|]. split; [apply to_microseconds_of_microseconds|].
    split; [done|]. apply timedelta_str_not_Ended.
Qed.

(** C2, at the boundary. When [end_time] is exactly the current time the
    difference is zero, [total_seconds() < 0] is false, and the helper
    returns the zero duration: the serializer renders ["0:00:00"], not
    ["Ended"]. At that same instant the views that select the Items that
    have not ended ([end_time__gt=now]) leave the Item out. *)
Theorem time_left_zero_difference_is_not_Ended (self : Item.t) :
  Item.get_time_left (Item.end_time self) self
    = TimeLeftDelta {| timedelta.days := 0; timedelta.seconds := 0;
                       timedelta.microseconds := 0 |} ∧
  ItemSerializer.get_time_left (Item.end_time self) self = "0:00:00" ∧
  ItemSerializer.get_time_left (Item.end_time self) self ≠ "Ended" ∧
  (∀ db, self ∉ FeaturedItemsAPIView.items db (Item.end_time self)) ∧
  (∀ db, self ∉ EndingSoonItemsAPIView.items db (Item.end_time self)).
Proof.
  destruct (time_left_not_past (Item.end_time self) self) as (H1 & _ & H2 & H3); [lia|].
  rewrite H2 in H3 |- *. rewrite H1. unfold datetime_sub in *. rewrite Z.sub_diag in *.
  split; [done|]. split; [done|]. split; [done|]. split.
  - intros db. unfold FeaturedItemsAPIView.items.
    rewrite merge_sort_Permutation, list_elem_of_filter. lia.
  - intros db. unfold EndingSoonItemsAPIView.items.
    rewrite merge_sort_Permutation, list_elem_of_filter. lia.
Qed.

(** ** Ownership of Items on the two surfaces *)

Lemma get_object_None (queryset : list Item.t) (pk : nat) :
  get_object queryset pk = None ↔ ∀ item, item ∈ queryset → Item.pk item ≠ pk.
Proof.
  unfold get_object. rewrite fmap_None, list_find_None, Forall_forall. done.
Qed.

Lemma get_object_Some (queryset : list Item.t) (pk : nat) (item : Item.t) :
  get_object queryset pk = Some item → item ∈ queryset ∧ Item.pk item = pk.
Proof.
  unfold get_object. intros [[i x] [Hfind ->]]%fmap_Some.
  apply list_find_Some in Hfind as (Hi & Hpk & _). split; [|done].
  by eapply list_elem_of_lookup_2.
Qed.

(** The queryset both page views retrieve from holds no Item of that
    primary key when the acting Profile does not own it. *)
Lemma page_queryset_misses (db : Store) (user pk : nat) :
  not_owned_by_acting_profile db user pk →
  ∃ queryset,
    UpdateItemView.get_queryset db user = Ok queryset ∧
    DeleteItemView.get_queryset db user = Ok queryset ∧
    get_object queryset pk = None.
Proof.
  unfold UpdateItemView.get_queryset, DeleteItemView.get_queryset.
  intros [-> | (profile & -> & Hnot)].
  - by exists [].
  - eexists. split; [done|]. split; [done|].
    apply get_object_None. intros item [Howner Hin]%list_elem_of_filter Hpk.
    by apply (Hnot item).
Qed.

(** C3, as the code has it. On the page surface, a request to update or
    delete an Item that the acting Profile does not own (or by an account
    with no Profile) is answered 404 and the store is unchanged. The JSON API
    looks the Item up among all Items and asks nothing about its owner: for
    every caller that its permission check admits, the acting account
    among them, a DELETE of an Item that exists is answered 204 and removes
    it, and a PUT or a PATCH with a valid body is answered 200 with the
    rewritten Item, which is stored. *)
Theorem item_mutation_owner_only_on_pages (db : Store) (now later : Z) (user pk : nat) :
  not_owned_by_acting_profile db user pk →
  (∀ method form, method ≠ PATCH → method ≠ DELETE →
     UpdateItemView.dispatch db now (Some user) method pk form
     = (mkResponse HTTP_404_NOT_FOUND Http404, db)) ∧
  (∀ method, method ≠ PUT → method ≠ PATCH →
     DeleteItemView.dispatch db (Some user) method pk
     = (mkResponse HTTP_404_NOT_FOUND Http404, db)) ∧
  (∀ method form, snd (UpdateItemView.dispatch db now (Some user) method pk form) = db) ∧
  (∀ method, snd (DeleteItemView.dispatch db (Some user) method pk) = db) ∧
  (∀ caller item data,
     get_object (Item_objects db) pk = Some item →
     let saved := ItemSerializer.update now item data in
     let rewritten :=
       (mkResponse HTTP_200_OK
          (ItemBody (ItemSerializer.to_representation (save_item db saved) later saved)),
        save_item db saved) in
     (default_permission DELETE caller = true →
      ItemDetailAPIView.dispatch db now later caller DELETE pk data
      = (mkResponse HTTP_204_NO_CONTENT NoContent, delete_item db (Item.pk item))) ∧
     (default_permission PUT caller = true →
      ItemSerializer.errors db false data = [] →
      ItemDetailAPIView.dispatch db now later caller PUT pk data = rewritten) ∧
     (default_permission PATCH caller = true →
      ItemSerializer.errors db true data = [] →
      ItemDetailAPIView.dispatch db now later caller PATCH pk data = rewritten)).
Proof.
  intros (queryset & Hupd & Hdel & Hmiss)%page_queryset_misses.
  unfold UpdateItemView.dispatch, DeleteItemView.dispatch. rewrite Hupd, Hdel, Hmiss.
  split; [by intros [] form ??|]. split; [by intros [] ??|].
  split; [by intros [] form|]. split; [by intros []|].
  intros caller item data Hget. cbv zeta.
  unfold ItemDetailAPIView.dispatch, ItemDetailAPIView.queryset.
  split; [|split].
  - intros ->. simpl. by rewrite Hget.
  - intros -> Hvalid. simpl. by rewrite Hget, Hvalid.
  - intros -> Hvalid. simpl. by rewrite Hget, Hvalid.
Qed.

(** Bob, who owns no Item, asks for Alice's vase. *)
Lemma bob_does_not_own_the_vase :
  not_owned_by_acting_profile Example.db 2 1.
Proof.
  right. exists Example.bob_p. split; [done|].
  intros item ->%list_elem_of_singleton _. done.
Qed.

Lemma item_mutation_owner_only_on_pages_witness :
  UpdateItemView.dispatch Example.db Example.t0 (Some 2%nat) POST 1 Example.blank_form
  = (mkResponse HTTP_404_NOT_FOUND Http404, Example.db) ∧
  DeleteItemView.dispatch Example.db (Some 2%nat) POST 1
  = (mkResponse HTTP_404_NOT_FOUND Http404, Example.db) ∧
  ItemDetailAPIView.dispatch Example.db Example.t0 Example.t0 (Some 2%nat) DELETE 1
    Example.no_change
  = (mkResponse HTTP_204_NO_CONTENT NoContent, delete_item Example.db 1).
Proof.
  destruct (item_mutation_owner_only_on_pages Example.db Example.t0 Example.t0 2 1
              bob_does_not_own_the_vase) as (Hupd & Hdel & _ & _ & Hapi).
  split; [by apply Hupd|]. split; [by apply Hdel|].
  by apply (Hapi (Some 2%nat) Example.vase Example.no_change).
Defined.

(** C3 as stated fails on the JSON API: Bob is authenticated, has a Profile
    and does not own the vase, yet his DELETE is answered 204 and the vase
    is gone, and his PATCH with a new title, like his PUT with a new title
    and an end time, is answered 200 and retitles it. *)
Lemma api_item_delete_by_non_owner :
  not_owned_by_acting_profile Example.db 2 1 ∧
  Item_by_pk Example.db 1 = Some Example.vase ∧
  (let '(response, db') :=
     ItemDetailAPIView.dispatch Example.db Example.t0 Example.t0 (Some 2%nat)
       DELETE 1 Example.no_change in
   status_code response = HTTP_204_NO_CONTENT ∧
   status_code response ≠ HTTP_404_NOT_FOUND ∧
   Item_by_pk db' 1 = None ∧ db' ≠ Example.db) ∧
  (let '(response, db') :=
     ItemDetailAPIView.dispatch Example.db Example.t0 Example.t0 (Some 2%nat)
       PATCH 1 (ItemSerializer.mkPayload None (Some "Mine now") None None None) in
   status_code response = HTTP_200_OK ∧
   Item.title <$> Item_by_pk db' 1 = Some "Mine now") ∧
  (let '(response, db') :=
     ItemDetailAPIView.dispatch Example.db Example.t0 Example.t0 (Some 2%nat)
       PUT 1 (ItemSerializer.mkPayload None (Some "Mine now") None None
                (Some (Example.t0 + Example.hour))) in
   status_code response = HTTP_200_OK ∧
   Item.title <$> Item_by_pk db' 1 = Some "Mine now").
Proof.
  split; [exact bob_does_not_own_the_vase|].
  split; [done|]. split; [|split; vm_compute; done].
  vm_compute. repeat split; discriminate.
Qed.

(** ** Registration *)

Lemma exists_filter_true {A : Type} (P : A → Prop) `{!∀ x, Decision (P x)}
    (l : list A) :
  exists_ (filter P l) = true ↔ ∃ x, x ∈ l ∧ P x.
Proof.
  destruct (filter P l) as [|x rest] eqn:Hf; simpl.
  - split; [done|]. intros (x & Hin & HP).
    assert (x ∈ filter P l) as Hx by by apply list_elem_of_filter.
    rewrite Hf in Hx. by apply elem_of_nil in Hx.
  - split; [|done]. intros _. exists x.
    assert (x ∈ filter P l) as Hx by (rewrite Hf; left).
    apply list_elem_of_filter in Hx. tauto.
Qed.

Lemma exists_filter_false {A : Type} (P : A → Prop) `{!∀ x, Decision (P x)}
    (l : list A) :
  exists_ (filter P l) = false ↔ ∀ x, x ∈ l → ¬ P x.
Proof.
  rewrite <- not_true_iff_false, exists_filter_true. split.
  - intros Hnone x Hx HP. apply Hnone. by exists x.
  - intros Hall (x & Hx & HP). by apply (Hall x).
Qed.

Lemma truthy_Some (v : option string) :
  truthy v = true → ∃ s, v = Some s ∧ s ≠ "".
Proof.
  destruct v as [s|]; [|done]. simpl. intros Hs%bool_decide_eq_true. by exists s.
Qed.

Lemma register_refused_400 `{AuthLibrary} (db : Store) (now : Z)
    (data : gmap string (option string)) (key : string) :
  register_refused db data →
  ∃ error,
    RegisterAPIView.post db now data key
    = (mkResponse HTTP_400_BAD_REQUEST (ErrorMessage error), db).
Proof.
  intros Href. unfold RegisterAPIView.post.
  destruct (truthy (mjoin (data !! "username"))) eqn:Hu; [|by eexists].
  destruct (truthy (mjoin (data !! "email"))) eqn:He; [|by eexists].
  destruct (truthy (mjoin (data !! "password"))) eqn:Hp; [|by eexists].
  simpl. destruct Href as [? | [? | [? | (u & Hin & Hname)]]]; try congruence.
  rewrite (proj2 (exists_filter_true _ _)); [by eexists|].
  exists u. split; [done|]. by rewrite Hname.
Qed.

(** Past its two checks, [register] is its three creates. *)
Lemma register_run `{AuthLibrary} (db : Store) (now : Z)
    (data : gmap string (option string)) (key username : string) :
  mjoin (data !! "username") = Some username → username ≠ "" →
  truthy (mjoin (data !! "email")) = true →
  truthy (mjoin (data !! "password")) = true →
  (∀ u, u ∈ User_objects db → User.username u ≠ username) →
  RegisterAPIView.post db now data key
  = match create_user db username (default "" (mjoin (data !! "email")))
            (default "" (mjoin (data !! "password")))
            (default (Some "") (data !! "first_name"))
            (default (Some "") (data !! "last_name")) with
    | Raise e => (server_error e, db)
    | Ok (user, db1) =>
        match Profile_create db1 now user
                (default (Some username) (data !! "profile_username"))
                (default "" (default (Some "") (data !! "first_name")))
                (default "" (default (Some "") (data !! "last_name")))
                (default (Some "") (data !! "bio_text")) with
        | Raise e => (server_error e, db1)
        | Ok (profile, db2) =>
            let token := {| Token.key := key; Token.user := User.pk user |} in
            let db3 := set_tokens db2 (Token_objects db2 ++ [token]) in
            (mkResponse HTTP_201_CREATED
               (AuthBody key (UserSerializer.to_representation user)
                  (Some (ProfileSerializer.to_representation db3 profile))), db3)
        end
    end.
Proof.
  intros Hname Hne Hemail Hpassword Hfree. unfold RegisterAPIView.post.
  rewrite Hname, Hemail, Hpassword. simpl. rewrite bool_decide_eq_true_2 by done. simpl.
  by rewrite (proj2 (exists_filter_false _ _)) by (intros u Hu; by apply Hfree).
Qed.

Lemma not_register_refused (db : Store) (data : gmap string (option string)) :
  ¬ register_refused db data →
  ∃ username,
    mjoin (data !! "username") = Some username ∧ username ≠ "" ∧
    truthy (mjoin (data !! "email")) = true ∧
    truthy (mjoin (data !! "password")) = true ∧
    ∀ u, u ∈ User_objects db → User.username u ≠ username.
Proof.
  intros Hok.
  destruct (truthy (mjoin (data !! "username"))) eqn:Hu;
    [|exfalso; apply Hok; by left].
  destruct (truthy (mjoin (data !! "email"))) eqn:He;
    [|exfalso; apply Hok; right; by left].
  destruct (truthy (mjoin (data !! "password"))) eqn:Hp;
    [|exfalso; apply Hok; right; right; by left].
  apply truthy_Some in Hu as (username & Hname & Hne).
  exists username. repeat (split; [done|]).
  intros u Hin Hsame. apply Hok. right; right; right. exists u. by rewrite Hsame.
Qed.

(** X28. A register request that omits the username, the e-mail or the
    password (or gives it as [null] or empty), or whose username an account
    already has, is answered 400 and the store is unchanged. Every other
    request whose username is in normal form and whose optional fields are
    not [null] is answered 201 and appends exactly one account with that
    username, one Profile of that account and one token of that account,
    the other tables staying as they were; a second register with the same
    username is then answered 400 and changes nothing. *)
Theorem register_in_normal_form_refuses_or_creates `{AuthLibrary} (db : Store) (now : Z)
    (data : gmap string (option string)) (key : string) :
  (register_refused db data →
   ∃ error,
     RegisterAPIView.post db now data key
     = (mkResponse HTTP_400_BAD_REQUEST (ErrorMessage error), db)) ∧
  (¬ register_refused db data → register_plain data →
   ∃ user profile token db',
     RegisterAPIView.post db now data key
     = (mkResponse HTTP_201_CREATED
          (AuthBody key (UserSerializer.to_representation user)
             (Some (ProfileSerializer.to_representation db' profile))), db') ∧
     User_objects db' = User_objects db ++ [user] ∧
     Profile_objects db' = Profile_objects db ++ [profile] ∧
     Token_objects db' = Token_objects db ++ [token] ∧
     mjoin (data !! "username") = Some (User.username user) ∧
     Profile.user profile = User.pk user ∧
     token = {| Token.key := key; Token.user := User.pk user |} ∧
     Item_objects db' = Item_objects db ∧
     Bid_objects db' = Bid_objects db ∧
     Comment_objects db' = Comment_objects db ∧
     Review_objects db' = Review_objects db ∧
     ∀ now2 data2 key2,
       mjoin (data2 !! "username") = mjoin (data !! "username") →
       ∃ error,
         RegisterAPIView.post db' now2 data2 key2
         = (mkResponse HTTP_400_BAD_REQUEST (ErrorMessage error), db')).
Proof.
  split; [apply register_refused_400|].
  intros (username & Hname & Hne & Hemail & Hpassword & Hfree)%not_register_refused
    (Hnormal & Hfirst & Hlast & Hprofile & Hbio).
  rewrite (register_run db now data key username) by done.
  unfold create_user, Profile_create. rewrite (Hnormal username Hname).
  rewrite (proj2 (exists_filter_false _ _)) by (intros u Hu; by apply Hfree).
  destruct (data !! "first_name") as [[first|]|]; [|done|];
  destruct (data !! "last_name") as [[last|]|]; try done;
  destruct (data !! "profile_username") as [[shown|]|]; try done;
  destruct (data !! "bio_text") as [[bio|]|]; try done; simpl;
  (eexists _, _, _, _; split; [reflexivity|]; simpl;
   repeat (split; [done|]);
   intros now2 data2 key2 Hsame; apply register_refused_400;
   right; right; right; eexists; split;
   [simpl; apply elem_of_app; right; left | simpl; by rewrite Hsame]).
Qed.

Lemma register_in_normal_form_refuses_or_creates_witness :
  (∃ error,
     @RegisterAPIView.post Example.plain_auth Example.db Example.t0
       {[ "username" := Some "alice"; "email" := Some "a@example.org";
          "password" := Some "x" ]} "k1"
     = (mkResponse HTTP_400_BAD_REQUEST (ErrorMessage error), Example.db)) ∧
  (∃ user profile token db',
     @RegisterAPIView.post Example.plain_auth Example.db Example.t0
       {[ "username" := Some "carol"; "email" := Some "c@example.org";
          "password" := Some "x" ]} "k1"
     = (mkResponse HTTP_201_CREATED
          (AuthBody "k1" (UserSerializer.to_representation user)
             (Some (ProfileSerializer.to_representation db' profile))), db') ∧
     User_objects db' = [Example.alice; Example.bob; user] ∧
     Profile_objects db' = [Example.alice_p; Example.bob_p; profile] ∧
     Token_objects db' = [token]).
Proof.
  split.
  - apply (@register_in_normal_form_refuses_or_creates Example.plain_auth).
    right; right; right. exists Example.alice. split; [left|done].
  - destruct (proj2 (@register_in_normal_form_refuses_or_creates Example.plain_auth
        Example.db Example.t0
        {[ "username" := Some "carol"; "email" := Some "c@example.org";
           "password" := Some "x" ]} "k1"))
      as (user & profile & token & db' & Hpost & Hu & Hp & Ht & _).
    + intros [Hf | [Hf | [Hf | (u & Hin & Hname)]]]; try discriminate Hf.
      vm_compute in Hname.
      apply elem_of_cons in Hin as [-> | Hin]; [discriminate|].
      apply list_elem_of_singleton in Hin as ->. discriminate.
    + split; [|done]. intros username [= <-]. done.
    + exists user, profile, token, db'. done.
Defined.

(** C4 fails on the code. The view looks for an account with the username
    as it was sent, and [create_user] stores the username in normal form:
    for a username that is not in normal form, and that neither as sent nor
    in normal form names an account, the first register is answered 201 and
    stores the account under the normal form, and the same request sent
    again passes the view's check and ends in the uncaught [IntegrityError]
    of the unique constraint, a 500 and not the 400 of a username that
    already exists. *)
Theorem register_twice_hits_the_unique_constraint `{AuthLibrary} (db : Store)
    (now now2 : Z) (data : gmap string (option string)) (key key2 username : string) :
  mjoin (data !! "username") = Some username → username ≠ "" →
  truthy (mjoin (data !! "email")) = true →
  truthy (mjoin (data !! "password")) = true →
  data !! "first_name" ≠ Some None → data !! "last_name" ≠ Some None →
  data !! "profile_username" ≠ Some None → data !! "bio_text" ≠ Some None →
  normalize_username username ≠ username →
  (∀ u, u ∈ User_objects db →
        User.username u ≠ username ∧ User.username u ≠ normalize_username username) →
  ∃ body db1 user,
    RegisterAPIView.post db now data key = (mkResponse HTTP_201_CREATED body, db1) ∧
    User_objects db1 = User_objects db ++ [user] ∧
    User.username user = normalize_username username ∧
    RegisterAPIView.post db1 now2 data key2 = (server_error "IntegrityError", db1) ∧
    status_code (RegisterAPIView.post db1 now2 data key2).1 ≠ HTTP_400_BAD_REQUEST.
Proof.
  intros Hname Hne Hemail Hpassword Hfirst Hlast Hprofile Hbio Hraw Hfree.
  rewrite (register_run db now data key username)
    by (try done; intros u Hu; by apply Hfree).
  unfold create_user at 1. unfold Profile_create.
  rewrite (proj2 (exists_filter_false _ _)) by (intros u Hu; by apply Hfree).
  destruct (data !! "first_name") as [[first|]|] eqn:Efirst; [|done|];
  destruct (data !! "last_name") as [[last|]|] eqn:Elast; try done;
  destruct (data !! "profile_username") as [[shown|]|] eqn:Eshown; try done;
  destruct (data !! "bio_text") as [[bio|]|] eqn:Ebio; try done; simpl;
  (eexists _, _, _; split; [reflexivity|]; split; [reflexivity|]; split; [reflexivity|];
   match goal with
   | |- context [RegisterAPIView.post ?db1 _ _ _] =>
       rewrite (register_run db1 now2 data key2 username);
       [|done|done|done|done|
        simpl; intros u [Hu | ->%list_elem_of_singleton]%elem_of_app;
        [by apply Hfree | simpl; congruence]]
   end;
   unfold create_user; rewrite ?Efirst, ?Elast; simpl;
   rewrite (proj2 (exists_filter_true _ _));
   [done | eexists; split; [apply elem_of_app; right; left|done]]).
Qed.

(** The username [fish] with the ligature, twice. *)
Lemma register_twice_hits_the_unique_constraint_witness :
  let data : gmap string (option string) :=
    {[ "username" := Some Example.fish_ligature; "email" := Some "f@example.org";
       "password" := Some "x" ]} in
  ∃ body db1 user,
    @RegisterAPIView.post Example.plain_auth Example.db Example.t0 data "k1"
    = (mkResponse HTTP_201_CREATED body, db1) ∧
    User_objects db1 = User_objects Example.db ++ [user] ∧
    User.username user = "fish" ∧
    @RegisterAPIView.post Example.plain_auth db1 (Example.t0 + 1) data "k2"
    = (server_error "IntegrityError", db1).
Proof.
  intros data.
  destruct (@register_twice_hits_the_unique_constraint Example.plain_auth Example.db
              Example.t0 (Example.t0 + 1) data "k1" "k2" Example.fish_ligature)
    as (body & db1 & user & Hfirst & Husers & Hname & Hsecond & _); try done.
  - intros u Hu. repeat (apply elem_of_cons in Hu as [->|Hu]); [done..|].
    by apply elem_of_nil in Hu.
  - exists body, db1, user. done.
Defined.

(** X29. Nothing rolls back what [register] has inserted: a request with a
    new username in normal form whose [bio_text] (or [profile_username]) is
    [null] ends in an uncaught [IntegrityError] after the account is
    stored, and leaves that account without a Profile and without a token;
    the same request sent again is then answered 400, the username being
    taken. With [first_name] or [last_name] [null] the account itself is
    refused and nothing is stored. *)
Theorem register_does_not_roll_back `{AuthLibrary} (db : Store) (now : Z)
    (data : gmap string (option string)) (key username : string) :
  ¬ register_refused db data →
  mjoin (data !! "username") = Some username →
  normalize_username username = username →
  (data !! "first_name" = Some None ∨ data !! "last_name" = Some None →
   RegisterAPIView.post db now data key = (server_error "IntegrityError", db)) ∧
  (data !! "first_name" ≠ Some None → data !! "last_name" ≠ Some None →
   data !! "profile_username" = Some None ∨ data !! "bio_text" = Some None →
   ∃ user db',
     RegisterAPIView.post db now data key = (server_error "IntegrityError", db') ∧
     User_objects db' = User_objects db ++ [user] ∧
     User.username user = username ∧
     Profile_objects db' = Profile_objects db ∧
     Token_objects db' = Token_objects db ∧
     ∀ now2 key2,
     ∃ error,
       RegisterAPIView.post db' now2 data key2
       = (mkResponse HTTP_400_BAD_REQUEST (ErrorMessage error), db')).
Proof.
  intros Hok Hname Hnormal.
  destruct (not_register_refused db data Hok)
    as (username' & Hname' & Hne & Hemail & Hpassword & Hfree).
  assert (username' = username) as -> by congruence.
  rewrite (register_run db now data key username) by done.
  unfold create_user, Profile_create. rewrite Hnormal.
  rewrite (proj2 (exists_filter_false _ _)) by (intros u Hu; by apply Hfree).
  split.
  - intros [-> | ->]; [done|]. by destruct (default _ _).
  - intros Hfirst Hlast Hnull.
    destruct (data !! "first_name") as [[first|]|]; [|done|];
    destruct (data !! "last_name") as [[last|]|]; try done; simpl;
    (eexists _, _; split;
     [destruct Hnull as [-> | ->]; [reflexivity|];
      by destruct (default _ _)|];
     simpl; repeat (split; [done|]);
     intros now2 key2; apply register_refused_400;
     right; right; right; eexists; split;
     [simpl; apply elem_of_app; right; left | by rewrite Hname]).
Qed.

Lemma register_does_not_roll_back_witness :
  let data : gmap string (option string) :=
    {[ "username" := Some "carol"; "email" := Some "c@example.org";
       "password" := Some "x"; "bio_text" := None ]} in
  ∃ user db',
    @RegisterAPIView.post Example.plain_auth Example.db Example.t0 data "k1"
    = (server_error "IntegrityError", db') ∧
    User_objects db' = User_objects Example.db ++ [user] ∧
    User.username user = "carol" ∧
    Profile_objects db' = Profile_objects Example.db ∧
    Token_objects db' = Token_objects Example.db.
Proof.
  intros data.
  destruct (@register_does_not_roll_back Example.plain_auth Example.db Example.t0 data
              "k1" "carol") as [_ Hpartial].
  - intros [Hf | [Hf | [Hf | (u & Hin & Hname)]]]; try discriminate Hf.
    vm_compute in Hname.
    apply elem_of_cons in Hin as [-> | Hin]; [discriminate|].
    apply list_elem_of_singleton in Hin as ->. discriminate.
  - done.
  - done.
  - destruct Hpartial as (user & db' & Hrun & Husers & Hname & Hprofiles & Htokens & _);
      [done|done|by right|].
    exists user, db'. done.
Defined.

(** ** Login and the token of an account *)

Lemma get_Got {A : Type} (l : list A) (x : A) : get l = Got x ↔ l = [x].
Proof. destruct l as [|a [|b l]]; simpl; split; congruence. Qed.

Lemma get_DoesNotExist {A : Type} (l : list A) : get l = DoesNotExist ↔ l = [].
Proof. destruct l as [|a [|b l]]; simpl; split; congruence. Qed.

Lemma get_at_most_one {A : Type} (l : list A) :
  (length l ≤ 1)%nat → get l ≠ MultipleObjectsReturned.
Proof. destruct l as [|a [|b l]]; simpl; [done..|lia]. Qed.

(** A column without duplicates matches a value on at most one row. *)
Lemma get_by_unique_column {A B : Type} `{EqDecision B} (f : A → B)
    (l : list A) (k : B) :
  NoDup (f <$> l) → get (filter (λ x, f x = k) l) ≠ MultipleObjectsReturned.
Proof.
  induction l as [|a l IH]; [done|].
  rewrite fmap_cons, NoDup_cons. intros [Hnotin Hnodup].
  destruct (decide (f a = k)) as [Heq | Hne].
  - rewrite filter_cons_True by done.
    assert (filter (λ x, f x = k) l = []) as ->; [|done].
    apply elem_of_nil_inv. intros x [Hfx Hx]%list_elem_of_filter.
    apply Hnotin. rewrite Heq, <- Hfx. by apply list_elem_of_fmap_2.
  - rewrite filter_cons_False by done. by apply IH.
Qed.

(** What a successful login tells: the account in the body is [user], and in
    the store it leaves the tokens of [user] are the one token it returned;
    tokens are only ever appended. *)
Lemma login_success_inv `{AuthLibrary} (db db' : Store) (data : gmap string string)
    (key token : string) (u : UserSerializer.data)
    (p : option ProfileSerializer.data) :
  LoginAPIView.post db data key = (mkResponse HTTP_200_OK (AuthBody token u p), db') →
  ∃ extra,
    Token_objects db' = Token_objects db ++ extra ∧
    filter (λ t, Token.user t = UserSerializer.id u) (Token_objects db')
    = [ {| Token.key := token; Token.user := UserSerializer.id u |} ].
Proof.
  unfold LoginAPIView.post.
  destruct (negb _ || negb _); [done|].
  destruct (authenticate _ _ _) as [[user|]|]; [|done..].
  unfold Token_get_or_create.
  destruct (get (filter _ (Token_objects db))) as [tok| |] eqn:Hget; [| |done].
  - apply get_Got in Hget.
    assert (Token.user tok = User.pk user) as Huser.
    { assert (tok ∈ filter (λ t, Token.user t = User.pk user) (Token_objects db)) as Hin
        by (rewrite Hget; left).
      by apply list_elem_of_filter in Hin as [? _]. }
    destruct (Profile_get_by_user _ _); intros [= <- <- <- <-]; exists [];
      rewrite app_nil_r; (split; [done|]); simpl; rewrite Hget;
      destruct tok; simpl in *; by subst.
  - apply get_DoesNotExist in Hget.
    destruct (Profile_get_by_user _ _); intros [= <- <- <- <-]; eexists;
      (split; [reflexivity|]); simpl; rewrite filter_app, Hget; simpl;
      by rewrite filter_cons_True.
Qed.

Lemma serve_appends_tokens `{AuthLibrary} (db : Store) (request : AuthRequest) :
  ∃ extra, Token_objects (snd (serve db request)) = Token_objects db ++ extra.
Proof.
  destruct request as [data key | now data key]; simpl.
  - unfold LoginAPIView.post.
    destruct (negb _ || negb _); [by exists []; rewrite app_nil_r|].
    destruct (authenticate _ _ _) as [[user|]|]; [|by exists []; rewrite app_nil_r..].
    unfold Token_get_or_create.
    destruct (get (filter _ (Token_objects db))); [| |by exists []; rewrite app_nil_r].
    + destruct (Profile_get_by_user _ _); by exists []; rewrite app_nil_r.
    + destruct (Profile_get_by_user _ _); by eexists.
  - unfold RegisterAPIView.post, create_user, Profile_create.
    repeat case_match; simplify_eq; simpl;
      first [by eexists | exists []; by rewrite app_nil_r].
Qed.

Lemma serve_all_appends_tokens `{AuthLibrary} (requests : list AuthRequest) (db : Store) :
  ∃ extra, Token_objects (serve_all db requests) = Token_objects db ++ extra.
Proof.
  revert db. induction requests as [|request requests IH]; intros db.
  - exists []. by rewrite app_nil_r.
  - unfold serve_all. simpl. fold (serve_all (snd (serve db request)) requests).
    destruct (IH (snd (serve db request))) as [extra2 ->].
    destruct (serve_appends_tokens db request) as [extra1 ->].
    exists (extra1 ++ extra2). by rewrite app_assoc.
Qed.

(** [authenticate] takes the one account of a name, when it is active and
    the password checks. *)
Lemma authenticate_accepts `{AuthLibrary} (db : Store) (username password : string)
    (user : User.t) :
  filter (λ u, User.username u = username) (User_objects db) = [user] →
  check_password password (User.password user) = true →
  User.is_active user = true →
  authenticate db username password = Ok (Some user).
Proof.
  intros Hone Hpw Hactive. unfold authenticate. rewrite Hone. simpl.
  by rewrite Hpw, Hactive.
Qed.

(** C8, as the code has it. For an account that is active and has at most
    one Profile (and at most one token, which the schema guarantees), a
    login with its username and its password, which is not empty, is
    answered 200 with that account's token: the token already stored for it, the store staying as
    it was, or else a new token, which is stored. And whatever the store,
    when two logins are answered 200 for the same account, with any number
    of logins and registrations served in between, they carry the same
    token; that token is stored for the account after the first login, no
    token is removed or replaced in between, and it is the account's only
    token after the second. *)
Theorem login_returns_the_same_token `{AuthLibrary} (db : Store) :
  (∀ data key username password user,
     data !! "username" = Some username → username ≠ "" →
     data !! "password" = Some password → password ≠ "" →
     filter (λ u, User.username u = username) (User_objects db) = [user] →
     check_password password (User.password user) = true →
     User.is_active user = true →
     (length (filter (λ t, Token.user t = User.pk user) (Token_objects db)) ≤ 1)%nat →
     (length (filter (λ p, Profile.user p = User.pk user) (Profile_objects db)) ≤ 1)%nat →
     ∃ token profile db',
       LoginAPIView.post db data key
       = (mkResponse HTTP_200_OK
            (AuthBody (Token.key token) (UserSerializer.to_representation user) profile),
          db') ∧
       filter (λ t, Token.user t = User.pk user) (Token_objects db') = [token] ∧
       (∀ stored, stored ∈ Token_objects db → Token.user stored = User.pk user →
                  token = stored ∧ db' = db) ∧
       ((∀ stored, stored ∈ Token_objects db → Token.user stored ≠ User.pk user) →
        token = {| Token.key := key; Token.user := User.pk user |} ∧
        db' = set_tokens db (Token_objects db ++ [token]))) ∧
  (∀ data1 key1 token1 user1 profile1 db1 between data2 key2 token2 user2 profile2 db2,
     LoginAPIView.post db data1 key1
     = (mkResponse HTTP_200_OK (AuthBody token1 user1 profile1), db1) →
     LoginAPIView.post (serve_all db1 between) data2 key2
     = (mkResponse HTTP_200_OK (AuthBody token2 user2 profile2), db2) →
     UserSerializer.id user1 = UserSerializer.id user2 →
     token1 = token2 ∧
     {| Token.key := token1; Token.user := UserSerializer.id user1 |} ∈ Token_objects db1 ∧
     (∃ extra, Token_objects db2 = Token_objects db1 ++ extra) ∧
     filter (λ t, Token.user t = UserSerializer.id user1) (Token_objects db2)
     = [ {| Token.key := token1; Token.user := UserSerializer.id user1 |} ]).
Proof.
  split.
  - intros data key username password user Hu Hune Hp Hpne Hone Hpw Hactive Htok Hprof.
    unfold LoginAPIView.post. rewrite Hu, Hp. simpl.
    rewrite !bool_decide_eq_true_2 by done. simpl.
    rewrite (authenticate_accepts db username password user) by done.
    unfold Token_get_or_create.
    pose proof (get_at_most_one _ Htok) as Hget1.
    pose proof (get_at_most_one _ Hprof) as Hget2.
    destruct (get (filter _ (Token_objects db))) as [tok| |] eqn:Hget; [| |done].
    + apply get_Got in Hget.
      assert (∃ profile,
                match Profile_get_by_user db (User.pk user) with
                | Got p =>
                    (mkResponse HTTP_200_OK
                       (AuthBody (Token.key tok) (UserSerializer.to_representation user)
                          (Some (ProfileSerializer.to_representation db p))), db)
                | DoesNotExist =>
                    (mkResponse HTTP_200_OK
                       (AuthBody (Token.key tok) (UserSerializer.to_representation user)
                          None), db)
                | MultipleObjectsReturned => (server_error "MultipleObjectsReturned", db)
                end
                = (mkResponse HTTP_200_OK
                     (AuthBody (Token.key tok) (UserSerializer.to_representation user)
                        profile), db)) as [profile Hrun].
      { unfold Profile_get_by_user in *. destruct (get _); [by eexists..|done]. }
      exists tok, profile, db. split; [exact Hrun|]. split; [done|]. split.
      * intros stored Hin Hsame.
        assert (stored ∈ filter (λ t, Token.user t = User.pk user) (Token_objects db))
          as Hstored by by apply list_elem_of_filter.
        rewrite Hget in Hstored. by apply list_elem_of_singleton in Hstored as ->.
      * intros Hnone. exfalso.
        assert (tok ∈ filter (λ t, Token.user t = User.pk user) (Token_objects db))
          as [Hsame Hin]%list_elem_of_filter by (rewrite Hget; left).
        by apply (Hnone tok).
    + apply get_DoesNotExist in Hget.
      set (token := {| Token.key := key; Token.user := User.pk user |}).
      set (db' := set_tokens db (Token_objects db ++ [token])).
      assert (∃ profile,
                match Profile_get_by_user db' (User.pk user) with
                | Got p =>
                    (mkResponse HTTP_200_OK
                       (AuthBody (Token.key token) (UserSerializer.to_representation user)
                          (Some (ProfileSerializer.to_representation db' p))), db')
                | DoesNotExist =>
                    (mkResponse HTTP_200_OK
                       (AuthBody (Token.key token) (UserSerializer.to_representation user)
                          None), db')
                | MultipleObjectsReturned => (server_error "MultipleObjectsReturned", db')
                end
                = (mkResponse HTTP_200_OK
                     (AuthBody (Token.key token) (UserSerializer.to_representation user)
                        profile), db')) as [profile Hrun].
      { unfold Profile_get_by_user in *. simpl. destruct (get _); [by eexists..|done]. }
      exists token, profile, db'. split; [exact Hrun|]. split; [|split].
      * simpl. rewrite filter_app, Hget. simpl. by rewrite filter_cons_True.
      * intros stored Hin Hsame. exfalso.
        assert (stored ∈ filter (λ t, Token.user t = User.pk user) (Token_objects db))
          as Hstored by by apply list_elem_of_filter.
        rewrite Hget in Hstored. by apply elem_of_nil in Hstored.
      * done.
  - intros data1 key1 token1 user1 profile1 db1 between data2 key2 token2 user2
      profile2 db2 Hfirst Hsecond Hsame.
    apply login_success_inv in Hfirst as (extra1 & _ & Hone).
    apply login_success_inv in Hsecond as (extra2 & Hgrow & Htwo).
    destruct (serve_all_appends_tokens between db1) as [extra Hbetween].
    assert ({| Token.key := token1; Token.user := UserSerializer.id user1 |}
            ∈ Token_objects db1) as Hstored.
    { assert ({| Token.key := token1; Token.user := UserSerializer.id user1 |}
              ∈ filter (λ t, Token.user t = UserSerializer.id user1) (Token_objects db1))
        as [_ Hin]%list_elem_of_filter by (rewrite Hone; left).
      done. }
    assert (token1 = token2) as <-.
    { rewrite Hgrow, Hbetween, <- Hsame, !filter_app, Hone in Htwo.
      simpl in Htwo. by injection Htwo as ->. }
    split; [done|]. split; [done|]. split.
    + exists (extra ++ extra2). by rewrite Hgrow, Hbetween, app_assoc.
    + by rewrite Hsame.
Qed.

Lemma login_returns_the_same_token_witness :
  ∃ token profile db',
    @LoginAPIView.post Example.plain_auth Example.db
      {[ "username" := "alice"; "password" := "pw123" ]} "k1"
    = (mkResponse HTTP_200_OK
         (AuthBody (Token.key token) (UserSerializer.to_representation Example.alice)
            profile), db') ∧
    filter (λ t, Token.user t = 1%nat) (Token_objects db') = [token].
Proof.
  destruct (proj1 (@login_returns_the_same_token Example.plain_auth Example.db)
              {[ "username" := "alice"; "password" := "pw123" ]} "k1"
              "alice" "pw123" Example.alice)
    as (token & profile & db' & Hrun & Hstored & _); try done.
  - vm_compute. repeat constructor.
  - by exists token, profile, db'.
Defined.

(** C8 as stated fails: with the right username and password, an account
    that is not active is answered 401, an account whose password is the
    empty text is answered 400, and an account with two Profiles ends in an
    uncaught [MultipleObjectsReturned]; none of these logins returns a
    token. *)
Lemma login_with_correct_credentials_returns_no_token :
  let credentials : gmap string string :=
    {[ "username" := "alice"; "password" := "pw123" ]} in
  let inactive :=
    {| User.pk := 1; User.username := "alice"; User.email := "alice@example.org";
       User.password := "pw123"; User.first_name := ""; User.last_name := "";
       User.is_active := false |} in
  let frozen := set_users Example.db [inactive; Example.bob] (User_seq Example.db) in
  let blank :=
    {| User.pk := 1; User.username := "alice"; User.email := "alice@example.org";
       User.password := ""; User.first_name := ""; User.last_name := "";
       User.is_active := true |} in
  let unset := set_users Example.db [blank; Example.bob] (User_seq Example.db) in
  let second :=
    {| Profile.pk := 3; Profile.username := "alice2"; Profile.last_name := "";
       Profile.first_name := ""; Profile.bio_text := ""; Profile.join_date := Example.t0;
       Profile.user := 1 |} in
  let doubled :=
    set_profiles Example.db [Example.alice_p; Example.bob_p; second]
      (Profile_seq Example.db) in
  @check_password Example.plain_auth "pw123" (User.password inactive) = true ∧
  @LoginAPIView.post Example.plain_auth frozen credentials "k1"
  = (mkResponse HTTP_401_UNAUTHORIZED (ErrorMessage "Invalid credentials"), frozen) ∧
  @check_password Example.plain_auth "" (User.password blank) = true ∧
  @LoginAPIView.post Example.plain_auth unset {[ "username" := "alice"; "password" := "" ]}
    "k1"
  = (mkResponse HTTP_400_BAD_REQUEST (ErrorMessage "Username and password required"),
     unset) ∧
  @check_password Example.plain_auth "pw123" (User.password Example.alice) = true ∧
  (@LoginAPIView.post Example.plain_auth doubled credentials "k1").1
  = server_error "MultipleObjectsReturned".
Proof. vm_compute. done. Qed.

(** *** The integrity conditions are kept by both endpoints *)

Lemma authenticate_elem_of `{AuthLibrary} (db : Store) (username password : string)
    (user : User.t) :
  authenticate db username password = Ok (Some user) → user ∈ User_objects db.
Proof.
  unfold authenticate.
  destruct (get _) as [u| |] eqn:Hget; [|done..].
  apply get_Got in Hget. destruct (_ && _); [|done]. intros [= ->].
  assert (user ∈ filter (λ u, User.username u = username) (User_objects db)) as Hin
    by (rewrite Hget; left).
  by apply list_elem_of_filter in Hin as [_ ?].
Qed.

Lemma filter_nil_not_in_column {A B : Type} `{EqDecision B} (f : A → B)
    (l : list A) (k : B) :
  filter (λ x, f x = k) l = [] → k ∉ f <$> l.
Proof.
  intros Hnil (x & -> & Hx)%list_elem_of_fmap.
  assert (x ∈ filter (λ y, f y = f x) l) as Hin by by apply list_elem_of_filter.
  rewrite Hnil in Hin. by apply elem_of_nil in Hin.
Qed.

Lemma NoDup_snoc_column {A B : Type} (f : A → B) (l : list A) (a : A) :
  NoDup (f <$> l) → f a ∉ f <$> l → NoDup (f <$> (l ++ [a])).
Proof.
  intros Hnodup Hnotin. rewrite fmap_app. apply NoDup_app.
  split; [done|]. split; [|apply NoDup_singleton].
  intros x Hx ->%list_elem_of_singleton. done.
Qed.

Lemma below_seq_not_in_column {A : Type} (f : A → nat) (l : list A) (seq : nat) :
  Forall (λ x, (f x < seq)%nat) l → seq ∉ f <$> l.
Proof.
  rewrite Forall_forall. intros Hall (x & -> & Hx)%list_elem_of_fmap.
  specialize (Hall x Hx). lia.
Qed.

Lemma well_formed_serve `{AuthLibrary} (db : Store) (request : AuthRequest) :
  well_formed db → well_formed (snd (serve db request)).
Proof.
  intros (Hnames & Htok & Hprof & Hupk & Htpk & Hppk).
  destruct request as [data key | now data key]; simpl.
  - unfold LoginAPIView.post.
    destruct (negb _ || negb _); [done|].
    destruct (authenticate _ _ _) as [[user|]|] eqn:Hauth; [|done..].
    apply authenticate_elem_of in Hauth.
    unfold Token_get_or_create.
    destruct (get (filter _ (Token_objects db))) as [tok| |] eqn:Hget; [| |done].
    + by destruct (Profile_get_by_user _ _).
    + apply get_DoesNotExist in Hget.
      assert (well_formed
                (set_tokens db (Token_objects db
                                  ++ [ {| Token.key := key; Token.user := User.pk user |} ])))
        as Hwf.
      { repeat split; simpl; try done.
        - apply NoDup_snoc_column; [done|].
          by apply (filter_nil_not_in_column Token.user).
        - apply Forall_app. split; [done|]. apply Forall_singleton. simpl.
          rewrite Forall_forall in Hupk. by apply Hupk. }
      by destruct (Profile_get_by_user _ _).
  - unfold RegisterAPIView.post.
    destruct (negb _ || negb _ || negb _); [done|].
    destruct (exists_ _); [done|]. unfold create_user.
    destruct (default (Some "") (data !! "first_name")) as [first|]; [|done].
    destruct (default (Some "") (data !! "last_name")) as [last|]; [|done].
    destruct (exists_ _) eqn:Hex; [done|].
    pose proof (proj1 (exists_filter_false _ _) Hex) as Hfree. clear Hex.
    match goal with
    | |- context [Profile_create ?db1 _ ?user _ _ _ _] =>
        set (account := user); assert (well_formed db1) as Hwf1
    end.
    { repeat split; simpl; try done.
      - apply NoDup_snoc_column; [done|].
        intros (u & Hname & Hu)%list_elem_of_fmap. by apply (Hfree u Hu).
      - apply Forall_app. split; [|apply Forall_singleton; simpl; lia].
        eapply Forall_impl; [done|]. simpl. lia.
      - eapply Forall_impl; [done|]. simpl. lia.
      - eapply Forall_impl; [done|]. simpl. lia. }
    unfold Profile_create.
    destruct (default _ (data !! "profile_username")) as [shown|]; [|done].
    destruct (default (Some "") (data !! "bio_text")) as [bio|]; [|done].
    simpl. destruct Hwf1 as (Hnames1 & _ & _ & Hupk1 & Htpk1 & Hppk1).
    simpl in *. repeat split; simpl; try done.
    + apply NoDup_snoc_column; [done|]. by apply below_seq_not_in_column.
    + apply NoDup_snoc_column; [done|]. by apply below_seq_not_in_column.
    + apply Forall_app. split; [done|]. apply Forall_singleton. simpl. lia.
    + apply Forall_app. split; [done|]. apply Forall_singleton. simpl. lia.
Qed.

Lemma well_formed_serve_all `{AuthLibrary} (requests : list AuthRequest) (db : Store) :
  well_formed db → well_formed (serve_all db requests).
Proof.
  revert db. induction requests as [|request requests IH]; intros db Hwf; [done|].
  apply (IH (snd (serve db request))). by apply well_formed_serve.
Qed.

Lemma well_formed_example : well_formed Example.db.
Proof.
  unfold well_formed, unique_usernames, one_token_per_user, one_profile_per_user.
  simpl. repeat split; try compute_done; repeat constructor; simpl; lia.
Qed.

(** ** Items ending soon *)

Lemma tomorrow_is_24_hours_later (now : Z) :
  datetime_add now (timedelta.of_hours 24) = now + 24 * 3600000000.
Proof.
  unfold datetime_add, timedelta.of_hours.
  by rewrite to_microseconds_of_microseconds.
Qed.

Lemma ending_soon_items_spec (db : Store) (now : Z) :
  EndingSoonItemsAPIView.items db now
    ≡ₚ filter (λ i, now < Item.end_time i ∧ Item.end_time i ≤ now + 24 * 3600000000)
         (Item_objects db) ∧
  (∀ i, i ∈ EndingSoonItemsAPIView.items db now
        ↔ i ∈ Item_objects db ∧ ends_within_24_hours now i) ∧
  StronglySorted Item.by_end_time (EndingSoonItemsAPIView.items db now).
Proof.
  unfold EndingSoonItemsAPIView.items. rewrite tomorrow_is_24_hours_later.
  split; [apply merge_sort_Permutation|]. split.
  - intros i. rewrite merge_sort_Permutation, list_elem_of_filter.
    unfold ends_within_24_hours. tauto.
  - apply StronglySorted_merge_sort; apply _.
Qed.

(** C7. The ending-soon endpoint answers 200 with the representations of
    exactly the Items whose [end_time] is strictly after the current time
    and at most 24 hours after it (each as often as it is stored), in
    ascending order of [end_time]. With two Items, one ending 2 hours and
    one 30 hours from now, only the first is returned. *)
Theorem ending_soon_returns_next_24_hours_soonest_first (db : Store) (now later : Z)
    (user : option nat) :
  ∃ rows,
    EndingSoonItemsAPIView.get db now later user
    = mkResponse HTTP_200_OK
        (ItemList (ItemSerializer.to_representation db later <$> rows)) ∧
    rows ≡ₚ filter (λ i, now < Item.end_time i ∧ Item.end_time i ≤ now + 24 * 3600000000)
              (Item_objects db) ∧
    (∀ i, i ∈ rows ↔ i ∈ Item_objects db ∧
                      now < Item.end_time i ∧ Item.end_time i ≤ now + 24 * 3600000000) ∧
    StronglySorted (λ a b, Item.end_time a ≤ Item.end_time b) rows ∧
    (∀ a b,
       Item.end_time a = now + 2 * 3600000000 →
       Item.end_time b = now + 30 * 3600000000 →
       Item_objects db = [a; b] ∨ Item_objects db = [b; a] →
       rows = [a]).
Proof.
  exists (EndingSoonItemsAPIView.items db now).
  destruct (ending_soon_items_spec db now) as (Hperm & Hin & Hsorted).
  split; [done|]. split; [done|]. split; [exact Hin|]. split; [exact Hsorted|].
  intros a b Ha Hb Hdb. unfold EndingSoonItemsAPIView.items.
  rewrite tomorrow_is_24_hours_later.
  destruct Hdb as [-> | ->].
  - rewrite filter_cons_True by lia. rewrite filter_cons_False by lia. done.
  - rewrite filter_cons_False by lia. rewrite filter_cons_True by lia. done.
Qed.

(** ** Quotients in double precision *)

Lemma digits2_pos_bounds (p : positive) :
  2 ^ (Z.pos (digits2_pos p) - 1) <= Z.pos p < 2 ^ Z.pos (digits2_pos p).
Proof.
  induction p as [p IH|p IH|]; simpl digits2_pos.
  - rewrite Pos2Z.inj_succ.
    replace (Z.succ (Z.pos (digits2_pos p)) - 1) with (Z.succ (Z.pos (digits2_pos p) - 1)) by lia.
    rewrite !Z.pow_succ_r by lia. lia.
  - rewrite Pos2Z.inj_succ.
    replace (Z.succ (Z.pos (digits2_pos p)) - 1) with (Z.succ (Z.pos (digits2_pos p) - 1)) by lia.
    rewrite !Z.pow_succ_r by lia. lia.
  - simpl. lia.
Qed.

Lemma digits2_pos_unique (p : positive) (d : Z) :
  2 ^ (d - 1) <= Z.pos p < 2 ^ d -> Z.pos (digits2_pos p) = d.
Proof.
  intros [Hlo Hhi]. pose proof (digits2_pos_bounds p) as [Hlo' Hhi'].
  assert (0 < d).
  { destruct (Z.lt_trichotomy d 0) as [Hd|[Hd|Hd]]; [|subst; simpl in *; lia|done].
    rewrite Z.pow_neg_r in Hhi by lia. lia. }
  assert (d - 1 < Z.pos (digits2_pos p)).
  { apply (Z.pow_lt_mono_r_iff 2); lia. }
  assert (Z.pos (digits2_pos p) - 1 < d).
  { apply (Z.pow_lt_mono_r_iff 2); lia. }
  lia.
Qed.

Lemma iter_xO_value (p k : positive) :
  Z.pos (Pos.iter xO p k) = Z.pos p * 2 ^ Z.pos k.
Proof.
  induction k as [|k IH] using Pos.peano_ind.
  - simpl. lia.
  - rewrite Pos.iter_succ, Pos2Z.inj_succ, Z.pow_succ_r by lia.
    rewrite Pos2Z.inj_xO, IH. lia.
Qed.

Lemma binary_round_aux_renormalise (sx : bool) (mx ex : Z) (lx : location) :
  binary_round_aux prec emax sx mx ex lx
  = let '(mrs', e') := shr_fexp prec emax mx ex lx in
    renormalise sx (round_nearest_even (shr_m mrs') (loc_of_shr_record mrs')) e'.
Proof. reflexivity. Qed.

Lemma fexp_53 (e : Z) : -1074 <= e -> fexp prec emax (53 + e) - e = 0.
Proof. unfold fexp, SpecFloat.emin, prec, emax. lia. Qed.

Lemma fexp_54 (e : Z) : -1075 <= e -> fexp prec emax (54 + e) - e = 1.
Proof. unfold fexp, SpecFloat.emin, prec, emax. lia. Qed.

Lemma renormalise_spec (sx : bool) (m1 : positive) (e : Z) :
  2 ^ 52 <= Z.pos m1 <= 2 ^ 53 -> -1074 <= e <= 901 ->
  ∃ m' e',
    renormalise sx (Z.pos m1) e = S754_finite sx m' e' ∧
    e <= e' <= e + 1 ∧ Z.pos m' * 2 ^ (e' - e) = Z.pos m1 ∧
    Z.pos (digits2_pos m') = 53.
Proof.
  intros [Hlo Hhi] He. unfold renormalise, shr_fexp.
  destruct (decide (Z.pos m1 = 2 ^ 53)) as [Heq|Hne].
  - assert (m1 = 9007199254740992%positive) as -> by (apply Pos2Z.inj; exact Heq).
    change (Zdigits2 (Z.pos 9007199254740992)) with 54.
    rewrite fexp_54 by lia. simpl shr. cbv beta iota zeta. simpl shr_m. cbv iota.
    assert ((e + 1 <=? emax - prec) = true) as -> by (apply Z.leb_le; unfold emax, prec; lia).
    exists 4503599627370496%positive, (e + 1). split; [done|]. split; [lia|].
    replace (e + 1 - e) with 1 by lia. done.
  - assert (Z.pos (digits2_pos m1) = 53) as Hd by (apply digits2_pos_unique; lia).
    simpl Zdigits2. rewrite Hd, fexp_53 by lia. simpl shr. cbv beta iota zeta.
    simpl shr_m. cbv iota.
    assert ((e <=? emax - prec) = true) as -> by (apply Z.leb_le; unfold emax, prec; lia).
    exists m1, e. split; [done|]. split; [lia|]. rewrite Z.sub_diag. split; [lia|done].
Qed.

Lemma loc_of_shr_record_of_loc (m : Z) (l : location) :
  loc_of_shr_record (shr_record_of_loc m l) = l.
Proof. by destruct l as [|[]]. Qed.

Lemma shr_m_of_loc (m : Z) (l : location) : shr_m (shr_record_of_loc m l) = m.
Proof. by destruct l as [|[]]. Qed.

(** Rounding to nearest never moves by a full unit, and does not move an
    exact value. *)
Lemma round_nearest_even_spec (m : Z) (l : location) :
  round_nearest_even m l = m ∨
  (round_nearest_even m l = m + 1 ∧ l ≠ loc_Exact).
Proof.
  destruct l as [|[]]; simpl; auto.
  - destruct (Z.even m); auto.
Qed.

Lemma binary_round_aux_spec (sx : bool) (m : positive) (e : Z) (l : location) :
  53 <= Z.pos (digits2_pos m) <= 54 -> -1074 <= e <= 900 ->
  ∃ m' e' k c,
    binary_round_aux prec emax sx (Z.pos m) e l = S754_finite sx m' e' ∧
    (c = 1 ∨ c = 2) ∧ 2 ^ 52 <= k <= 2 ^ 53 ∧
    e <= e' <= e + 2 ∧ Z.pos m' * 2 ^ (e' - e) = k * c ∧
    ((k * c <= Z.pos m ∧ Z.pos m - k * c <= c - 1) ∨
     (Z.pos m < k * c ∧ k * c - Z.pos m <= c ∧ (k * c - Z.pos m = c -> l ≠ loc_Exact))).
Proof.
  intros Hd He. rewrite binary_round_aux_renormalise. unfold shr_fexp.
  pose proof (digits2_pos_bounds m) as Hm.
  destruct (decide (Z.pos (digits2_pos m) = 53)) as [H53|Hn53].
  - simpl Zdigits2. rewrite H53 in *. rewrite fexp_53 by lia. simpl shr. cbv beta iota zeta.
    rewrite loc_of_shr_record_of_loc, shr_m_of_loc.
    change (2 ^ (53 - 1)) with (2 ^ 52) in Hm.
    destruct (round_nearest_even_spec (Z.pos m) l) as [-> | [-> Hl]].
    + destruct (renormalise_spec sx m e) as (m' & e' & -> & He' & Hval & _); [lia..|].
      exists m', e', (Z.pos m), 1. split; [done|]. split; [by left|]. split; [lia|].
      split; [lia|]. split; [lia|]. left. lia.
    + change (Z.pos m + 1) with (Z.pos (m + 1)).
      destruct (renormalise_spec sx (m + 1) e) as (m' & e' & -> & He' & Hval & _); [rewrite Pos2Z.inj_add; lia|lia|].
      rewrite Pos2Z.inj_add in Hval.
      exists m', e', (Z.pos m + 1), 1. split; [done|]. split; [by left|]. split; [lia|].
      split; [lia|]. split; [lia|]. right. split; [lia|]. split; [lia|done].
  - assert (Z.pos (digits2_pos m) = 54) as H54 by lia.
    simpl Zdigits2. rewrite H54 in *. rewrite fexp_54 by lia.
    change (2 ^ (54 - 1)) with (2 ^ 53) in Hm.
    change (shr (shr_record_of_loc (Z.pos m) l) e 1)
      with (shr_1 (shr_record_of_loc (Z.pos m) l), e + 1).
    cbv beta iota.
    assert (∃ p b, shr_1 (shr_record_of_loc (Z.pos m) l)
                   = {| shr_m := Z.pos p; shr_r := b;
                        shr_s := negb (match l with loc_Exact => true | _ => false end) |} ∧
                   Z.pos m = 2 * Z.pos p + (if b then 1 else 0)) as (p & b & Hshr & Hmp).
    { destruct m as [p|p|]; [exists p, true|exists p, false|simpl in H54; lia];
        (split; [by destruct l as [|[]]|lia]). }
    rewrite Hshr. simpl shr_m.
    destruct (round_nearest_even_spec (Z.pos p)
                (loc_of_shr_record
                   {| shr_m := Z.pos p; shr_r := b;
                      shr_s := negb (match l with loc_Exact => true | _ => false end) |}))
      as [-> | [-> Hl]].
    + destruct (renormalise_spec sx p (e + 1)) as (m' & e' & -> & He' & Hval & _);
        [destruct b; lia|lia|].
      exists m', e', (Z.pos p), 2. split; [done|]. split; [by right|].
      split; [destruct b; lia|]. split; [lia|]. split.
      * replace (e' - e) with (e' - (e + 1) + 1) by lia.
        rewrite Z.pow_add_r by lia. lia.
      * left. destruct b; lia.
    + change (Z.pos p + 1) with (Z.pos (p + 1)).
      destruct (renormalise_spec sx (p + 1) (e + 1)) as (m' & e' & -> & He' & Hval & _);
        [rewrite Pos2Z.inj_add; destruct b; lia|lia|].
      rewrite Pos2Z.inj_add in Hval.
      exists m', e', (Z.pos p + 1), 2. split; [done|]. split; [by right|].
      split; [destruct b; lia|]. split; [lia|]. split.
      * replace (e' - e) with (e' - (e + 1) + 1) by lia.
        rewrite Z.pow_add_r by lia. lia.
      * right. split; [destruct b; lia|]. split; [destruct b; lia|].
        intros Heq -> . apply Hl. destruct b; [lia|done].
Qed.

Lemma binary_round_aux_exact (sx : bool) (m : positive) (e : Z) :
  Z.pos (digits2_pos m) = 53 -> -1074 <= e <= 900 ->
  binary_round_aux prec emax sx (Z.pos m) e loc_Exact = S754_finite sx m e.
Proof.
  intros Hd He. rewrite binary_round_aux_renormalise. unfold shr_fexp.
  simpl Zdigits2. rewrite Hd, fexp_53 by lia. simpl shr. cbv beta iota zeta.
  simpl shr_m. simpl loc_of_shr_record. simpl round_nearest_even.
  unfold renormalise, shr_fexp. simpl Zdigits2. rewrite Hd, fexp_53 by lia.
  simpl shr. cbv beta iota zeta. simpl shr_m. cbv iota.
  assert ((e <=? emax - prec) = true) as -> by (apply Z.leb_le; unfold emax, prec; lia).
  done.
Qed.

(** An integer below 2^53 is a float: its digits moved up to 53 bits. *)
Lemma binary_normalize_pos (p : positive) :
  Z.pos p < 2 ^ 53 ->
  ∃ m,
    binary_normalize prec emax (Z.pos p) 0 false
    = S754_finite false m (Z.pos (digits2_pos p) - 53) ∧
    Z.pos m = Z.pos p * 2 ^ (53 - Z.pos (digits2_pos p)) ∧
    Z.pos (digits2_pos m) = 53 ∧
    1 <= Z.pos (digits2_pos p) <= 53.
Proof.
  intros Hp. pose proof (digits2_pos_bounds p) as [Hlo Hhi].
  set (d := Z.pos (digits2_pos p)) in *.
  assert (1 <= d <= 53) as Hd.
  { split; [unfold d; lia|].
    assert (d - 1 < 53); [|lia]. apply (Z.pow_lt_mono_r_iff 2); lia. }
  unfold binary_normalize, binary_round, shl_align. fold d.
  assert (fexp prec emax (d + 0) - 0 = d - 53) as ->
    by (unfold fexp, SpecFloat.emin, prec, emax; lia).
  destruct (d - 53) as [|k|k] eqn:Hk; [|lia|].
  - exists p. rewrite binary_round_aux_exact by (fold d; lia).
    replace d with 53 by lia. split; [done|]. split; [simpl; lia|]. split; [fold d; lia|lia].
  - assert (fexp prec emax (d + 0) = Z.neg k) as ->
      by (unfold fexp, SpecFloat.emin, prec, emax; lia).
    assert (53 - d = Z.pos k) as Hk' by lia.
    assert (Z.pos (digits2_pos (Pos.iter xO p k)) = 53) as Hd'.
    { apply digits2_pos_unique. rewrite iter_xO_value, <- Hk'.
      replace (2 ^ (53 - 1)) with (2 ^ (d - 1) * 2 ^ (53 - d))
        by (rewrite <- Z.pow_add_r by lia; f_equal; lia).
      replace (2 ^ 53) with (2 ^ d * 2 ^ (53 - d))
        by (rewrite <- Z.pow_add_r by lia; f_equal; lia).
      assert (0 < 2 ^ (53 - d)) by (apply Z.pow_pos_nonneg; lia). nia. }
    exists (Pos.iter xO p k). rewrite binary_round_aux_exact by (done || lia).
    split; [done|]. split; [by rewrite iter_xO_value, Hk'|]. split; [done|lia].
Qed.

(** The quotient of two 53-bit mantissas, as [SFdiv] rounds it: a multiple
    [k * c] of the last place [c] that is less than one such place away
    from the exact quotient. *)
Lemma SFdiv_normal (mx my : positive) (ex ey : Z) :
  Z.pos (digits2_pos mx) = 53 -> Z.pos (digits2_pos my) = 53 ->
  -52 <= ex <= 0 -> -52 <= ey <= 0 ->
  ∃ m e k c,
    SFdiv prec emax (S754_finite false mx ex) (S754_finite false my ey)
    = S754_finite false m e ∧
    (c = 1 ∨ c = 2) ∧ 2 ^ 52 <= k <= 2 ^ 53 ∧
    ex - ey - 53 <= e <= ex - ey - 53 + 2 ∧
    Z.pos m * 2 ^ (e - (ex - ey - 53)) = k * c ∧
    Z.abs (k * c * Z.pos my - Z.pos mx * 2 ^ 53) < c * Z.pos my.
Proof.
  intros Hdx Hdy Hex Hey.
  pose proof (digits2_pos_bounds mx) as Hmx. pose proof (digits2_pos_bounds my) as Hmy.
  rewrite Hdx in Hmx. rewrite Hdy in Hmy.
  change (2 ^ (53 - 1)) with (2 ^ 52) in *.
  unfold SFdiv, SFdiv_core_binary. simpl Zdigits2. rewrite Hdx, Hdy.
  assert (Z.min (fexp prec emax (53 + ex - (53 + ey))) (ex - ey) = ex - ey - 53) as ->
    by (unfold fexp, SpecFloat.emin, prec, emax; lia).
  replace (ex - ey - (ex - ey - 53)) with 53 by lia.
  cbv beta iota zeta.
  rewrite Z.shiftl_mul_pow2 by lia.
  pose proof (Z_div_mod (Z.pos mx * 2 ^ 53) (Z.pos my) ltac:(lia)) as Hdiv.
  destruct (Z.div_eucl (Z.pos mx * 2 ^ 53) (Z.pos my)) as [q r].
  destruct Hdiv as [Hqr Hr].
  assert (2 ^ 52 <= q < 2 ^ 54) as Hq.
  { change (2 ^ 54) with (4 * 2 ^ 52). change (2 ^ 53) with (2 * 2 ^ 52) in *.
    generalize dependent (2 ^ 52). intros t Hmx Hmy Hqr. split.
    - destruct (Z_le_gt_dec t q) as [|Hlt]; [done|exfalso].
      assert (Z.pos my * (q + 1) <= Z.pos my * t) by (apply Z.mul_le_mono_nonneg_l; lia).
      assert (Z.pos my * t < 2 * t * t) by nia.
      assert (2 * t * t <= Z.pos mx * (2 * t)) by nia. lia.
    - destruct (Z_lt_ge_dec q (4 * t)) as [|Hge]; [done|exfalso].
      assert (Z.pos my * (4 * t) <= Z.pos my * q) by (apply Z.mul_le_mono_nonneg_l; lia).
      assert (t * (4 * t) <= Z.pos my * (4 * t)) by nia.
      assert (Z.pos mx * (2 * t) < 2 * t * (2 * t)) by nia. lia. }
  destruct q as [|qp|qp]; [lia| |lia].
  assert (53 <= Z.pos (digits2_pos qp) <= 54) as Hdq.
  { destruct (decide (Z.pos qp < 2 ^ 53)).
    - rewrite (digits2_pos_unique qp 53); lia.
    - rewrite (digits2_pos_unique qp 54); [lia|]. change (2 ^ (54 - 1)) with (2 ^ 53). lia. }
  destruct (binary_round_aux_spec (xorb false false) qp (ex - ey - 53)
              (new_location (Z.pos my) r) Hdq ltac:(lia))
    as (m & e & k & c & -> & Hc & Hk & He & Hval & Hnear).
  exists m, e, k, c. split; [done|]. split; [done|]. split; [done|]. split; [done|].
  split; [done|].
  assert (0 < c) by lia.
  destruct Hnear as [[Hle Hclose] | (Hlt & Hclose & Hfull)].
  - assert (0 <= Z.pos qp - k * c) by lia.
    replace (k * c * Z.pos my - Z.pos mx * 2 ^ 53)
      with (- ((Z.pos qp - k * c) * Z.pos my + r)) by lia.
    rewrite Z.abs_opp, Z.abs_eq by nia. nia.
  - replace (k * c * Z.pos my - Z.pos mx * 2 ^ 53)
      with ((k * c - Z.pos qp) * Z.pos my - r) by lia.
    rewrite Z.abs_eq by nia.
    destruct (decide (k * c - Z.pos qp = c)) as [Heq|Hne].
    + assert (r ≠ 0).
      { intros ->. apply (Hfull Heq).
        unfold new_location, new_location_even, new_location_odd.
        by destruct (Z.even _). }
      rewrite Heq. lia.
    + assert (k * c - Z.pos qp <= c - 1) by lia. nia.
Qed.

Lemma Prim2SF_float_of_Z (p : positive) :
  Z.pos p < 2 ^ 53 ->
  Prim2SF (float_of_Z (Z.pos p)) = binary_normalize prec emax (Z.pos p) 0 false.
Proof.
  intros Hp. unfold float_of_Z. rewrite decide_False by lia.
  rewrite of_uint63_spec, Uint63.of_Z_spec. simpl Z.abs.
  rewrite Z.mod_small; [done|]. change wB with (2 ^ 63). split; [lia|].
  apply Z.lt_trans with (2 ^ 53); [done|]. by apply Z.pow_lt_mono_r.
Qed.

(** The double that divides one positive integer below 2^53 by another:
    its value is [k / g], for a power of two [g] that is one unit in its
    last place, and [k] is less than one away from the exact [s * g / n]. *)
Lemma float_quotient_digits (s n : positive) :
  Z.pos s < 2 ^ 53 -> Z.pos n < 2 ^ 53 ->
  ∃ m e k g,
    Prim2SF (float_of_Z (Z.pos s) / float_of_Z (Z.pos n)) = S754_finite false m e ∧
    2 ^ 52 <= k <= 2 ^ 53 ∧ 0 < g ∧
    (0 <= e -> Z.pos m * 2 ^ e * g = k) ∧
    (e < 0 -> Z.pos m * g = k * 2 ^ (- e)) ∧
    Z.abs (k * Z.pos n - Z.pos s * g) < Z.pos n.
Proof.
  intros Hs Hn. rewrite FloatAxioms.div_spec, !Prim2SF_float_of_Z by done.
  destruct (binary_normalize_pos s Hs) as (mx & -> & Hmx & Hdx & Hds).
  destruct (binary_normalize_pos n Hn) as (my & -> & Hmy & Hdy & Hdn).
  set (ds := Z.pos (digits2_pos s)) in *. set (dn := Z.pos (digits2_pos n)) in *.
  destruct (SFdiv_normal mx my (ds - 53) (dn - 53) Hdx Hdy ltac:(lia) ltac:(lia))
    as (m & e & k & c & Hdiv & Hc & Hk & He & Hval & Hnear).
  unfold SF64div. rewrite Hdiv.
  replace (ds - 53 - (dn - 53) - 53) with (ds - dn - 53) in * by lia.
  set (A := 2 ^ (53 - ds)) in *. set (B := 2 ^ (53 - dn)) in *.
  set (P := 2 ^ (ds - 1)).
  assert (0 < A) by (apply Z.pow_pos_nonneg; lia).
  assert (0 < B) by (apply Z.pow_pos_nonneg; lia).
  assert (0 < P) by (apply Z.pow_pos_nonneg; lia).
  assert (P * A = 2 ^ 52) as HPA
    by (unfold P, A; rewrite <- Z.pow_add_r by lia; f_equal; lia).
  (* one unit in the last place, as a divisor of 2^105 *)
  set (G := 2 ^ (53 - ds + dn - (if decide (c = 1) then 0 else 1))).
  assert (0 < G) as HG by (apply Z.pow_pos_nonneg; [lia|case_decide; lia]).
  assert (G * c * P * B = 2 ^ 105) as HGW.
  { unfold G, P, B. destruct Hc as [-> | ->].
    - rewrite decide_True by done. rewrite Z.mul_1_r, <- !Z.pow_add_r by lia.
      f_equal. lia.
    - rewrite decide_False by done. change 2 with (2 ^ 1) at 2.
      rewrite <- !Z.pow_add_r by lia. f_equal. lia. }
  assert (Z.pos m * 2 ^ (e + 105) = k * (c * P * B)) as HV.
  { replace (e + 105) with ((e - (ds - dn - 53)) + ((ds - 1) + (53 - dn))) by lia.
    rewrite !Z.pow_add_r by lia. fold P B. rewrite Z.mul_assoc, Hval. lia. }
  exists m, e, k, G. split; [done|]. split; [done|]. split; [done|].
  assert (0 < c * P * B) as HW by (destruct Hc as [-> | ->]; nia).
  split; [|split].
  - intros He0. rewrite Z.pow_add_r in HV by lia. rewrite <- HGW in HV.
    apply (Z.mul_cancel_r _ _ (c * P * B)); [lia|]. lia.
  - intros He0.
    assert (Z.pos m * 2 ^ (e + 105) * 2 ^ (- e) = Z.pos m * 2 ^ 105) as Hshift
      by (rewrite <- Z.mul_assoc, <- Z.pow_add_r by lia; do 2 f_equal; lia).
    rewrite HV, <- HGW in Hshift.
    apply (Z.mul_cancel_r _ _ (c * P * B)); [lia|]. lia.
  - assert (P * (k * c * Z.pos my - Z.pos mx * 2 ^ 53)
            = c * P * B * (k * Z.pos n - Z.pos s * G)) as Hscale.
    { rewrite Hmx, Hmy. fold A B.
      replace (Z.pos s * G * (c * P * B)) with (Z.pos s * (G * c * P * B)) by lia.
      change (2 ^ 105) with (2 ^ 52 * 2 ^ 53) in HGW.
      replace (c * P * B * (k * Z.pos n - Z.pos s * G))
        with (c * P * B * k * Z.pos n - Z.pos s * (G * c * P * B)) by lia.
      rewrite HGW, <- HPA. lia. }
    assert (Z.abs (c * P * B * (k * Z.pos n - Z.pos s * G)) < c * P * B * Z.pos n) as Hlt.
    { rewrite <- Hscale, Z.abs_mul, (Z.abs_eq P) by lia.
      rewrite Hmy in Hnear. fold B in Hnear.
      replace (c * P * B * Z.pos n) with (P * (c * (Z.pos n * B))) by lia.
      apply Z.mul_lt_mono_pos_l; [done|]. rewrite Hmy. by fold B. }
    rewrite Z.abs_mul, (Z.abs_eq (c * P * B)) in Hlt by lia.
    by apply Z.mul_lt_mono_pos_l in Hlt.
Qed.

Lemma float_value_finite (f : float) (m : positive) (e k g : Z) :
  Prim2SF f = S754_finite false m e -> 0 < g ->
  (0 <= e -> Z.pos m * 2 ^ e * g = k) ->
  (e < 0 -> Z.pos m * g = k * 2 ^ (- e)) ->
  ∃ q, float_value f = Some q ∧ (q == Qmake k (Z.to_pos g))%Q.
Proof.
  intros Hf Hg Hpos Hneg. unfold float_value. rewrite Hf.
  eexists. split; [reflexivity|]. case_decide as He.
  - unfold Qeq. simpl. rewrite Z2Pos.id by done. rewrite Hpos by done. lia.
  - unfold Qeq. simpl. rewrite !Z2Pos.id by (done || (apply Z.pow_pos_nonneg; lia)).
    apply Hneg. lia.
Qed.

(** Dividing one positive integer below 2^53 by another in double
    precision gives a finite number that lies within every pair of integer
    bounds of the exact quotient, and differs from the exact quotient by
    less than one part in 2^52. *)
Lemma float_quotient_spec (s n : Z) :
  0 < s < 2 ^ 53 -> 0 < n < 2 ^ 53 ->
  ∃ q,
    float_value (float_of_Z s / float_of_Z n) = Some q ∧
    (∀ lo : Z, lo * n <= s -> (inject_Z lo <= q)%Q) ∧
    (∀ hi : Z, s <= hi * n -> (q <= inject_Z hi)%Q) ∧
    (Qabs (q - Qmake s (Z.to_pos n)) * inject_Z (2 ^ 52) < q)%Q.
Proof.
  intros Hs Hn.
  destruct s as [|s|s]; [lia| |lia]. destruct n as [|n|n]; [lia| |lia].
  destruct (float_quotient_digits s n) as (m & e & k & g & Hf & Hk & Hg & Hpos & Hneg & Hnear);
    [lia..|].
  destruct (float_value_finite _ m e k g Hf Hg Hpos Hneg) as (q & Hq & Heq).
  exists q. split; [done|]. apply Z.abs_lt in Hnear.
  split; [|split].
  - intros lo Hlo. rewrite Heq. unfold Qle. simpl. rewrite Z2Pos.id by done. nia.
  - intros hi Hhi. rewrite Heq. unfold Qle. simpl. rewrite Z2Pos.id by done. nia.
  - rewrite Heq. unfold Qlt, Qabs, Qminus, Qplus, Qopp, Qmult, inject_Z.
    cbn [Qnum Qden]. rewrite !Pos2Z.inj_mul, !Z2Pos.id by done.
    assert (Z.abs (k * Z.pos n + - Z.pos s * g) < Z.pos n) as Habs
      by (apply Z.abs_lt; lia).
    assert (0 <= Z.abs (k * Z.pos n + - Z.pos s * g)) by apply Z.abs_nonneg.
    change (Z.pos 1) with 1.
    set (a := Z.abs (k * Z.pos n + - Z.pos s * g)) in *.
    assert (a * 2 ^ 52 < k * Z.pos n).
    { apply Z.lt_le_trans with (Z.pos n * 2 ^ 52).
      - apply Z.mul_lt_mono_pos_r; lia.
      - rewrite Z.mul_comm. apply Z.mul_le_mono_nonneg_r; lia. }
    replace (a * 2 ^ 52 * g) with (g * (a * 2 ^ 52)) by lia.
    replace (k * (g * Z.pos n * 1)) with (g * (k * Z.pos n)) by lia.
    by apply Z.mul_lt_mono_pos_l.
Qed.

(** ** Average rating *)

Lemma Avg_nonempty (xs : list Z) :
  xs ≠ [] →
  Avg xs = PyFloat (float_of_Z (foldr Z.add 0%Z xs) / float_of_Z (Z.of_nat (length xs))).
Proof. by destruct xs. Qed.

(** C6, as the code has it. [get_average_rating] returns the result of
    [aggregate]: a dictionary with the one key [numerical_rating__avg]. Its
    value is computed over exactly the Reviews whose [reviewed_profile] is
    this Profile; it is null when there is none, and otherwise a float, the
    sum of their ratings divided by their number in double precision. For
    a positive sum and a number of Reviews below 2^53, that float is a
    finite number which lies within every pair of integer bounds of the
    exact mean (so that it is the mean when the mean is an integer) and
    differs from the exact mean by less than one part in 2^52. *)
Theorem average_rating_is_aggregate_over_received_reviews
    (Review_objects : list Review.t) (self : Profile.t) :
  let received := Profile.received_reviews Review_objects self in
  let ratings := Review.numerical_rating <$> received in
  let total := foldr Z.add 0%Z ratings in
  let count := Z.of_nat (length received) in
  (∀ r, r ∈ received ↔ r ∈ Review_objects ∧ Review.reviewed_profile r = Profile.pk self) ∧
  (received = [] →
   Profile.get_average_rating Review_objects self
   = PyDict [("numerical_rating__avg", PyNone)]) ∧
  (received ≠ [] →
   ∃ f,
     Profile.get_average_rating Review_objects self
     = PyDict [("numerical_rating__avg", PyFloat f)] ∧
     f = (float_of_Z total / float_of_Z count)%float ∧
     (0 < total < 2 ^ 53 → count < 2 ^ 53 →
      ∃ q,
        float_value f = Some q ∧
        (∀ lo : Z, lo * count ≤ total → (inject_Z lo <= q)%Q) ∧
        (∀ hi : Z, total ≤ hi * count → (q <= inject_Z hi)%Q) ∧
        (Qabs (q - Qmake total (Z.to_pos count)) * inject_Z (2 ^ 52) < q)%Q)).
Proof.
  intros received ratings total count. split; [|split].
  - intros r. unfold received, Profile.received_reviews. rewrite list_elem_of_filter. tauto.
  - intros Hnone. unfold Profile.get_average_rating. fold received. by rewrite Hnone.
  - intros Hsome. exists (float_of_Z total / float_of_Z count)%float.
    assert (0 < count) by (unfold count; destruct received; [done|simpl; lia]).
    split; [|split; [done|]].
    + unfold Profile.get_average_rating. fold received. fold ratings.
      rewrite Avg_nonempty by (unfold ratings; by destruct received).
      unfold ratings at 2. by rewrite length_fmap.
    + intros Htotal Hcount. by apply float_quotient_spec.
Qed.

(** C6 as stated fails twice. With no Review the helper returns a dictionary
    and not null; and with the ratings 1, 1 and 2 the value in the
    dictionary is the float 6004799503160661 / 2^52, which is not the mean
    4/3. With the ratings 4 and 5 it is four and a half. *)
Lemma average_rating_is_not_null_on_no_reviews :
  let review rating := Review.mk 1 2 1 "" rating Example.t0 in
  Profile.get_average_rating [] Example.alice_p ≠ PyNone ∧
  Profile.get_average_rating [] Example.alice_p
  = PyDict [("numerical_rating__avg", PyNone)] ∧
  (∃ f q,
     Profile.get_average_rating [review 1; review 1; review 2] Example.alice_p
     = PyDict [("numerical_rating__avg", PyFloat f)] ∧
     float_value f = Some q ∧
     q = Qmake 6004799503160661 4503599627370496 ∧
     ¬ (q == Qmake 4 3)%Q) ∧
  (∃ f q,
     Profile.get_average_rating [review 4; review 5] Example.alice_p
     = PyDict [("numerical_rating__avg", PyFloat f)] ∧
     float_value f = Some q ∧ (q == Qmake 9 2)%Q).
Proof.
  split; [done|]. split; [done|]. split.
  - eexists _, _. split; [reflexivity|]. split; [vm_compute; reflexivity|].
    split; [reflexivity|]. unfold Qeq. simpl. lia.
  - eexists _, _. split; [reflexivity|]. split; [vm_compute; reflexivity|].
    reflexivity.
Qed.

(** ** Monetary values on the way out *)

(** [get_current_bid] does no arithmetic: it hands back a stored amount. *)
Lemma current_bid_is_a_stored_amount (Bid_objects : list Bid.t) (self : Item.t) :
  Item.get_current_bid Bid_objects self = Item.starting_bid self ∨
  ∃ b, b ∈ Bid_objects ∧ Bid.item b = Item.pk self ∧
       Item.get_current_bid Bid_objects self = Bid.bid_amount b.
Proof.
  unfold Item.get_current_bid.
  destruct (head _) as [h|] eqn:Hhd; [right|by left].
  apply first_of_order_by in Hhd as [[Hin Hit]%elem_of_bids_of _]; [|apply _..].
  by exists h.
Qed.

(** C9, as the code has it. [starting_bid] and [bid_amount] are stored as
    exact hundredths and go out as exact decimals, and [get_current_bid]
    picks one of those stored amounts without any arithmetic; but the
    serializer's [current_bid] is that amount passed through [float]: a
    binary floating-point number in every Item representation. *)
Theorem money_is_decimal_but_current_bid_goes_out_as_float (db : Store) (now : Z)
    (obj : Item.t) (bid : Bid.t) :
  ItemSerializer.starting_bid (ItemSerializer.to_representation db now obj)
  = AmountDecimal (Item.starting_bid obj) ∧
  BidSerializer.bid_amount (BidSerializer.to_representation db now bid)
  = AmountDecimal (Bid.bid_amount bid) ∧
  (Item.get_current_bid (Bid_objects db) obj = Item.starting_bid obj ∨
   ∃ b, b ∈ Bid_objects db ∧ Bid.item b = Item.pk obj ∧
        Item.get_current_bid (Bid_objects db) obj = Bid.bid_amount b) ∧
  ItemSerializer.current_bid (ItemSerializer.to_representation db now obj)
  = AmountFloat (float_of_decimal (Item.get_current_bid (Bid_objects db) obj)).
Proof.
  split; [done|]. split; [done|]. split; [|done].
  apply current_bid_is_a_stored_amount.
Qed.

(** C9 as stated fails: the Item listed at 0.10 with no Bid goes out with a
    [current_bid] that is a float, and the value of that float,
    7205759403792794 / 2^56, is not one tenth. *)
Lemma current_bid_of_a_dime_is_an_inexact_float :
  let representation :=
    ItemSerializer.to_representation Example.dime_db Example.t0 Example.dime in
  Item.get_current_bid (Bid_objects Example.dime_db) Example.dime = 10 ∧
  (∀ hundredths, ItemSerializer.current_bid representation ≠ AmountDecimal hundredths) ∧
  ∃ f q,
    ItemSerializer.current_bid representation = AmountFloat f ∧
    float_value f = Some q ∧
    q = Qmake 7205759403792794 72057594037927936 ∧
    ¬ (q == Qmake 10 100)%Q.
Proof.
  split; [done|]. split; [done|].
  eexists _, _. split; [reflexivity|]. split; [vm_compute; reflexivity|].
  split; [reflexivity|]. unfold Qeq. simpl. lia.
Qed.

(** ** Ratings of Reviews *)

Lemma rating_choice_in_range (data : Json) (v : Z) :
  ReviewSerializer.numerical_rating_to_internal_value data = Some v → 1 ≤ v ≤ 5.
Proof.
  unfold ReviewSerializer.numerical_rating_to_internal_value.
  intros Hv.
  assert (∃ c, c ∈ Review.Rating.choices ∧ fst c = v) as (c & Hc & <-).
  { destruct data; [done|..];
      apply fmap_Some in Hv as ([i c] & Hfind & ->);
      apply list_find_Some in Hfind as (Hi & _);
      exists c; (split; [by eapply list_elem_of_lookup_2|done]). }
  unfold Review.Rating.choices in Hc.
  repeat (apply elem_of_cons in Hc as [-> | Hc]; [by compute|]).
  by apply elem_of_nil in Hc.
Qed.








(** ** Bid amounts *)

Section digits.
Let step (acc x : Z) : Z := 10 * acc + x.

Lemma foldl_digits_shift (l : list Z) (acc : Z) :
  foldl step acc l = acc * 10 ^ Z.of_nat (length l) + foldl step 0 l.
Proof.
  revert acc. induction l as [|x l IH]; intros acc; simpl.
  - lia.
  - rewrite (IH (step acc x)), (IH (step 0 x)). unfold step.
    rewrite Nat2Z.inj_succ, Z.pow_succ_r by lia. lia.
Qed.

Lemma foldl_digits_bounds (l : list Z) :
  Forall (λ x, 0 ≤ x < 10) l → 0 ≤ foldl step 0 l < 10 ^ Z.of_nat (length l).
Proof.
  induction 1 as [|x l Hx _ IH]; simpl; [lia|].
  rewrite foldl_digits_shift.
  rewrite Nat2Z.inj_succ, Z.pow_succ_r by lia.
  assert (0 < 10 ^ Z.of_nat (length l)) by (apply Z.pow_pos_nonneg; lia).
  assert (step 0 x = x) as -> by (unfold step; lia). nia.
Qed.
End digits.

(** A coefficient below [10^k] is spelled with at most [k] digits. *)
Lemma coefficient_digits (d : Decimal.t) (k : Z) :
  Decimal.well_formed d → 1 ≤ k → Decimal.coefficient d < 10 ^ k →
  0 ≤ Decimal.coefficient d ∧ 1 ≤ Z.of_nat (length (Decimal.digits d)) ≤ k.
Proof.
  unfold Decimal.well_formed, Decimal.coefficient.
  intros (Hne & Hall & Hlead) Hk Hlt.
  split; [by apply foldl_digits_bounds|].
  destruct (Decimal.digits d) as [|x rest] eqn:Hd; [done|].
  simpl length. split; [lia|].
  destruct rest as [|y rest]; [simpl; lia|].
  specialize (Hlead x (y :: rest) eq_refl ltac:(done)).
  apply Forall_cons in Hall as [Hx Hrest].
  remember (y :: rest) as tail eqn:Htail.
  simpl foldl in Hlt. rewrite foldl_digits_shift in Hlt.
  pose proof (foldl_digits_bounds tail Hrest) as Hb.
  assert (0 < 10 ^ Z.of_nat (length tail)) as Hpos
    by (apply Z.pow_pos_nonneg; lia).
  assert (10 ^ Z.of_nat (length tail) < 10 ^ k) as Hpow by nia.
  rewrite Nat2Z.inj_succ.
  apply Z.pow_lt_mono_r_iff in Hpow; lia.
Qed.

Lemma representable_coefficient (d : Decimal.t) :
  representable_10_2 d →
  0 ≤ Decimal.coefficient d ∧
  1 ≤ Z.of_nat (length (Decimal.digits d)) ≤ 8 - Decimal.exponent d.
Proof.
  intros (Hwf & Hexp & Hval).
  assert (0 ≤ Decimal.coefficient d) as Hnn by by apply foldl_digits_bounds, Hwf.
  apply coefficient_digits; [done|lia|].
  unfold Decimal.to_hundredths in Hval.
  assert (Decimal.exponent d = -2 ∨ Decimal.exponent d = -1 ∨ Decimal.exponent d = 0)
    as [He | [He | He]] by lia; rewrite He in *;
    change (10 ^ 10) with 10000000000 in Hval;
    [ change (10 ^ (-2 + 2)) with 1 in Hval; change (10 ^ (8 - -2)) with 10000000000
    | change (10 ^ (-1 + 2)) with 10 in Hval; change (10 ^ (8 - -1)) with 1000000000
    | change (10 ^ (0 + 2)) with 100 in Hval; change (10 ^ (8 - 0)) with 100000000 ];
    destruct (Decimal.sign d); lia.
Qed.

(** Both precision checks pass on every representable amount. *)
Lemma representable_passes_precision (d : Decimal.t) :
  representable_10_2 d →
  DecimalValidator 10 2 d = true ∧ validate_precision 10 2 d = true.
Proof.
  intros Hrep. pose proof (representable_coefficient d Hrep) as [_ Hlen].
  destruct Hrep as (_ & Hexp & _).
  unfold DecimalValidator, validate_precision.
  repeat case_decide; simpl;
    rewrite ?andb_true_iff, ?bool_decide_eq_true; lia.
Qed.

(** C10. Every amount representable with at most 10 digits and 2 decimal
    places, whatever its sign and whatever the Item's starting bid or
    highest bid, passes the bid-creation form and the API bid serializer
    (given an existing Item and, where one is named, an existing bidder);
    the page view and the API view then store a Bid with exactly that
    amount. *)
Theorem representable_bid_amount_is_accepted (db : Store) (now later : Z)
    (amount : Decimal.t) :
  representable_10_2 amount →
  CreateBidForm.cleaned {| CreateBidForm.bid_amount := Some amount |}
  = Some (Decimal.to_hundredths amount) ∧
  CreateBidForm.is_valid {| CreateBidForm.bid_amount := Some amount |} = true ∧
  (∀ item_id bidder_id,
     is_Some (Item_by_pk db item_id) →
     match bidder_id with
     | Some b => is_Some (Profile_by_pk db b)
     | None => True
     end →
     BidSerializer.is_valid db (BidSerializer.mkPayload (Some item_id) bidder_id (Some amount))
     = true) ∧
  (∀ user item_id item profile,
     Item_by_pk db item_id = Some item →
     MyLoginRequiredMixin.get_logged_in_profile db user = Ok (Some profile) →
     CreateBidView.dispatch db now (Some user) POST item_id
       {| CreateBidForm.bid_amount := Some amount |}
     = (mkResponse HTTP_302_FOUND (Redirect "item_detail"),
        set_bids db
          (Bid_objects db
           ++ [ {| Bid.pk := Bid_seq db; Bid.item := Item.pk item;
                   Bid.bidder := Profile.pk profile;
                   Bid.bid_amount := Decimal.to_hundredths amount;
                   Bid.timestamp := now |} ])
          (S (Bid_seq db)))) ∧
  (∀ user item_id bidder_id,
     is_Some (Item_by_pk db item_id) →
     is_Some (Profile_by_pk db bidder_id) →
     ∃ body,
       BidListCreateAPIView.post db now later user
         (BidSerializer.mkPayload (Some item_id) (Some bidder_id) (Some amount))
       = (mkResponse HTTP_201_CREATED body,
          set_bids db
            (Bid_objects db
             ++ [ {| Bid.pk := Bid_seq db; Bid.item := item_id;
                     Bid.bidder := bidder_id;
                     Bid.bid_amount := Decimal.to_hundredths amount;
                     Bid.timestamp := now |} ])
            (S (Bid_seq db)))).
Proof.
  intros [Hform Hapi]%representable_passes_precision.
  assert (CreateBidForm.cleaned {| CreateBidForm.bid_amount := Some amount |}
          = Some (Decimal.to_hundredths amount)) as Hclean.
  { unfold CreateBidForm.cleaned. simpl. by rewrite Hform. }
  split; [done|]. split; [unfold CreateBidForm.is_valid; by rewrite Hclean|].
  split; [|split].
  - intros item_id bidder_id [item Hitem] Hbidder.
    unfold BidSerializer.is_valid, BidSerializer.errors. simpl.
    rewrite Hitem, Hapi. destruct bidder_id as [b|]; [|done].
    destruct Hbidder as [p ->]. done.
  - intros user item_id item profile Hitem Hprofile.
    unfold CreateBidView.dispatch. by rewrite Hitem, Hclean, Hprofile.
  - intros user item_id bidder_id [item Hitem] [p Hp].
    unfold BidListCreateAPIView.post, BidSerializer.errors. simpl.
    rewrite Hitem, Hp, Hapi. simpl. by eexists.
Qed.

Lemma example_amounts_are_representable :
  representable_10_2 Example.minus_five ∧
  representable_10_2 Example.zero_amount ∧
  representable_10_2 Example.one_cent.
Proof.
  repeat split; try done; try (simpl; lia); try (repeat constructor; lia).
  - intros x rest [= <- <-] _. lia.
  - by intros x rest [= <- <-].
  - by intros x rest [= <- <-].
Qed.

(** Bob bids -5.00, then 0.00, then 0.01 on the vase, whose highest bid is
    15.00: the form and the serializer take all three. *)
Lemma representable_bid_amount_is_accepted_witness :
  Item.get_current_bid (Bid_objects Example.db) Example.vase = 1500 ∧
  (Decimal.to_hundredths Example.minus_five = -500 ∧
   CreateBidForm.is_valid {| CreateBidForm.bid_amount := Some Example.minus_five |} = true ∧
   BidSerializer.is_valid Example.db
     (BidSerializer.mkPayload (Some 1%nat) (Some 2%nat) (Some Example.minus_five)) = true) ∧
  (Decimal.to_hundredths Example.zero_amount = 0 ∧
   CreateBidForm.is_valid {| CreateBidForm.bid_amount := Some Example.zero_amount |} = true ∧
   BidSerializer.is_valid Example.db
     (BidSerializer.mkPayload (Some 1%nat) (Some 2%nat) (Some Example.zero_amount)) = true) ∧
  (Decimal.to_hundredths Example.one_cent = 1 ∧
   CreateBidForm.is_valid {| CreateBidForm.bid_amount := Some Example.one_cent |} = true ∧
   BidSerializer.is_valid Example.db
     (BidSerializer.mkPayload (Some 1%nat) (Some 2%nat) (Some Example.one_cent)) = true).
Proof.
  destruct example_amounts_are_representable as (Hminus & Hzero & Hcent).
  split; [reflexivity|].
  split; [|split].
  - split; [reflexivity|].
    destruct (representable_bid_amount_is_accepted Example.db Example.t0 Example.t0
                Example.minus_five Hminus) as (_ & Hform & Hapi & _).
    split; [exact Hform|]. apply (Hapi 1%nat (Some 2%nat)); by eexists.
  - split; [reflexivity|].
    destruct (representable_bid_amount_is_accepted Example.db Example.t0 Example.t0
                Example.zero_amount Hzero) as (_ & Hform & Hapi & _).
    split; [exact Hform|]. apply (Hapi 1%nat (Some 2%nat)); by eexists.
  - split; [reflexivity|].
    destruct (representable_bid_amount_is_accepted Example.db Example.t0 Example.t0
                Example.one_cent Hcent) as (_ & Hform & Hapi & _).
    split; [exact Hform|]. apply (Hapi 1%nat (Some 2%nat)); by eexists.
Defined.

(** * Further properties of the code *)

(** ** Time left, on both sides of the end *)

Lemma of_microseconds_normalised (us : Z) :
  0 ≤ timedelta.seconds (timedelta.of_microseconds us) < 86400 ∧
  0 ≤ timedelta.microseconds (timedelta.of_microseconds us) < 1000000 ∧
  (0 ≤ us → 0 ≤ timedelta.days (timedelta.of_microseconds us)).
Proof.
  unfold timedelta.of_microseconds. simpl.
  pose proof (Z.mod_pos_bound us 86400000000 ltac:(lia)) as Hday.
  pose proof (Z.mod_pos_bound us 1000000 ltac:(lia)) as Hus.
  split; [|split; [done|]].
  - split; [apply Z.div_pos; lia|]. apply Z.div_lt_upper_bound; lia.
  - intros Hnn. apply Z.div_pos; lia.
Qed.

(** X1. The time left of an Item reads ["Ended"], from the model helper
    and from the serializer, exactly when its end lies strictly before the
    current time; otherwise the helper returns the normalised duration
    [end_time - now], which is not negative. *)
Theorem time_left_reads_Ended_iff_strictly_past (now : Z) (self : Item.t) :
  (ItemSerializer.get_time_left now self = "Ended" ↔ Item.end_time self < now) ∧
  (Item.get_time_left now self = TimeLeftStr "Ended" ↔ Item.end_time self < now) ∧
  (now ≤ Item.end_time self →
   ∃ d, Item.get_time_left now self = TimeLeftDelta d ∧
        timedelta.to_microseconds d = Item.end_time self - now ∧
        0 ≤ timedelta.days d ∧
        0 ≤ timedelta.seconds d < 86400 ∧
        0 ≤ timedelta.microseconds d < 1000000).
Proof.
  destruct (decide (Item.end_time self < now)) as [Hpast | Hnot].
  - destruct (time_left_past now self Hpast) as [Hm Hs].
    split; [by rewrite Hs|]. split; [by rewrite Hm|]. lia.
  - destruct (time_left_not_past now self ltac:(lia)) as (Hm & Hus & _ & Hne).
    split; [split; [done|lia]|]. split; [rewrite Hm; split; [done|lia]|].
    intros _. eexists. split; [exact Hm|]. split; [exact Hus|].
    unfold datetime_sub.
    destruct (of_microseconds_normalised (Item.end_time self - now)) as (? & ? & Hdays).
    split; [apply Hdays; lia|done].
Qed.

(** ** The acting Profile *)

(** X2. [get_logged_in_profile] returns [None] exactly when no Profile
    belongs to the account; a Profile it returns belongs to the account and
    is the only one that does; and it raises exactly when the account has
    two or more Profiles, which cannot happen when Profiles and accounts are
    one to one. *)
Theorem logged_in_profile_is_the_accounts_only_profile (db : Store) (user : nat) :
  (MyLoginRequiredMixin.get_logged_in_profile db user = Ok None
   ↔ ∀ p, p ∈ Profile_objects db → Profile.user p ≠ user) ∧
  (∀ p, MyLoginRequiredMixin.get_logged_in_profile db user = Ok (Some p) →
        p ∈ Profile_objects db ∧ Profile.user p = user ∧
        ∀ q, q ∈ Profile_objects db → Profile.user q = user → q = p) ∧
  ((∃ e, MyLoginRequiredMixin.get_logged_in_profile db user = Raise e)
   ↔ (2 ≤ length (filter (λ p, Profile.user p = user) (Profile_objects db)))%nat) ∧
  (one_profile_per_user db →
   ∀ e, MyLoginRequiredMixin.get_logged_in_profile db user ≠ Raise e).
Proof.
  unfold MyLoginRequiredMixin.get_logged_in_profile, Profile_get_by_user.
  pose proof (get_by_unique_column Profile.user (Profile_objects db) user) as Hunique.
  unfold one_profile_per_user.
  destruct (filter (λ p, Profile.user p = user) (Profile_objects db))
    as [|p [|p' rest]] eqn:Hf; simpl in *.
  - split; [|split; [done|split; [split; [by intros [? ?]|lia]|done]]].
    split; [|done]. intros _ p Hp Hu.
    assert (p ∈ filter (λ p, Profile.user p = user) (Profile_objects db)) as Hin
      by by apply list_elem_of_filter.
    rewrite Hf in Hin. by apply elem_of_nil in Hin.
  - assert (p ∈ filter (λ p, Profile.user p = user) (Profile_objects db)) as Hin
      by (rewrite Hf; left).
    apply list_elem_of_filter in Hin as [Hu Hp].
    split; [|split; [|split; [split; [by intros [? ?]|lia]|done]]].
    + split; [done|]. intros Hnone. by destruct (Hnone p Hp).
    + intros ? [= <-]. split; [done|]. split; [done|]. intros q Hq Hqu.
      assert (q ∈ filter (λ p, Profile.user p = user) (Profile_objects db)) as Hqin
        by by apply list_elem_of_filter.
      rewrite Hf in Hqin. by apply list_elem_of_singleton in Hqin.
  - assert (p ∈ filter (λ p, Profile.user p = user) (Profile_objects db)) as Hin
      by (rewrite Hf; left).
    apply list_elem_of_filter in Hin as [Hu Hp].
    split; [|split; [done|split; [split; [lia|by eexists]|]]].
    + split; [done|]. intros Hnone. by destruct (Hnone p Hp).
    + intros Hnodup. by destruct (Hunique Hnodup).
Qed.

(** ** The owner's update and delete *)

Lemma owner_queryset_hits (db : Store) (user pk : nat) (profile : Profile.t)
    (item : Item.t) :
  MyLoginRequiredMixin.get_logged_in_profile db user = Ok (Some profile) →
  item ∈ Item_objects db → Item.pk item = pk → Item.owner item = Profile.pk profile →
  ∃ queryset object,
    UpdateItemView.get_queryset db user = Ok queryset ∧
    DeleteItemView.get_queryset db user = Ok queryset ∧
    get_object queryset pk = Some object ∧
    object ∈ Item_objects db ∧ Item.pk object = pk ∧
    Item.owner object = Profile.pk profile.
Proof.
  intros Hprofile Hin Hpk Howner.
  unfold UpdateItemView.get_queryset, DeleteItemView.get_queryset. rewrite Hprofile.
  set (queryset := filter (λ i, Item.owner i = Profile.pk profile) (Item_objects db)).
  assert (item ∈ queryset) as Hq by by apply list_elem_of_filter.
  destruct (get_object queryset pk) as [object|] eqn:Hget.
  - exists queryset, object. repeat split; try done.
    + apply get_object_Some in Hget as [Hobj _].
      by apply list_elem_of_filter in Hobj as [_ ?].
    + by apply get_object_Some in Hget as [_ ?].
    + apply get_object_Some in Hget as [Hobj _].
      by apply list_elem_of_filter in Hobj as [? _].
  - exfalso. pose proof (proj1 (get_object_None _ _) Hget) as Hnone.
    by apply (Hnone item).
Qed.

(** X3. When the acting account's Profile owns an Item, its POST to the
    delete page is answered with a redirect to the item list and removes
    that Item together with every Bid and every Comment on it; every other
    Item, Bid and Comment stays, and accounts, tokens, Profiles and Reviews
    are untouched. *)
Theorem owner_delete_cascades_to_bids_and_comments (db : Store) (user pk : nat)
    (profile : Profile.t) (item : Item.t) :
  MyLoginRequiredMixin.get_logged_in_profile db user = Ok (Some profile) →
  item ∈ Item_objects db → Item.pk item = pk → Item.owner item = Profile.pk profile →
  ∃ db',
    DeleteItemView.dispatch db (Some user) POST pk
    = (mkResponse HTTP_302_FOUND (Redirect "item_list"), db') ∧
    (∀ i, i ∈ Item_objects db' ↔ i ∈ Item_objects db ∧ Item.pk i ≠ pk) ∧
    (∀ b, b ∈ Bid_objects db' ↔ b ∈ Bid_objects db ∧ Bid.item b ≠ pk) ∧
    (∀ c, c ∈ Comment_objects db' ↔ c ∈ Comment_objects db ∧ Comment.item c ≠ pk) ∧
    Item_by_pk db' pk = None ∧
    User_objects db' = User_objects db ∧ Token_objects db' = Token_objects db ∧
    Profile_objects db' = Profile_objects db ∧ Review_objects db' = Review_objects db.
Proof.
  intros Hprofile Hin Hpk Howner.
  destruct (owner_queryset_hits db user pk profile item Hprofile Hin Hpk Howner)
    as (queryset & object & _ & Hqs & Hget & _ & Hobj & _).
  exists (delete_item db pk). unfold DeleteItemView.dispatch.
  rewrite Hqs, Hget, Hobj. split; [done|]. simpl.
  split; [intros i; rewrite list_elem_of_filter; tauto|].
  split; [intros b; rewrite list_elem_of_filter; tauto|].
  split; [intros c; rewrite list_elem_of_filter; tauto|].
  split; [|done].
  unfold Item_by_pk. simpl. apply fmap_None, list_find_None, Forall_forall.
  intros i [Hne _]%list_elem_of_filter. done.
Qed.

Lemma owner_delete_cascades_to_bids_and_comments_witness :
  ∃ db',
    DeleteItemView.dispatch Example.db (Some 1%nat) POST 1
    = (mkResponse HTTP_302_FOUND (Redirect "item_list"), db') ∧
    (∀ i, i ∈ Item_objects db' ↔ i ∈ Item_objects Example.db ∧ Item.pk i ≠ 1%nat) ∧
    (∀ b, b ∈ Bid_objects db' ↔ b ∈ Bid_objects Example.db ∧ Bid.item b ≠ 1%nat).
Proof.
  destruct (owner_delete_cascades_to_bids_and_comments Example.db 1 1 Example.alice_p
              Example.vase) as (db' & H1 & H2 & H3 & _); [done|left|done|done|].
  by exists db'.
Defined.

(** X4. When the acting account's Profile owns an Item and the update form
    is valid, the POST is answered with a redirect to the item and rewrites
    the rows of that primary key with the form's title, description,
    starting bid and end time, the same owner, and [listed_at] set to the
    current time; rows of other primary keys, and all Bids, stay as they
    are. With a form that is not valid the page is shown again and nothing
    is stored. *)
Theorem owner_update_keeps_owner_and_refreshes_listed_at (db : Store) (now : Z)
    (user pk : nat) (profile : Profile.t) (item : Item.t) (form : UpdateItemForm.data) :
  MyLoginRequiredMixin.get_logged_in_profile db user = Ok (Some profile) →
  item ∈ Item_objects db → Item.pk item = pk → Item.owner item = Profile.pk profile →
  (UpdateItemForm.cleaned form = None →
   UpdateItemView.dispatch db now (Some user) POST pk form
   = (mkResponse HTTP_200_OK (Page "project/update_item_form.html"), db)) ∧
  (∀ c, UpdateItemForm.cleaned form = Some c →
   ∃ db' saved,
     UpdateItemView.dispatch db now (Some user) POST pk form
     = (mkResponse HTTP_302_FOUND (Redirect "item_detail"), db') ∧
     saved = {| Item.pk := pk; Item.owner := Profile.pk profile;
                Item.title := UpdateItemForm.title form;
                Item.description := UpdateItemForm.description form;
                Item.starting_bid := fst c; Item.listed_at := now;
                Item.end_time := snd c |} ∧
     Item_by_pk db' pk = Some saved ∧
     (∀ i, i ∈ Item_objects db' → Item.pk i = pk → i = saved) ∧
     (∀ i, Item.pk i ≠ pk → (i ∈ Item_objects db' ↔ i ∈ Item_objects db)) ∧
     length (Item_objects db') = length (Item_objects db) ∧
     Bid_objects db' = Bid_objects db ∧
     Item.get_num_bids (Bid_objects db') saved = Item.get_num_bids (Bid_objects db) item).
Proof.
  intros Hprofile Hin Hpk Howner.
  destruct (owner_queryset_hits db user pk profile item Hprofile Hin Hpk Howner)
    as (queryset & object & Hqs & _ & Hget & Hobjin & Hobj & Hobjowner).
  unfold UpdateItemView.dispatch. rewrite Hqs, Hget.
  split; [by intros ->|]. intros c ->.
  eexists _, _. split; [reflexivity|]. split; [reflexivity|].
  unfold UpdateItemForm.save. rewrite Hobj, Hobjowner.
  set (saved := {| Item.pk := pk; Item.owner := Profile.pk profile;
                   Item.title := UpdateItemForm.title form;
                   Item.description := UpdateItemForm.description form;
                   Item.starting_bid := fst c; Item.listed_at := now;
                   Item.end_time := snd c |}).
  assert (∀ i, i ∈ Item_objects (save_item db saved) → Item.pk i = pk → i = saved)
    as Hsaved.
  { simpl. intros i (j & -> & Hj)%list_elem_of_fmap. by case_decide. }
  split; [|split; [exact Hsaved|split; [|split; [|split]]]].
  - unfold Item_by_pk.
    destruct (list_find (λ i, Item.pk i = pk) (Item_objects (save_item db saved)))
      as [[n i]|] eqn:Hfind.
    + apply list_find_Some in Hfind as (Hn & Hi & _). simpl. f_equal.
      apply Hsaved; [by eapply list_elem_of_lookup_2|done].
    + exfalso. apply list_find_None in Hfind. rewrite Forall_forall in Hfind.
      apply (Hfind saved); [|done]. simpl. apply list_elem_of_fmap.
      exists object. split; [|done]. by rewrite decide_True.
  - intros i Hne. simpl. rewrite list_elem_of_fmap. split.
    + intros (j & -> & Hj). case_decide; [done|]. done.
    + intros Hi. exists i. split; [|done]. by rewrite decide_False.
  - simpl. by rewrite length_fmap.
  - done.
  - unfold Item.get_num_bids, Item.bids_of. simpl. by rewrite Hpk.
Qed.

Lemma owner_update_keeps_owner_and_refreshes_listed_at_witness :
  ∃ db',
    UpdateItemView.dispatch Example.db (Example.t0 + 5) (Some 1%nat) POST 1
      {| UpdateItemForm.title := "Blue vase"; UpdateItemForm.description := "";
         UpdateItemForm.starting_bid := Some Example.one_cent;
         UpdateItemForm.end_time := Some (Example.t0 + Example.hour) |}
    = (mkResponse HTTP_302_FOUND (Redirect "item_detail"), db') ∧
    Item_by_pk db' 1
    = Some {| Item.pk := 1; Item.owner := 1; Item.title := "Blue vase";
              Item.description := ""; Item.starting_bid := 1;
              Item.listed_at := Example.t0 + 5;
              Item.end_time := Example.t0 + Example.hour |}.
Proof.
  destruct (owner_update_keeps_owner_and_refreshes_listed_at Example.db (Example.t0 + 5)
              1 1 Example.alice_p Example.vase
              {| UpdateItemForm.title := "Blue vase"; UpdateItemForm.description := "";
                 UpdateItemForm.starting_bid := Some Example.one_cent;
                 UpdateItemForm.end_time := Some (Example.t0 + Example.hour) |})
    as [_ Hvalid]; [done|left|done|done|].
  destruct (Hvalid (1, Example.t0 + Example.hour) eq_refl)
    as (db' & saved & Hrun & -> & Hfound & _).
  by exists db'.
Defined.

(** ** Placing a bid *)

Lemma current_bid_of_some_bids (Bid_objects : list Bid.t) (self : Item.t) :
  Item.bids_of Bid_objects self ≠ [] →
  (∃ b, b ∈ Item.bids_of Bid_objects self ∧
        Bid.bid_amount b = Item.get_current_bid Bid_objects self) ∧
  (∀ b, b ∈ Item.bids_of Bid_objects self →
        Bid.bid_amount b ≤ Item.get_current_bid Bid_objects self).
Proof.
  intros Hne. unfold Item.get_current_bid.
  destruct (head _) as [h|] eqn:Hhd.
  - apply first_of_order_by in Hhd as [Hin Hmax]; [|apply _..].
    split; [by exists h|]. intros b Hb. by apply (Hmax b).
  - by apply first_of_order_by_None in Hhd.
Qed.

Lemma current_bid_unique (Bid_objects : list Bid.t) (self : Item.t) (m : Z) :
  (∃ b, b ∈ Item.bids_of Bid_objects self ∧ Bid.bid_amount b = m) →
  (∀ b, b ∈ Item.bids_of Bid_objects self → Bid.bid_amount b ≤ m) →
  Item.get_current_bid Bid_objects self = m.
Proof.
  intros (b & Hb & Hm) Hmax.
  destruct (current_bid_of_some_bids Bid_objects self) as [(h & Hh & <-) Hall].
  { intros Hnil. rewrite Hnil in Hb. by apply elem_of_nil in Hb. }
  specialize (Hmax h Hh). specialize (Hall b Hb). lia.
Qed.

(** X5. A valid bid placed through the page by an account with a Profile,
    on an Item that exists, is answered with a redirect to the item and
    raises that Item's number of bids by one. Its current bid becomes the
    bid's amount when it is the first bid (whatever the starting bid), and
    the larger of the previous current bid and the amount otherwise. The
    counts and current bids of Items with another primary key are
    unchanged. *)
Theorem page_bid_raises_count_and_sets_current_bid (db : Store) (now : Z)
    (user item_id : nat) (item : Item.t) (profile : Profile.t)
    (form : CreateBidForm.data) (amount : Z) :
  Item_by_pk db item_id = Some item →
  MyLoginRequiredMixin.get_logged_in_profile db user = Ok (Some profile) →
  CreateBidForm.cleaned form = Some amount →
  ∃ db',
    CreateBidView.dispatch db now (Some user) POST item_id form
    = (mkResponse HTTP_302_FOUND (Redirect "item_detail"), db') ∧
    Item.get_num_bids (Bid_objects db') item
    = S (Item.get_num_bids (Bid_objects db) item) ∧
    Item.get_current_bid (Bid_objects db') item
    = (if decide (Item.get_num_bids (Bid_objects db) item = 0%nat) then amount
       else Z.max (Item.get_current_bid (Bid_objects db) item) amount) ∧
    (∀ other, Item.pk other ≠ Item.pk item →
       Item.get_num_bids (Bid_objects db') other
       = Item.get_num_bids (Bid_objects db) other ∧
       Item.get_current_bid (Bid_objects db') other
       = Item.get_current_bid (Bid_objects db) other) ∧
    Item_objects db' = Item_objects db.
Proof.
  intros Hitem Hprofile Hclean.
  eexists. unfold CreateBidView.dispatch. rewrite Hitem, Hclean, Hprofile.
  split; [reflexivity|]. simpl.
  set (bid := {| Bid.pk := Bid_seq db; Bid.item := Item.pk item;
                 Bid.bidder := Profile.pk profile; Bid.bid_amount := amount;
                 Bid.timestamp := now |}).
  assert (Item.bids_of (Bid_objects db ++ [bid]) item
          = Item.bids_of (Bid_objects db) item ++ [bid]) as Hmine.
  { unfold Item.bids_of. rewrite filter_app. f_equal. by rewrite filter_cons_True. }
  split; [|split; [|split; [|done]]].
  - unfold Item.get_num_bids. rewrite Hmine, length_app. simpl. lia.
  - apply current_bid_unique.
    + unfold Item.get_num_bids. rewrite Hmine.
      destruct (Item.bids_of (Bid_objects db) item) as [|b0 rest] eqn:Hold; simpl.
      * exists bid. split; [left|done].
      * destruct (current_bid_of_some_bids (Bid_objects db) item)
          as [(h & Hh & Hhc) _]; [by rewrite Hold|].
        destruct (Z.max_spec (Item.get_current_bid (Bid_objects db) item) amount)
          as [[_ ->] | [_ ->]].
        -- exists bid. split; [set_solver|done].
        -- exists h. split; [|done]. rewrite Hold in Hh.
           apply elem_of_cons in Hh as [-> | Hh]; [left | right; apply elem_of_app; by left].
    + unfold Item.get_num_bids. rewrite Hmine. intros b [Hb | Hb]%elem_of_app.
      * destruct (current_bid_of_some_bids (Bid_objects db) item) as [_ Hall].
        { intros Hnil. rewrite Hnil in Hb. by apply elem_of_nil in Hb. }
        specialize (Hall b Hb).
        destruct (Item.bids_of (Bid_objects db) item); [by apply elem_of_nil in Hb|].
        simpl. lia.
      * apply list_elem_of_singleton in Hb as ->. simpl. case_decide; lia.
  - intros other Hother.
    assert (Item.bids_of (Bid_objects db ++ [bid]) other
            = Item.bids_of (Bid_objects db) other) as Hothers.
    { unfold Item.bids_of. rewrite filter_app, filter_cons_False by (simpl; congruence).
      by rewrite filter_nil, app_nil_r. }
    unfold Item.get_num_bids, Item.get_current_bid. by rewrite Hothers.
Qed.

(** Bob's 0.01 on the vase (starting bid 10.00, highest bid 15.00) leaves the
    current bid at 15.00; on the dime (starting bid 0.10, no bid yet) a first
    bid of -5.00 makes the current bid -5.00. *)
Lemma page_bid_raises_count_and_sets_current_bid_witness :
  (∃ db',
     CreateBidView.dispatch Example.db Example.t0 (Some 2%nat) POST 1
       {| CreateBidForm.bid_amount := Some Example.one_cent |}
     = (mkResponse HTTP_302_FOUND (Redirect "item_detail"), db') ∧
     Item.get_num_bids (Bid_objects db') Example.vase = 2%nat ∧
     Item.get_current_bid (Bid_objects db') Example.vase = 1500) ∧
  (∃ db',
     CreateBidView.dispatch Example.dime_db Example.t0 (Some 1%nat) POST 7
       {| CreateBidForm.bid_amount := Some Example.minus_five |}
     = (mkResponse HTTP_302_FOUND (Redirect "item_detail"), db') ∧
     Item.get_num_bids (Bid_objects db') Example.dime = 1%nat ∧
     Item.get_current_bid (Bid_objects db') Example.dime = -500).
Proof.
  split.
  - destruct (page_bid_raises_count_and_sets_current_bid Example.db Example.t0 2 1
                Example.vase Example.bob_p
                {| CreateBidForm.bid_amount := Some Example.one_cent |} 1)
      as (db' & Hrun & Hcount & Hcurrent & _); [done..|].
    exists db'. done.
  - destruct (page_bid_raises_count_and_sets_current_bid Example.dime_db Example.t0 1 7
                Example.dime Example.alice_p
                {| CreateBidForm.bid_amount := Some Example.minus_five |} (-500))
      as (db' & Hrun & Hcount & Hcurrent & _); [done..|].
    exists db'. done.
Defined.

(** ** Create pages whose target does not exist, and accounts without a
    Profile *)

(** X6. The create pages for a bid, a comment and a review look their
    target up without a guard: for a target that does not exist, GET, POST
    and PUT of a signed-in account end in an uncaught [DoesNotExist] with
    the store unchanged, whatever the form holds. When the target exists,
    the form is valid and the account has no Profile, the POST is answered
    with a redirect to profile creation and nothing is stored; the same
    holds for creating an Item. *)
Theorem create_pages_crash_on_missing_target (db : Store) (now : Z) (user : nat) :
  (∀ method item_id form, method ≠ PATCH → method ≠ DELETE →
     Item_by_pk db item_id = None →
     CreateBidView.dispatch db now (Some user) method item_id form
     = (server_error "DoesNotExist", db)) ∧
  (∀ method item_id form pk, method ≠ PATCH → method ≠ DELETE →
     Item_by_pk db item_id = None →
     CreateCommentView.dispatch db now (Some user) method item_id form pk
     = (server_error "DoesNotExist", db)) ∧
  (∀ method profile_id form, method ≠ PATCH → method ≠ DELETE →
     Profile_by_pk db profile_id = None →
     CreateReviewView.dispatch db now (Some user) method profile_id form
     = (server_error "DoesNotExist", db)) ∧
  (MyLoginRequiredMixin.get_logged_in_profile db user = Ok None →
   (∀ item_id form, is_Some (Item_by_pk db item_id) →
      is_Some (CreateBidForm.cleaned form) →
      CreateBidView.dispatch db now (Some user) POST item_id form
      = (mkResponse HTTP_302_FOUND (Redirect "create_profile"), db)) ∧
   (∀ item_id form pk, is_Some (Item_by_pk db item_id) →
      CreateCommentView.dispatch db now (Some user) POST item_id form pk
      = (mkResponse HTTP_302_FOUND (Redirect "create_profile"), db)) ∧
   (∀ profile_id form, is_Some (Profile_by_pk db profile_id) →
      is_Some (CreateReviewForm.cleaned form) →
      CreateReviewView.dispatch db now (Some user) POST profile_id form
      = (mkResponse HTTP_302_FOUND (Redirect "create_profile"), db)) ∧
   (∀ form pk, is_Some (CreateItemForm.cleaned form) →
      CreateItemView.dispatch db now (Some user) POST form pk
      = (mkResponse HTTP_302_FOUND (Redirect "create_profile"), db))).
Proof.
  split; [|split; [|split]].
  - intros [] item_id form ?? Hnone; try done;
      unfold CreateBidView.dispatch; by rewrite Hnone.
  - intros [] item_id form pk ?? Hnone; try done;
      unfold CreateCommentView.dispatch; by rewrite Hnone.
  - intros [] profile_id form ?? Hnone; try done;
      unfold CreateReviewView.dispatch; by rewrite Hnone.
  - intros Hnoprofile. split; [|split; [|split]].
    + intros item_id form [item Hitem] [amount Hclean].
      unfold CreateBidView.dispatch. by rewrite Hitem, Hclean, Hnoprofile.
    + intros item_id form pk [item Hitem].
      unfold CreateCommentView.dispatch. by rewrite Hitem, Hnoprofile.
    + intros profile_id form [p Hp] [rating Hclean].
      unfold CreateReviewView.dispatch. by rewrite Hp, Hclean, Hnoprofile.
    + intros form pk [c Hclean].
      unfold CreateItemView.dispatch. by rewrite Hclean, Hnoprofile.
Qed.

(** ** Reviews through the page *)

Lemma review_form_cleaned_as_choice (form : CreateReviewForm.data) (raw : string) :
  CreateReviewForm.numerical_rating form = Some raw →
  CreateReviewForm.cleaned form
  = ReviewSerializer.numerical_rating_to_internal_value (JString raw).
Proof. unfold CreateReviewForm.cleaned. by intros ->. Qed.



(** ** What the precision checks let through *)

Lemma coefficient_below_power (a : Decimal.t) :
  Decimal.well_formed a →
  0 ≤ Decimal.coefficient a < 10 ^ Z.of_nat (length (Decimal.digits a)).
Proof. intros (_ & Hall & _). by apply foldl_digits_bounds. Qed.

Lemma hundredths_below_power (a : Decimal.t) (k : Z) :
  Decimal.well_formed a →
  -2 ≤ Decimal.exponent a →
  Z.of_nat (length (Decimal.digits a)) + Decimal.exponent a + 2 ≤ k →
  Z.abs (Decimal.to_hundredths a) < 10 ^ k.
Proof.
  intros Hwf Hexp Hlen. pose proof (coefficient_below_power a Hwf) as Hc.
  unfold Decimal.to_hundredths.
  set (len := Z.of_nat (length (Decimal.digits a))) in *.
  assert (0 < 10 ^ (Decimal.exponent a + 2)) as Hpos by (apply Z.pow_pos_nonneg; lia).
  assert (10 ^ len * 10 ^ (Decimal.exponent a + 2) ≤ 10 ^ k) as Hle.
  { rewrite <- Z.pow_add_r by lia. apply Z.pow_le_mono_r; lia. }
  destruct (Decimal.sign a); nia.
Qed.

Lemma precision_checks_bound (a : Decimal.t) :
  Decimal.well_formed a →
  DecimalValidator 10 2 a = true ∨ validate_precision 10 2 a = true →
  -2 ≤ Decimal.exponent a ∧ Z.abs (Decimal.to_hundredths a) < 10 ^ 10.
Proof.
  intros Hwf Hpass.
  assert (1 ≤ Z.of_nat (length (Decimal.digits a))) as Hlen1.
  { destruct Hwf as (Hne & _). destruct (Decimal.digits a); [done|simpl; lia]. }
  destruct (decide (Decimal.digits a = [0] ∧ 0 ≤ Decimal.exponent a)) as [[Hzero Hexp] | Hnz].
  { split; [lia|]. unfold Decimal.to_hundredths, Decimal.coefficient. rewrite Hzero.
    simpl. rewrite Z.mul_0_r. simpl. lia. }
  assert (-2 ≤ Decimal.exponent a ∧
          (Z.of_nat (length (Decimal.digits a)) + Decimal.exponent a + 2 ≤ 10
           ∨ Decimal.digits a = [0])) as [Hexp Hlen].
  { destruct Hpass as [Hpass | Hpass]; revert Hpass;
      unfold DecimalValidator, validate_precision;
      repeat case_decide; simpl;
      rewrite ?andb_true_iff, ?bool_decide_eq_true; try lia.
    all: intros; split; [lia|].
    all: try (left; lia).
    all: destruct (decide (Decimal.digits a = [0])) as [Hz | Hz]; [by right|left].
    all: first [lia | done]. }
  split; [done|]. destruct Hlen as [Hlen | Hzero].
  - by apply hundredths_below_power.
  - apply hundredths_below_power; [done..|]. rewrite Hzero. simpl.
    destruct (decide (0 ≤ Decimal.exponent a)); [tauto|lia].
Qed.

(** X8. The bid form and the bid serializer refuse every amount written
    with more than two decimal places, and an amount they accept is stored
    exactly and has fewer than 10^10 hundredths: no Bid that the form or
    the serializer lets through overflows the column or is rounded. *)
Theorem accepted_bid_amounts_fit_the_column (db : Store) (a : Decimal.t) :
  Decimal.well_formed a →
  (Decimal.exponent a < -2 →
   CreateBidForm.cleaned {| CreateBidForm.bid_amount := Some a |} = None ∧
   ∀ item_id bidder_id,
     BidSerializer.is_valid db (BidSerializer.mkPayload item_id bidder_id (Some a))
     = false) ∧
  (∀ h, CreateBidForm.cleaned {| CreateBidForm.bid_amount := Some a |} = Some h →
        h = Decimal.to_hundredths a ∧ -2 ≤ Decimal.exponent a ∧ Z.abs h < 10 ^ 10) ∧
  (∀ item_id bidder_id,
     BidSerializer.is_valid db (BidSerializer.mkPayload item_id bidder_id (Some a)) = true →
     -2 ≤ Decimal.exponent a ∧ Z.abs (Decimal.to_hundredths a) < 10 ^ 10).
Proof.
  intros Hwf. split; [|split].
  - intros Hexp.
    assert (DecimalValidator 10 2 a = false ∧ validate_precision 10 2 a = false)
      as [Hform Hapi].
    { unfold DecimalValidator, validate_precision.
      repeat case_decide; simpl;
        rewrite ?andb_false_iff, ?bool_decide_eq_false; split; lia. }
    split; [unfold CreateBidForm.cleaned; simpl; by rewrite Hform|].
    intros item_id bidder_id. unfold BidSerializer.is_valid, BidSerializer.errors.
    simpl. rewrite Hapi. apply bool_decide_eq_false. intros Hnil.
    apply app_nil in Hnil as [_ Hnil]. by apply app_nil in Hnil as [_ ?].
  - intros h. unfold CreateBidForm.cleaned. simpl.
    destruct (DecimalValidator 10 2 a) eqn:Hform; [|done]. intros [= <-].
    split; [done|]. apply precision_checks_bound; [done|by left].
  - intros item_id bidder_id. unfold BidSerializer.is_valid, BidSerializer.errors. simpl.
    intros Hvalid%bool_decide_eq_true.
    apply app_nil in Hvalid as [_ Hvalid]. apply app_nil in Hvalid as [_ Hvalid].
    destruct (validate_precision 10 2 a) eqn:Hapi; [|done].
    apply precision_checks_bound; [done|by right].
Qed.

(** 0.001 has three decimal places: refused; 0.01 is taken as one
    hundredth. *)
Lemma accepted_bid_amounts_fit_the_column_witness :
  CreateBidForm.cleaned
    {| CreateBidForm.bid_amount := Some (Decimal.mk false [1] (-3)) |} = None ∧
  (∀ h, CreateBidForm.cleaned {| CreateBidForm.bid_amount := Some Example.one_cent |}
        = Some h → h = 1 ∧ Z.abs h < 10 ^ 10).
Proof.
  split.
  - apply (accepted_bid_amounts_fit_the_column Example.db (Decimal.mk false [1] (-3))).
    + split; [done|]. split; [repeat constructor; lia|]. by intros x rest [= <- <-].
    + simpl. lia.
  - intros h Hh.
    destruct (accepted_bid_amounts_fit_the_column Example.db Example.one_cent)
      as (_ & Hform & _).
    + split; [done|]. split; [repeat constructor; lia|]. by intros x rest [= <- <-].
    + destruct (Hform h Hh) as (-> & _ & Hbound). done.
Defined.

(** ** What a login writes *)

Lemma authenticate_needs_account `{AuthLibrary} (db : Store) (username password : string)
    (user : User.t) :
  authenticate db username password = Ok (Some user) →
  user ∈ User_objects db ∧ User.username user = username ∧
  check_password password (User.password user) = true ∧ User.is_active user = true.
Proof.
  intros Hauth. split; [by eapply authenticate_elem_of|].
  unfold authenticate in Hauth.
  destruct (get _) as [u| |] eqn:Hget; [|done..].
  apply get_Got in Hget.
  destruct (check_password _ _ && _) eqn:Hcheck; [|done].
  injection Hauth as ->. apply andb_true_iff in Hcheck as [? ?].
  assert (user ∈ filter (λ u, User.username u = username) (User_objects db)) as Hin
    by (rewrite Hget; left).
  by apply list_elem_of_filter in Hin as [? _].
Qed.


(** X10. The token is written before the Profile is looked up, and only
    [Profile.DoesNotExist] is caught: for an account without a token that
    has two or more Profiles, a login with accepted credentials ends in an
    uncaught [MultipleObjectsReturned], and the new token is stored all the
    same. *)
Theorem login_crash_after_token_is_stored `{AuthLibrary} (db : Store)
    (data : gmap string string) (key username password : string) (user : User.t) :
  data !! "username" = Some username → username ≠ "" →
  data !! "password" = Some password → password ≠ "" →
  authenticate db username password = Ok (Some user) →
  (∀ t, t ∈ Token_objects db → Token.user t ≠ User.pk user) →
  (2 ≤ length (filter (λ p, Profile.user p = User.pk user) (Profile_objects db)))%nat →
  LoginAPIView.post db data key
  = (server_error "MultipleObjectsReturned",
     set_tokens db
       (Token_objects db ++ [ {| Token.key := key; Token.user := User.pk user |} ])).
Proof.
  intros Hu Hune Hp Hpne Hauth Hnone Htwo.
  unfold LoginAPIView.post. rewrite Hu, Hp. simpl.
  rewrite !bool_decide_eq_true_2 by done. simpl. rewrite Hauth.
  unfold Token_get_or_create.
  assert (filter (λ t, Token.user t = User.pk user) (Token_objects db) = []) as ->.
  { apply elem_of_nil_inv. intros t [Hsame Ht]%list_elem_of_filter. by apply (Hnone t). }
  simpl. unfold Profile_get_by_user. simpl.
  by destruct (filter _ (Profile_objects db)) as [|p [|p' rest]]; simpl in *; try lia.
Qed.

Lemma login_crash_after_token_is_stored_witness :
  let second :=
    {| Profile.pk := 3; Profile.username := "alice_again"; Profile.last_name := "";
       Profile.first_name := ""; Profile.bio_text := ""; Profile.join_date := Example.t0;
       Profile.user := 1 |} in
  let db := set_profiles Example.db (Profile_objects Example.db ++ [second]) 4 in
  @LoginAPIView.post Example.plain_auth db
    {[ "username" := "alice"; "password" := "pw123" ]} "k1"
  = (server_error "MultipleObjectsReturned",
     set_tokens db [ {| Token.key := "k1"; Token.user := 1 |} ]).
Proof.
  apply (@login_crash_after_token_is_stored Example.plain_auth) with
    (username := "alice") (password := "pw123") (user := Example.alice); try done.
  intros t Ht. by apply elem_of_nil in Ht.
Defined.

(** ** Registering, then logging in *)

Lemma filter_below_seq {A : Type} (f : A → nat) (l : list A) (seq : nat) :
  Forall (λ x, (f x < seq)%nat) l → filter (λ x, f x = seq) l = [].
Proof.
  rewrite Forall_forall. intros Hall. apply elem_of_nil_inv.
  intros x [Hx Hin]%list_elem_of_filter. specialize (Hall x Hin). simpl in *. lia.
Qed.

(** X11. With a hasher whose [check_password] accepts what [make_password]
    made, in a store that satisfies the integrity conditions, a register
    request that is not refused, whose username is in normal form and whose
    optional fields are not [null], is answered 201, and a login that
    follows with the same username and password is answered 200 with the
    very token, account and Profile of the registration, and writes
    nothing. *)
Theorem register_then_login_returns_the_registration_token `{AuthLibrary}
    (db : Store) (now : Z) (data : gmap string (option string))
    (data2 : gmap string string) (key key2 : string) :
  (∀ raw, check_password raw (make_password raw) = true) →
  well_formed db →
  ¬ register_refused db data →
  register_plain data →
  data2 !! "username" = mjoin (data !! "username") →
  data2 !! "password" = mjoin (data !! "password") →
  ∃ body db',
    RegisterAPIView.post db now data key = (mkResponse HTTP_201_CREATED body, db') ∧
    (∃ user profile, body = AuthBody key user (Some profile)) ∧
    LoginAPIView.post db' data2 key2 = (mkResponse HTTP_200_OK body, db').
Proof.
  intros Hhash (Hnames & Htok & Hprof & Hupk & Htpk & Hppk)
    (username & Hname & Hne & Hemail & Hpassword & Hfree)%not_register_refused
    (Hnormal & Hfirst & Hlast & Hshown & Hbio) Hsameu Hsamep.
  destruct (truthy_Some _ Hpassword) as (password & Hpw & Hpwne).
  assert (filter (λ u, User.username u = username) (User_objects db) = []) as Hfresh.
  { apply elem_of_nil_inv. intros u [Hu Hin]%list_elem_of_filter. by apply (Hfree u). }
  rewrite (register_run db now data key username) by done.
  unfold create_user, Profile_create. rewrite (Hnormal username Hname).
  rewrite (proj2 (exists_filter_false _ _)) by (intros u Hu; by apply Hfree).
  destruct (data !! "first_name") as [[first|]|]; [|done|];
  destruct (data !! "last_name") as [[last|]|]; try done;
  destruct (data !! "profile_username") as [[shown|]|]; try done;
  destruct (data !! "bio_text") as [[bio|]|]; try done; simpl;
  (eexists _, _; split; [reflexivity|]; split; [by eexists _, _|];
   unfold LoginAPIView.post; rewrite Hsameu, Hsamep, Hname, Hpw; simpl;
   rewrite !bool_decide_eq_true_2 by done; simpl;
   unfold authenticate; simpl;
   rewrite filter_app, Hfresh; rewrite filter_cons_True by done; simpl;
   rewrite Hhash; simpl; unfold Token_get_or_create; simpl;
   rewrite filter_app, (filter_below_seq Token.user _ _ Htpk);
   rewrite filter_cons_True by done; simpl;
   unfold Profile_get_by_user; simpl;
   rewrite filter_app, (filter_below_seq Profile.user _ _ Hppk);
   rewrite filter_cons_True by done; simpl; done).
Qed.

Lemma register_then_login_returns_the_registration_token_witness :
  let data : gmap string (option string) :=
    {[ "username" := Some "carol"; "email" := Some "c@example.org";
       "password" := Some "x" ]} in
  let credentials : gmap string string :=
    {[ "username" := "carol"; "password" := "x" ]} in
  ∃ body db',
    @RegisterAPIView.post Example.plain_auth Example.db Example.t0 data "k1"
    = (mkResponse HTTP_201_CREATED body, db') ∧
    (∃ user profile, body = AuthBody "k1" user (Some profile)) ∧
    @LoginAPIView.post Example.plain_auth db' credentials "k2"
    = (mkResponse HTTP_200_OK body, db').
Proof.
  apply (@register_then_login_returns_the_registration_token Example.plain_auth);
    try done.
  - intros raw. simpl. by apply bool_decide_eq_true.
  - exact well_formed_example.
  - intros [Hf | [Hf | [Hf | (u & Hin & Hname)]]]; try discriminate Hf.
    vm_compute in Hname.
    apply elem_of_cons in Hin as [-> | Hin]; [discriminate|].
    apply list_elem_of_singleton in Hin as ->. discriminate.
  - split; [|done]. by intros username [= <-].
Defined.

(** X12. The three integrity conditions of the authentication tables
    (usernames unique, at most one token and at most one Profile per
    account, with every key below the sequence) survive any sequence of
    logins and registrations; so after any such sequence the acting Profile
    of an account is still looked up without an exception. *)
Theorem auth_endpoints_keep_integrity `{AuthLibrary} (db : Store)
    (requests : list AuthRequest) :
  well_formed db →
  well_formed (serve_all db requests) ∧
  ∀ user e,
    MyLoginRequiredMixin.get_logged_in_profile (serve_all db requests) user ≠ Raise e.
Proof.
  intros Hwf. pose proof (well_formed_serve_all requests db Hwf) as Hafter.
  split; [done|]. intros user e.
  destruct Hafter as (_ & _ & Hprof & _).
  unfold MyLoginRequiredMixin.get_logged_in_profile, Profile_get_by_user.
  pose proof (get_by_unique_column Profile.user
                (Profile_objects (serve_all db requests)) user Hprof) as Hone.
  by destruct (get _).
Qed.

Lemma auth_endpoints_keep_integrity_witness :
  well_formed
    (@serve_all Example.plain_auth Example.db
       [ RegisterRequest Example.t0
           {[ "username" := Some "carol"; "email" := Some "c@example.org";
              "password" := Some "x" ]} "k1";
         LoginRequest {[ "username" := "alice"; "password" := "pw123" ]} "k2";
         RegisterRequest Example.t0
           {[ "username" := Some "carol"; "email" := Some "c@example.org";
              "password" := Some "y" ]} "k3" ]).
Proof.
  apply (@auth_endpoints_keep_integrity Example.plain_auth). exact well_formed_example.
Defined.

(** ** The current user *)

Lemma get_the_row_of_a_key {A B : Type} `{EqDecision B} (f : A → B) (l : list A) (x : A) :
  NoDup (f <$> l) → x ∈ l → filter (λ y, f y = f x) l = [x].
Proof.
  induction l as [|a l IH]; intros Hnodup Hin; [by apply elem_of_nil in Hin|].
  rewrite fmap_cons, NoDup_cons in Hnodup. destruct Hnodup as [Hnotin Hnodup].
  apply elem_of_cons in Hin as [-> | Hin].
  - rewrite filter_cons_True by done. f_equal.
    apply elem_of_nil_inv. intros y [Hy Hiny]%list_elem_of_filter.
    apply Hnotin. rewrite <- Hy. by apply list_elem_of_fmap_2.
  - rewrite filter_cons_False; [by apply IH|].
    intros Hsame. apply Hnotin. rewrite Hsame. by apply list_elem_of_fmap_2.
Qed.

Lemma User_by_pk_unique (db : Store) (user : User.t) :
  NoDup (User.pk <$> User_objects db) → user ∈ User_objects db →
  User_by_pk db (User.pk user) = Some user.
Proof.
  intros Hnodup Hin. unfold User_by_pk.
  destruct (list_find (λ u, User.pk u = User.pk user) (User_objects db))
    as [[i found]|] eqn:Hfind.
  - apply list_find_Some in Hfind as (Hi & Hpk & _). simpl. f_equal.
    apply list_elem_of_lookup_2 in Hi.
    pose proof (get_the_row_of_a_key User.pk _ user Hnodup Hin) as Hone.
    assert (found ∈ filter (λ y, User.pk y = User.pk user) (User_objects db)) as Hfound
      by by apply list_elem_of_filter.
    rewrite Hone in Hfound. by apply list_elem_of_singleton in Hfound.
  - apply list_find_None in Hfind. rewrite Forall_forall in Hfind.
    by destruct (Hfind user Hin).
Qed.

(** X13. After a login answered 200, a request for the current user that
    carries the token of the answer, against the store the login left, is
    answered 200 with the same account and the same Profile (or null) as
    the login, in a store where token keys and account keys are primary
    keys (no two tokens share a key, no two accounts a primary key). *)
Theorem current_user_agrees_with_login `{AuthLibrary} (db db' : Store)
    (data : gmap string string) (key token : string) (u : UserSerializer.data)
    (p : option ProfileSerializer.data) :
  LoginAPIView.post db data key = (mkResponse HTTP_200_OK (AuthBody token u p), db') →
  NoDup (Token.key <$> Token_objects db') →
  NoDup (User.pk <$> User_objects db') →
  CurrentUserAPIView.get db' (Some token) = Data HTTP_200_OK (u, p).
Proof.
  intros Hlogin Hkeys Hpks.
  destruct (login_success_inv _ _ _ _ _ _ _ Hlogin) as (extra & _ & Hmine).
  revert Hlogin. unfold LoginAPIView.post.
  destruct (truthy (data !! "username")) eqn:Hu; [|done].
  destruct (truthy (data !! "password")) eqn:Hp; [|done]. simpl.
  destruct (authenticate db _ _) as [[user|]|] eqn:Hauth; [|done..].
  apply authenticate_needs_account in Hauth as (Hin & Huser & _ & Hactive).
  assert (∀ profile,
            (∃ db0 tok, Token_get_or_create db (User.pk user) key = Ok (tok, db0) ∧
                        db0 = db' ∧ Token.key tok = token ∧
                        u = UserSerializer.to_representation user ∧
                        match Profile_get_by_user db' (User.pk user) with
                        | Got found =>
                            profile = Some (ProfileSerializer.to_representation db' found)
                        | DoesNotExist => profile = None
                        | MultipleObjectsReturned => False
                        end) →
            profile = p →
            CurrentUserAPIView.get db' (Some token) = Data HTTP_200_OK (u, p)) as Hget.
  { intros profile (db0 & tok & Hcreate & -> & Htoken & -> & Hprofile) <-.
    simpl in Hmine.
    assert (User_objects db' = User_objects db) as Husers.
    { unfold Token_get_or_create in Hcreate.
      destruct (get _); simplify_eq; done. }
    assert ({| Token.key := token; Token.user := User.pk user |} ∈ Token_objects db')
      as Hstored.
    { assert ({| Token.key := token; Token.user := User.pk user |}
              ∈ filter (λ t, Token.user t = User.pk user) (Token_objects db'))
        as [_ ?]%list_elem_of_filter by (rewrite Hmine; left).
      done. }
    unfold CurrentUserAPIView.get, TokenAuthentication.authenticate.
    rewrite (get_the_row_of_a_key Token.key _
               {| Token.key := token; Token.user := User.pk user |} Hkeys Hstored).
    simpl. rewrite (User_by_pk_unique db' user Hpks) by (by rewrite Husers).
    rewrite Hactive. by destruct (Profile_get_by_user db' (User.pk user)); subst. }
  destruct (Token_get_or_create db (User.pk user) key) as [[tok db0]|] eqn:Hcreate; [|done].
  destruct (Profile_get_by_user db0 (User.pk user)) as [found| |] eqn:Hprofile;
    [| |done]; intros [= <- <- <- <-].
  - apply (Hget (Some (ProfileSerializer.to_representation db0 found))); [|done].
    exists db0, tok. by rewrite Hprofile.
  - apply (Hget None); [|done]. exists db0, tok. by rewrite Hprofile.
Qed.

Lemma current_user_agrees_with_login_witness :
  let data : gmap string string := {[ "username" := "bob"; "password" := "hunter2" ]} in
  ∃ token u p db',
    @LoginAPIView.post Example.plain_auth Example.db data "k1"
    = (mkResponse HTTP_200_OK (AuthBody token u p), db') ∧
    CurrentUserAPIView.get db' (Some token) = Data HTTP_200_OK (u, p).
Proof.
  intros data. eexists _, _, _, _. split; [vm_compute; reflexivity|].
  eapply (@current_user_agrees_with_login Example.plain_auth Example.db _ data "k1").
  - vm_compute. reflexivity.
  - compute_done.
  - compute_done.
Defined.

(** ** Filtered and ordered listings *)

#[global] Instance Bid_by_timestamp_desc_trans : Transitive Bid.by_timestamp_desc.
Proof. unfold Bid.by_timestamp_desc. intros a b c ??. lia. Qed.

#[global] Instance Bid_by_timestamp_desc_total : Total Bid.by_timestamp_desc.
Proof. unfold Bid.by_timestamp_desc. intros a b. lia. Qed.

#[global] Instance Review_by_timestamp_desc_trans : Transitive Review_by_timestamp_desc.
Proof. unfold Review_by_timestamp_desc. intros a b c ??. lia. Qed.

#[global] Instance Review_by_timestamp_desc_total : Total Review_by_timestamp_desc.
Proof. unfold Review_by_timestamp_desc. intros a b. lia. Qed.

#[global] Instance Comment_by_timestamp_desc_trans : Transitive Comment_by_timestamp_desc.
Proof. unfold Comment_by_timestamp_desc. intros a b c ??. lia. Qed.

#[global] Instance Comment_by_timestamp_desc_total : Total Comment_by_timestamp_desc.
Proof. unfold Comment_by_timestamp_desc. intros a b. lia. Qed.

#[global] Instance by_listed_at_desc_trans : Transitive Item.by_listed_at_desc.
Proof. unfold Item.by_listed_at_desc. intros a b c ??. lia. Qed.

#[global] Instance by_listed_at_desc_total : Total Item.by_listed_at_desc.
Proof. unfold Item.by_listed_at_desc. intros a b. lia. Qed.

Section filter_order_by.
Context {A : Type} (R : relation A) `{!RelDecision R, !Transitive R, !Total R}.
Context (P : A → Prop) `{!∀ x, Decision (P x)}.

(** [filter(...).order_by(...)]: the matching rows, each as often as it is
    stored, in the order asked for. *)
Lemma filter_order_by_spec (l : list A) :
  merge_sort R (filter P l) ≡ₚ filter P l ∧
  (∀ x, x ∈ merge_sort R (filter P l) ↔ x ∈ l ∧ P x) ∧
  StronglySorted R (merge_sort R (filter P l)) ∧
  length (merge_sort R (filter P l)) = length (filter P l).
Proof.
  split; [apply merge_sort_Permutation|]. split; [|split].
  - intros x. rewrite merge_sort_Permutation, list_elem_of_filter. tauto.
  - by apply StronglySorted_merge_sort.
  - by rewrite merge_sort_Permutation.
Qed.
End filter_order_by.

Lemma Item_by_pk_None (db : Store) (pk : nat) :
  Item_by_pk db pk = None ↔ ∀ i, i ∈ Item_objects db → Item.pk i ≠ pk.
Proof. unfold Item_by_pk. by rewrite fmap_None, list_find_None, Forall_forall. Qed.

Lemma Item_by_pk_Some (db : Store) (pk : nat) (item : Item.t) :
  Item_by_pk db pk = Some item → item ∈ Item_objects db ∧ Item.pk item = pk.
Proof.
  unfold Item_by_pk. intros [[n i] [Hfind ->]]%fmap_Some.
  apply list_find_Some in Hfind as (Hn & Hpk & _).
  split; [by eapply list_elem_of_lookup_2|done].
Qed.

Lemma Profile_by_pk_None (db : Store) (pk : nat) :
  Profile_by_pk db pk = None ↔ ∀ p, p ∈ Profile_objects db → Profile.pk p ≠ pk.
Proof. unfold Profile_by_pk. by rewrite fmap_None, list_find_None, Forall_forall. Qed.

Lemma Profile_by_pk_Some (db : Store) (pk : nat) (profile : Profile.t) :
  Profile_by_pk db pk = Some profile →
  profile ∈ Profile_objects db ∧ Profile.pk profile = pk.
Proof.
  unfold Profile_by_pk. intros [[n i] [Hfind ->]]%fmap_Some.
  apply list_find_Some in Hfind as (Hn & Hpk & _).
  split; [by eapply list_elem_of_lookup_2|done].
Qed.

(** X14. The bids-of-an-item endpoint answers 404 with
    [{'error': 'Item not found'}] exactly when no Item has that primary
    key. Otherwise it answers 200 with the representations of exactly the
    Bids placed on that Item, most recent first, and as many of them as the
    Item's [num_bids] says. *)
Theorem item_bids_endpoint_lists_the_bids_newest_first (db : Store) (later : Z)
    (user : option nat) (item_id : nat) :
  (ItemBidsAPIView.get db later user item_id
   = ErrorObject HTTP_404_NOT_FOUND "Item not found"
   ↔ ∀ i, i ∈ Item_objects db → Item.pk i ≠ item_id) ∧
  (∀ item, Item_by_pk db item_id = Some item →
     ∃ rows,
       ItemBidsAPIView.get db later user item_id
       = Data HTTP_200_OK (BidSerializer.to_representation db later <$> rows) ∧
       (∀ b, b ∈ rows ↔ b ∈ Bid_objects db ∧ Bid.item b = item_id) ∧
       rows ≡ₚ filter (λ b, Bid.item b = item_id) (Bid_objects db) ∧
       StronglySorted (λ a b, Bid.timestamp b ≤ Bid.timestamp a) rows ∧
       length rows = Item.get_num_bids (Bid_objects db) item).
Proof.
  unfold ItemBidsAPIView.get. simpl. split.
  - rewrite <- Item_by_pk_None. by destruct (Item_by_pk db item_id).
  - intros item Hitem. rewrite Hitem.
    apply Item_by_pk_Some in Hitem as [_ Hpk].
    exists (ItemBidsAPIView.bids db item). split; [done|].
    unfold ItemBidsAPIView.bids, Item.get_num_bids, Item.bids_of. rewrite Hpk.
    destruct (filter_order_by_spec Bid.by_timestamp_desc
                (λ b, Bid.item b = item_id) (Bid_objects db)) as (Hperm & Hin & Hsorted & Hlen).
    split; [intros b; rewrite Hin; tauto|]. done.
Qed.

(** X15. The items-of-a-profile endpoint answers 404 with
    [{'error': 'Profile not found'}] exactly when no Profile has that
    primary key, and otherwise 200 with the representations of exactly the
    Items that Profile owns, most recently listed first. *)
Theorem profile_items_endpoint_lists_owned_items_newest_first (db : Store) (later : Z)
    (user : option nat) (profile_id : nat) :
  (ProfileItemsAPIView.get db later user profile_id
   = ErrorObject HTTP_404_NOT_FOUND "Profile not found"
   ↔ ∀ p, p ∈ Profile_objects db → Profile.pk p ≠ profile_id) ∧
  (∀ profile, Profile_by_pk db profile_id = Some profile →
     ∃ rows,
       ProfileItemsAPIView.get db later user profile_id
       = Data HTTP_200_OK (ItemSerializer.to_representation db later <$> rows) ∧
       (∀ i, i ∈ rows ↔ i ∈ Item_objects db ∧ Item.owner i = profile_id) ∧
       rows ≡ₚ filter (λ i, Item.owner i = profile_id) (Item_objects db) ∧
       StronglySorted (λ a b, Item.listed_at b ≤ Item.listed_at a) rows).
Proof.
  unfold ProfileItemsAPIView.get. simpl. split.
  - rewrite <- Profile_by_pk_None. by destruct (Profile_by_pk db profile_id).
  - intros profile Hprofile. rewrite Hprofile.
    apply Profile_by_pk_Some in Hprofile as [_ Hpk].
    exists (ProfileItemsAPIView.items db profile). split; [done|].
    unfold ProfileItemsAPIView.items. rewrite Hpk.
    destruct (filter_order_by_spec Item.by_listed_at_desc
                (λ i, Item.owner i = profile_id) (Item_objects db))
      as (Hperm & Hin & Hsorted & _).
    split; [intros i; rewrite Hin; tauto|]. done.
Qed.

(** X16. The reviews-of-a-profile endpoint answers 404 with
    [{'error': 'Profile not found'}] exactly when no Profile has that
    primary key, and otherwise 200 with the representations of exactly the
    Reviews that Profile has received, most recent first; that list is
    empty exactly when the Profile's average rating is null. *)
Theorem profile_reviews_endpoint_lists_received_reviews (db : Store)
    (user : option nat) (profile_id : nat) :
  (ProfileReviewsAPIView.get db user profile_id
   = ErrorObject HTTP_404_NOT_FOUND "Profile not found"
   ↔ ∀ p, p ∈ Profile_objects db → Profile.pk p ≠ profile_id) ∧
  (∀ profile, Profile_by_pk db profile_id = Some profile →
     ∃ rows,
       ProfileReviewsAPIView.get db user profile_id
       = Data HTTP_200_OK (ReviewSerializer.to_representation db <$> rows) ∧
       (∀ r, r ∈ rows ↔ r ∈ Review_objects db ∧ Review.reviewed_profile r = profile_id) ∧
       StronglySorted (λ a b, Review.timestamp b ≤ Review.timestamp a) rows ∧
       (rows = [] ↔
        Profile.get_average_rating (Review_objects db) profile
        = PyDict [("numerical_rating__avg", PyNone)])).
Proof.
  unfold ProfileReviewsAPIView.get. simpl. split.
  - rewrite <- Profile_by_pk_None. by destruct (Profile_by_pk db profile_id).
  - intros profile Hprofile. rewrite Hprofile.
    apply Profile_by_pk_Some in Hprofile as [_ Hpk].
    exists (ProfileReviewsAPIView.reviews db profile). split; [done|].
    unfold ProfileReviewsAPIView.reviews, Profile.get_average_rating,
      Profile.received_reviews. rewrite Hpk.
    destruct (filter_order_by_spec Review_by_timestamp_desc
                (λ r, Review.reviewed_profile r = profile_id) (Review_objects db))
      as (Hperm & Hin & Hsorted & Hlen).
    split; [intros r; rewrite Hin; tauto|]. split; [done|].
    destruct (filter (λ r, Review.reviewed_profile r = profile_id) (Review_objects db))
      as [|r rest] eqn:Hf.
    + done.
    + split; [|done]. intros Hnil. rewrite Hnil in Hlen. done.
Qed.

(** ** Featured items and the home page *)

(** X17. The featured endpoint answers 200 with the representations of
    exactly the Items whose end lies strictly after the current time, most
    recently listed first. Every Item the ending-soon endpoint selects at
    that time is among them, and none of them reads ["Ended"] at that
    time. *)
Theorem featured_lists_open_items_newest_first (db : Store) (now later : Z)
    (user : option nat) :
  ∃ rows,
    FeaturedItemsAPIView.get db now later user
    = mkResponse HTTP_200_OK
        (ItemList (ItemSerializer.to_representation db later <$> rows)) ∧
    (∀ i, i ∈ rows ↔ i ∈ Item_objects db ∧ now < Item.end_time i) ∧
    rows ≡ₚ filter (λ i, now < Item.end_time i) (Item_objects db) ∧
    StronglySorted (λ a b, Item.listed_at b ≤ Item.listed_at a) rows ∧
    (∀ i, i ∈ EndingSoonItemsAPIView.items db now → i ∈ rows) ∧
    (∀ i, i ∈ rows → ItemSerializer.get_time_left now i ≠ "Ended").
Proof.
  exists (FeaturedItemsAPIView.items db now). split; [done|].
  unfold FeaturedItemsAPIView.items.
  destruct (filter_order_by_spec Item.by_listed_at_desc
              (λ i, now < Item.end_time i) (Item_objects db))
    as (Hperm & Hin & Hsorted & _).
  split; [intros i; rewrite Hin; tauto|]. split; [done|]. split; [done|]. split.
  - intros i Hi. apply Hin.
    apply (proj1 (proj1 (proj2 (ending_soon_items_spec db now)) i)) in Hi
      as [? [? _]]. done.
  - intros i [_ Hopen]%Hin.
    destruct (time_left_not_past now i) as (_ & _ & _ & Hne); [lia|done].
Qed.

(** X18. The home page shows at most ten Items, all of them open, most
    recently listed first, and they are the newest listings among the open
    Items: the open Items it leaves out were each listed no later than every
    Item it shows. *)
Theorem home_shows_the_ten_newest_open_items (db : Store) (now : Z) :
  let open := filter (λ i, now < Item.end_time i) (Item_objects db) in
  let shown := HomeView.get_context_data db now in
  length shown = (length open `min` 10)%nat ∧
  (∀ i, i ∈ shown → i ∈ Item_objects db ∧ now < Item.end_time i) ∧
  StronglySorted (λ a b, Item.listed_at b ≤ Item.listed_at a) shown ∧
  shown = take 10 (FeaturedItemsAPIView.items db now) ∧
  ∃ hidden,
    shown ++ hidden ≡ₚ open ∧
    ∀ i j, i ∈ shown → j ∈ hidden → Item.listed_at j ≤ Item.listed_at i.
Proof.
  simpl. unfold HomeView.get_context_data.
  set (open := filter (λ i, now < Item.end_time i) (Item_objects db)).
  set (sorted := merge_sort Item.by_listed_at_desc open).
  destruct (filter_order_by_spec Item.by_listed_at_desc
              (λ i, now < Item.end_time i) (Item_objects db))
    as (Hperm & Hin & Hsorted & Hlen).
  fold open in Hperm, Hin, Hsorted, Hlen. fold sorted in Hperm, Hin, Hsorted, Hlen.
  rewrite <- (take_drop 10 sorted) in Hsorted.
  apply StronglySorted_app in Hsorted as (Hcross & Htake & _).
  split; [rewrite length_take, Hlen; lia|].
  split; [intros i Hi; apply Hin; by apply (subseteq_take 10 sorted)|].
  split; [exact Htake|]. split; [done|]. exists (drop 10 sorted).
  split; [by rewrite take_drop|]. intros i j Hi Hj. by apply (Hcross i j).
Qed.

(** ** Stored ratings and their average *)

Lemma validated_rating_in_range (data : ReviewSerializer.payload) (v : Z) :
  ReviewSerializer.validated_rating data = Some v → 1 ≤ v ≤ 5.
Proof.
  unfold ReviewSerializer.validated_rating.
  destruct (ReviewSerializer.in_numerical_rating data) as [j|]; [|done]. simpl.
  apply rating_choice_in_range.
Qed.

Lemma review_form_cleaned_in_range (form : CreateReviewForm.data) (v : Z) :
  CreateReviewForm.cleaned form = Some v → 1 ≤ v ≤ 5.
Proof.
  destruct (CreateReviewForm.numerical_rating form) as [raw|] eqn:Hraw.
  - rewrite (review_form_cleaned_as_choice form raw Hraw). apply rating_choice_in_range.
  - unfold CreateReviewForm.cleaned. by rewrite Hraw.
Qed.

Lemma Review_by_pk_elem_of (db : Store) (pk : nat) (r : Review.t) :
  Review_by_pk db pk = Some r → r ∈ Review_objects db.
Proof.
  unfold Review_by_pk. intros [[n i] [Hfind ->]]%fmap_Some.
  apply list_find_Some in Hfind as (Hn & _). by eapply list_elem_of_lookup_2.
Qed.

(** X19. Every handler that writes Reviews keeps the stored ratings within
    1 to 5: the API create, the API detail view (GET, PUT, PATCH, DELETE)
    and the review page, whatever the request. *)
Theorem review_handlers_keep_ratings_in_range (db : Store) (now : Z)
    (user : option nat) :
  ratings_in_range db →
  (∀ data, ratings_in_range (snd (ReviewListCreateAPIView.post db now user data))) ∧
  (∀ method pk data,
     ratings_in_range (snd (ReviewDetailAPIView.dispatch db now user method pk data))) ∧
  (∀ method profile_id form,
     ratings_in_range (snd (CreateReviewView.dispatch db now user method profile_id form))).
Proof.
  unfold ratings_in_range. intros Hrange. split; [|split].
  - intros data. unfold ReviewListCreateAPIView.post. simpl.
    destruct (ReviewSerializer.errors db false data); [|done].
    destruct (ReviewSerializer.in_reviewer_id data); [|done].
    destruct (ReviewSerializer.in_reviewed_profile_id data); [|done].
    destruct (ReviewSerializer.validated_rating data) as [v|] eqn:Hv; [|done].
    simpl. apply Forall_app. split; [done|]. apply Forall_singleton. simpl.
    by apply (validated_rating_in_range data).
  - intros method pk data. unfold ReviewDetailAPIView.dispatch. simpl.
    destruct (Review_by_pk db pk) as [instance|] eqn:Hinst; [|by destruct method].
    apply Review_by_pk_elem_of in Hinst.
    assert (1 ≤ Review.numerical_rating instance ≤ 5) as Hold
      by by rewrite Forall_forall in Hrange; apply Hrange.
    assert (∀ partial,
              Forall (λ r, 1 ≤ Review.numerical_rating r ≤ 5)
                (Review_objects
                   (snd (match ReviewSerializer.errors db partial data with
                         | [] =>
                             let instance' := ReviewSerializer.update now instance data in
                             let db' := save_review db instance' in
                             (mkResponse HTTP_200_OK
                                (ReviewBody (ReviewSerializer.to_representation db' instance')),
                              db')
                         | errs => (mkResponse HTTP_400_BAD_REQUEST (FieldErrors errs), db)
                         end)))) as Hupdate.
    { intros partial. destruct (ReviewSerializer.errors db partial data); [|done].
      simpl. rewrite Forall_fmap. eapply Forall_impl; [exact Hrange|].
      intros r Hr. simpl. case_decide; [|done]. simpl.
      destruct (ReviewSerializer.validated_rating data) as [v|] eqn:Hv; simpl; [|done].
      by apply (validated_rating_in_range data). }
    destruct method; simpl; try done; try apply Hupdate.
    rewrite Forall_forall in Hrange |- *.
    intros r [_ Hr]%list_elem_of_filter. by apply Hrange.
  - intros method profile_id form. unfold CreateReviewView.dispatch.
    destruct user as [u|]; [|done].
    destruct method; try done.
    + by destruct (Profile_by_pk db profile_id).
    + destruct (Profile_by_pk db profile_id); [|done].
      destruct (CreateReviewForm.cleaned form) as [v|] eqn:Hv; [|done].
      destruct (MyLoginRequiredMixin.get_logged_in_profile db u) as [[p|]|]; try done.
      simpl. apply Forall_app. split; [done|]. apply Forall_singleton. simpl.
      by apply (review_form_cleaned_in_range form).
    + by destruct (Profile_by_pk db profile_id).
Qed.

Lemma review_handlers_keep_ratings_in_range_witness :
  ratings_in_range
    (snd (ReviewListCreateAPIView.post Example.db Example.t0 None
            (Example.review_of_alice (JInt 5)))) ∧
  ratings_in_range
    (snd (ReviewListCreateAPIView.post Example.db Example.t0 None
            (Example.review_of_alice (JInt 6)))).
Proof.
  destruct (review_handlers_keep_ratings_in_range Example.db Example.t0 None)
    as (Hpost & _); [by constructor|].
  split; apply Hpost.
Defined.

Lemma ratings_sum_bounds (xs : list Z) :
  Forall (λ x, 1 ≤ x ≤ 5) xs →
  Z.of_nat (length xs) ≤ foldr Z.add 0 xs ≤ 5 * Z.of_nat (length xs).
Proof. induction 1 as [|x xs Hx _ IH]; simpl; lia. Qed.

(** X20. When the stored ratings lie within 1 to 5 and there are fewer
    than 2^50 Reviews, the average rating of a Profile, when it is not
    null, is a finite float that lies between 1 and 5. *)
Theorem average_rating_lies_between_1_and_5 (Review_objects : list Review.t)
    (self : Profile.t) (f : float) :
  Forall (λ r, 1 ≤ Review.numerical_rating r ≤ 5) Review_objects →
  Z.of_nat (length Review_objects) < 2 ^ 50 →
  Profile.get_average_rating Review_objects self
  = PyDict [("numerical_rating__avg", PyFloat f)] →
  ∃ mean, float_value f = Some mean ∧ (1 <= mean)%Q ∧ (mean <= 5)%Q.
Proof.
  intros Hrange Hfew. unfold Profile.get_average_rating.
  set (ratings := Review.numerical_rating <$> Profile.received_reviews Review_objects self).
  assert (Forall (λ x, 1 ≤ x ≤ 5) ratings) as Hratings.
  { unfold ratings, Profile.received_reviews. rewrite Forall_fmap.
    rewrite Forall_forall in Hrange |- *.
    intros r [_ Hr]%list_elem_of_filter. by apply Hrange. }
  pose proof (ratings_sum_bounds ratings Hratings) as Hsum.
  assert (Z.of_nat (length ratings) < 2 ^ 50) as Hcount.
  { unfold ratings, Profile.received_reviews. rewrite length_fmap.
    pose proof (length_filter (λ r, Review.reviewed_profile r = Profile.pk self)
                  Review_objects). lia. }
  destruct (decide (ratings = [])) as [-> | Hsome]; [done|].
  rewrite Avg_nonempty by done. intros [= <-].
  assert (0 < Z.of_nat (length ratings)) by (destruct ratings; [done|simpl; lia]).
  destruct (float_quotient_spec (foldr Z.add 0 ratings) (Z.of_nat (length ratings)))
    as (mean & Hvalue & Hlower & Hupper & _); [lia..|].
  exists mean. split; [done|]. split.
  - apply (Hlower 1). lia.
  - apply (Hupper 5). lia.
Qed.

Lemma average_rating_lies_between_1_and_5_witness :
  let reviews := [ Review.mk 1 2 1 "" 4 Example.t0; Review.mk 2 2 1 "" 5 Example.t0 ] in
  ∃ f mean,
    Profile.get_average_rating reviews Example.alice_p
    = PyDict [("numerical_rating__avg", PyFloat f)] ∧
    float_value f = Some mean ∧ (1 <= mean)%Q ∧ (mean <= 5)%Q.
Proof.
  intros reviews.
  destruct (average_rating_lies_between_1_and_5 reviews Example.alice_p
              (float_of_Z 9 / float_of_Z 2)) as (mean & Hvalue & Hbounds).
  - repeat constructor; simpl; lia.
  - simpl. lia.
  - reflexivity.
  - by eexists _, mean.
Defined.

(** ** Writing [owner_id] through the API *)

Lemma save_item_rows (db : Store) (saved : Item.t) :
  (∀ i, i ∈ Item_objects (save_item db saved) → Item.pk i = Item.pk saved → i = saved) ∧
  (∀ i, Item.pk i ≠ Item.pk saved →
        (i ∈ Item_objects (save_item db saved) ↔ i ∈ Item_objects db)) ∧
  ((∃ i, i ∈ Item_objects db ∧ Item.pk i = Item.pk saved) →
   saved ∈ Item_objects (save_item db saved)) ∧
  Profile_objects (save_item db saved) = Profile_objects db.
Proof.
  simpl. split; [|split; [|split; [|done]]].
  - intros i (j & -> & Hj)%list_elem_of_fmap. by case_decide.
  - intros i Hne. rewrite list_elem_of_fmap. split.
    + intros (j & -> & Hj). by case_decide.
    + intros Hi. exists i. split; [|done]. by rewrite decide_False.
  - intros (i & Hi & Hpk). apply list_elem_of_fmap. exists i.
    split; [|done]. by rewrite decide_True.
Qed.

(** X21. A PATCH of an existing Item that names an existing Profile as
    [owner_id] is answered 200, whoever sends it, and hands the Item over:
    afterwards every row of that primary key belongs to the named Profile,
    the update and delete pages answer 404 to every account whose Profile
    is another one (the previous owner included), and the account of the
    named Profile can delete the Item through the page. *)
Theorem api_patch_of_owner_id_hands_the_item_over (db : Store) (now later : Z)
    (caller : option nat) (pk new_owner : nat) (item : Item.t) :
  Item_by_pk db pk = Some item →
  is_Some (Profile_by_pk db new_owner) →
  ∃ body db',
    ItemDetailAPIView.dispatch db now later caller PATCH pk
      (ItemSerializer.mkPayload (Some new_owner) None None None None)
    = (mkResponse HTTP_200_OK body, db') ∧
    (∀ i, i ∈ Item_objects db' → Item.pk i = pk → Item.owner i = new_owner) ∧
    (∀ user profile form,
       MyLoginRequiredMixin.get_logged_in_profile db user = Ok (Some profile) →
       Profile.pk profile ≠ new_owner →
       UpdateItemView.dispatch db' now (Some user) POST pk form
       = (mkResponse HTTP_404_NOT_FOUND Http404, db') ∧
       DeleteItemView.dispatch db' (Some user) POST pk
       = (mkResponse HTTP_404_NOT_FOUND Http404, db')) ∧
    (∀ user profile,
       MyLoginRequiredMixin.get_logged_in_profile db user = Ok (Some profile) →
       Profile.pk profile = new_owner →
       ∃ db'',
         DeleteItemView.dispatch db' (Some user) POST pk
         = (mkResponse HTTP_302_FOUND (Redirect "item_list"), db'') ∧
         Item_by_pk db'' pk = None).
Proof.
  intros Hitem [p Hp].
  destruct (Item_by_pk_Some db pk item Hitem) as [Hin Hpk].
  set (saved := ItemSerializer.update now item
                  (ItemSerializer.mkPayload (Some new_owner) None None None None)).
  assert (Item.pk saved = pk) as Hsavedpk by done.
  destruct (save_item_rows db saved) as (Hsame & Hother & Hstored & Hprofiles).
  exists (ItemBody (ItemSerializer.to_representation (save_item db saved) later saved)),
    (save_item db saved).
  split.
  { unfold ItemDetailAPIView.dispatch, ItemDetailAPIView.queryset, get_object. simpl.
    unfold Item_by_pk in Hitem. rewrite Hitem. simpl.
    unfold ItemSerializer.errors. simpl. by rewrite Hp. }
  assert (∀ user, MyLoginRequiredMixin.get_logged_in_profile (save_item db saved) user
                  = MyLoginRequiredMixin.get_logged_in_profile db user) as Hsameprofile.
  { intros user. by unfold MyLoginRequiredMixin.get_logged_in_profile, Profile_get_by_user. }
  split; [|split].
  - intros i Hi Hipk. rewrite (Hsame i Hi); [done|]. by rewrite Hsavedpk.
  - intros user profile form Hprofile Hne.
    destruct (page_queryset_misses (save_item db saved) user pk)
      as (queryset & Hupd & Hdel & Hmiss).
    { right. exists profile. split; [by rewrite Hsameprofile|].
      intros i Hi Hipk. rewrite (Hsame i Hi); [|by rewrite Hsavedpk]. simpl. congruence. }
    unfold UpdateItemView.dispatch, DeleteItemView.dispatch.
    by rewrite Hupd, Hdel, Hmiss.
  - intros user profile Hprofile Heq.
    destruct (owner_queryset_hits (save_item db saved) user pk profile saved)
      as (queryset & object & _ & Hqs & Hget & _ & Hobj & _).
    { by rewrite Hsameprofile. }
    { apply Hstored. exists item. by rewrite Hsavedpk. }
    { done. }
    { simpl. by rewrite Heq. }
    exists (delete_item (save_item db saved) pk).
    unfold DeleteItemView.dispatch. rewrite Hqs, Hget, Hobj. split; [done|].
    apply Item_by_pk_None. intros i [Hne _]%list_elem_of_filter. done.
Qed.

(** Anonymous, the vase is handed to Bob's Profile: Alice's pages now answer
    404 and Bob can delete it. *)
Lemma api_patch_of_owner_id_hands_the_item_over_witness :
  ∃ body db',
    ItemDetailAPIView.dispatch Example.db Example.t0 Example.t0 None PATCH 1
      (ItemSerializer.mkPayload (Some 2%nat) None None None None)
    = (mkResponse HTTP_200_OK body, db') ∧
    DeleteItemView.dispatch db' (Some 1%nat) POST 1
    = (mkResponse HTTP_404_NOT_FOUND Http404, db') ∧
    ∃ db'',
      DeleteItemView.dispatch db' (Some 2%nat) POST 1
      = (mkResponse HTTP_302_FOUND (Redirect "item_list"), db'') ∧
      Item_by_pk db'' 1 = None.
Proof.
  destruct (api_patch_of_owner_id_hands_the_item_over Example.db Example.t0 Example.t0
              None 1 2 Example.vase eq_refl ltac:(by eexists))
    as (body & db' & Hrun & _ & Hothers & Hnew).
  exists body, db'. split; [exact Hrun|]. split.
  - by apply (Hothers 1%nat Example.alice_p Example.blank_form).
  - by apply (Hnew 2%nat Example.bob_p).
Defined.

(** ** [auto_now] and the newest-first listing *)

(** X22. A PUT of an existing Item without [end_time] is answered 400 and
    stores nothing, while a PATCH with an empty body is answered 200 and
    rewrites the Item with nothing changed but [listed_at], which becomes
    the current time. When that time is later than every stored
    [listed_at], the Item then comes first in the item list page. *)
Theorem api_item_save_refreshes_listed_at (db : Store) (now later : Z)
    (caller : option nat) (pk : nat) (item : Item.t) :
  Item_by_pk db pk = Some item →
  let empty := ItemSerializer.mkPayload None None None None None in
  let touched :=
    {| Item.pk := Item.pk item; Item.owner := Item.owner item;
       Item.title := Item.title item; Item.description := Item.description item;
       Item.starting_bid := Item.starting_bid item; Item.listed_at := now;
       Item.end_time := Item.end_time item |} in
  ItemDetailAPIView.dispatch db now later caller PUT pk empty
  = (mkResponse HTTP_400_BAD_REQUEST (FieldErrors ["end_time"]), db) ∧
  ∃ body,
    ItemDetailAPIView.dispatch db now later caller PATCH pk empty
    = (mkResponse HTTP_200_OK body, save_item db touched) ∧
    ((∀ i, i ∈ Item_objects db → Item.listed_at i < now) →
     head (ItemAuctionListView.get_queryset (save_item db touched)) = Some touched).
Proof.
  intros Hitem. simpl.
  destruct (Item_by_pk_Some db pk item Hitem) as [Hin Hpk].
  unfold ItemDetailAPIView.dispatch, ItemDetailAPIView.queryset, get_object. simpl.
  unfold Item_by_pk in Hitem. rewrite Hitem. simpl. split; [done|].
  eexists. split; [reflexivity|]. intros Hearlier.
  unfold ItemSerializer.update. simpl.
  set (touched := {| Item.pk := Item.pk item; Item.owner := Item.owner item;
                     Item.title := Item.title item;
                     Item.description := Item.description item;
                     Item.starting_bid := Item.starting_bid item; Item.listed_at := now;
                     Item.end_time := Item.end_time item |}).
  destruct (save_item_rows db touched) as (Hsame & Hother & Hstored & _).
  unfold ItemAuctionListView.get_queryset.
  destruct (head (merge_sort Item.by_listed_at_desc (Item_objects (save_item db touched))))
    as [first|] eqn:Hhead.
  - apply first_of_order_by in Hhead as [Hfirst Hmax]; [|apply _..].
    f_equal. apply Hsame; [done|].
    destruct (decide (Item.pk first = Item.pk touched)) as [|Hne]; [done|].
    exfalso. apply (Hother first Hne) in Hfirst.
    specialize (Hearlier first Hfirst).
    assert (touched ∈ Item_objects (save_item db touched)) as Htouched
      by (apply Hstored; by exists item).
    specialize (Hmax touched Htouched). unfold Item.by_listed_at_desc in Hmax.
    simpl in Hmax. lia.
  - apply first_of_order_by_None in Hhead; [|apply _..].
    assert (touched ∈ Item_objects (save_item db touched)) as Htouched
      by (apply Hstored; by exists item).
    rewrite Hhead in Htouched. by apply elem_of_nil in Htouched.
Qed.

Lemma api_item_save_refreshes_listed_at_witness :
  ∃ body db',
    ItemDetailAPIView.dispatch Example.db (Example.t0 + 7) Example.t0 None PATCH 1
      (ItemSerializer.mkPayload None None None None None)
    = (mkResponse HTTP_200_OK body, db') ∧
    Item.listed_at <$> Item_by_pk db' 1 = Some (Example.t0 + 7).
Proof.
  destruct (api_item_save_refreshes_listed_at Example.db (Example.t0 + 7) Example.t0
              None 1 Example.vase eq_refl) as (_ & body & Hrun & _).
  exists body. eexists. split; [exact Hrun|]. reflexivity.
Defined.

(** ** Creating through the API without an author *)

(** X23. The API answers a new Bid with an uncaught [IntegrityError]
    exactly when the body passes validation and carries no [bidder_id], and a
    new Review exactly when the body passes validation and carries no
    [reviewer_id]: both serializers take the body without the author, and
    the view supplies none. *)
Theorem api_create_without_author_is_a_server_error (db : Store) (now later : Z)
    (caller : option nat) :
  (∀ data,
     BidListCreateAPIView.post db now later caller data
     = (server_error "IntegrityError", db)
     ↔ BidSerializer.errors db data = [] ∧ BidSerializer.in_bidder_id data = None) ∧
  (∀ data,
     ReviewListCreateAPIView.post db now caller data
     = (server_error "IntegrityError", db)
     ↔ ReviewSerializer.errors db false data = [] ∧
       ReviewSerializer.in_reviewer_id data = None).
Proof.
  split.
  - intros [a b c]. unfold BidListCreateAPIView.post, BidSerializer.errors. simpl.
    destruct a as [item|], b as [bidder|], c as [amount|]; simpl;
      repeat case_match; simpl; split; try done; intros [??]; done.
  - intros [a b c d]. unfold ReviewListCreateAPIView.post, ReviewSerializer.errors,
      ReviewSerializer.validated_rating. simpl.
    destruct a as [reviewer|], b as [reviewed|], d as [rating|]; simpl;
      repeat case_match; simpl; split; try done; intros [??]; done.
Qed.

(** ** What a refused request leaves behind *)

(** X24. A request answered with a status from 400 to 499, and every GET,
    leaves the store as it was, on every page and API handler that can
    write: the update, delete, create-item, create-bid, create-comment and
    create-review pages, the item, review and comment detail endpoints, the
    bid and review create endpoints, login and register. *)
Theorem refused_requests_and_reads_store_nothing `{AuthLibrary} (db : Store)
    (now later : Z) (user : option nat) (method : Method) (pk new_pk : nat)
    (update_form : UpdateItemForm.data) (item_form : CreateItemForm.data)
    (bid_form : CreateBidForm.data) (comment_form : CreateCommentForm.data)
    (review_form : CreateReviewForm.data) (item_data : ItemSerializer.payload)
    (bid_data : BidSerializer.payload) (review_data : ReviewSerializer.payload)
    (comment_data : CommentSerializer.payload) (credentials : gmap string string)
    (registration : gmap string (option string)) (key : string) :
  (∀ run,
     run ∈ [ UpdateItemView.dispatch db now user method pk update_form;
             DeleteItemView.dispatch db user method pk;
             CreateItemView.dispatch db now user method item_form new_pk;
             CreateBidView.dispatch db now user method pk bid_form;
             CreateCommentView.dispatch db now user method pk comment_form new_pk;
             CreateReviewView.dispatch db now user method pk review_form;
             ItemDetailAPIView.dispatch db now later user method pk item_data;
             ReviewDetailAPIView.dispatch db now user method pk review_data ] →
     method = GET ∨ (400 ≤ status_code run.1 < 500)%nat → run.2 = db) ∧
  (∀ run,
     run ∈ [ BidListCreateAPIView.post db now later user bid_data;
             ReviewListCreateAPIView.post db now user review_data;
             LoginAPIView.post db credentials key;
             RegisterAPIView.post db now registration key ] →
     (400 ≤ status_code run.1 < 500)%nat → run.2 = db) ∧
  (match (CommentDetailAPIView.dispatch db now later user method pk comment_data).1 with
   | Data _ _ | NoBody _ => method = GET
   | _ => True
   end →
   (CommentDetailAPIView.dispatch db now later user method pk comment_data).2 = db).
Proof.
  split; [|split].
  - intros run Hrun Hrefused.
    repeat (apply elem_of_cons in Hrun as [->|Hrun]);
      [..|by apply elem_of_nil in Hrun];
      revert Hrefused;
      unfold UpdateItemView.dispatch, DeleteItemView.dispatch, CreateItemView.dispatch,
        CreateBidView.dispatch, CreateCommentView.dispatch, CreateReviewView.dispatch,
        ItemDetailAPIView.dispatch, ReviewDetailAPIView.dispatch, server_error,
        not_permitted, MyLoginRequiredMixin.login_redirect,
        HTTP_200_OK, HTTP_201_CREATED, HTTP_204_NO_CONTENT, HTTP_302_FOUND,
        HTTP_400_BAD_REQUEST, HTTP_401_UNAUTHORIZED, HTTP_404_NOT_FOUND,
        HTTP_405_METHOD_NOT_ALLOWED, HTTP_500_INTERNAL_SERVER_ERROR;
      repeat case_match; simpl; try done; intros [?|?]; try done; lia.
  - intros run Hrun Hrefused.
    repeat (apply elem_of_cons in Hrun as [->|Hrun]);
      [..|by apply elem_of_nil in Hrun];
      revert Hrefused;
      unfold BidListCreateAPIView.post, ReviewListCreateAPIView.post,
        LoginAPIView.post, RegisterAPIView.post, create_user, Profile_create,
        server_error, not_permitted,
        HTTP_200_OK, HTTP_201_CREATED, HTTP_400_BAD_REQUEST, HTTP_401_UNAUTHORIZED,
        HTTP_500_INTERNAL_SERVER_ERROR;
      repeat case_match; simpl; try done; lia.
  - unfold CommentDetailAPIView.dispatch.
    repeat case_match; simpl; try done.
Qed.

Lemma refused_requests_and_reads_store_nothing_witness :
  (DeleteItemView.dispatch Example.db (Some 2%nat) POST 1).2 = Example.db.
Proof.
  destruct (@refused_requests_and_reads_store_nothing Example.plain_auth Example.db
              Example.t0 Example.t0 (Some 2%nat) POST 1 0 Example.blank_form
              (CreateItemForm.mk "" "" None None) (CreateBidForm.mk None)
              (CreateCommentForm.mk "") (CreateReviewForm.mk None "")
              Example.no_change (BidSerializer.mkPayload None None None)
              (Example.review_of_alice JNull) (CommentSerializer.mkPayload None None None)
              ∅ ∅ "") as (Hpages & _).
  apply (Hpages (DeleteItemView.dispatch Example.db (Some 2%nat) POST 1)).
  - apply elem_of_cons. right. apply elem_of_cons. by left.
  - right. vm_compute. split; apply Nat.leb_le; reflexivity.
Defined.

(** ** Creating an Item and deleting it again *)

Lemma filter_all {A : Type} (P : A → Prop) `{!∀ x, Decision (P x)} (l : list A) :
  (∀ x, x ∈ l → P x) → filter P l = l.
Proof.
  induction l as [|x l IH]; intros Hall; [done|].
  rewrite filter_cons_True by (apply Hall; left).
  f_equal. apply IH. intros y Hy. apply Hall. by right.
Qed.

Lemma filter_none {A : Type} (P : A → Prop) `{!∀ x, Decision (P x)} (l : list A) :
  (∀ x, x ∈ l → ¬ P x) → filter P l = [].
Proof.
  induction l as [|x l IH]; intros Hall; [done|].
  rewrite filter_cons_False by (apply Hall; left).
  apply IH. intros y Hy. apply Hall. by right.
Qed.

(** X25. When the primary key the database assigns is fresh (no Item has
    it and no Bid or Comment points at it), a valid create-item form posted
    by an account with one Profile stores one new Item, owned by that
    Profile, listed at the current time and with no bids, so that its
    current bid is the starting bid. The same account can then delete the
    Item through the delete page, and the store is again exactly what it
    was before the Item was created. *)
Theorem created_item_is_owned_and_can_be_deleted_again (db : Store) (now : Z)
    (user pk : nat) (profile : Profile.t) (form : CreateItemForm.data) (c : Z * Z) :
  MyLoginRequiredMixin.get_logged_in_profile db user = Ok (Some profile) →
  CreateItemForm.cleaned form = Some c →
  (∀ i, i ∈ Item_objects db → Item.pk i ≠ pk) →
  (∀ b, b ∈ Bid_objects db → Bid.item b ≠ pk) →
  (∀ x, x ∈ Comment_objects db → Comment.item x ≠ pk) →
  let item :=
    {| Item.pk := pk; Item.owner := Profile.pk profile;
       Item.title := CreateItemForm.title form;
       Item.description := CreateItemForm.description form;
       Item.starting_bid := fst c; Item.listed_at := now; Item.end_time := snd c |} in
  ∃ db',
    CreateItemView.dispatch db now (Some user) POST form pk
    = (mkResponse HTTP_302_FOUND (Redirect "item_detail"), db') ∧
    Item_objects db' = Item_objects db ++ [item] ∧
    Item_by_pk db' pk = Some item ∧
    Item.get_num_bids (Bid_objects db') item = 0%nat ∧
    Item.get_current_bid (Bid_objects db') item = fst c ∧
    DeleteItemView.dispatch db' (Some user) POST pk
    = (mkResponse HTTP_302_FOUND (Redirect "item_list"), db).
Proof.
  intros Hprofile Hform Hitems Hbids Hcomments item.
  exists (set_items db (Item_objects db ++ [item])).
  assert (Item.bids_of (Bid_objects db) item = []) as Hnone.
  { unfold Item.bids_of. apply filter_none. intros b Hb Hpk.
    by apply (Hbids b Hb). }
  split; [|split; [done|split; [|split; [|split]]]].
  - unfold CreateItemView.dispatch. by rewrite Hform, Hprofile.
  - unfold Item_by_pk. simpl.
    destruct (list_find (λ i, Item.pk i = pk) (Item_objects db ++ [item]))
      as [[n i]|] eqn:Hfind.
    + apply list_find_Some in Hfind as (Hn & Hi & _). simpl. f_equal.
      apply list_elem_of_lookup_2, elem_of_app in Hn as [Hold|Hnew].
      * by destruct (Hitems i Hold).
      * by apply list_elem_of_singleton in Hnew.
    + apply list_find_None in Hfind. rewrite Forall_forall in Hfind.
      destruct (Hfind item); [|done]. apply elem_of_app. right. by left.
  - unfold Item.get_num_bids. simpl. by rewrite Hnone.
  - unfold Item.get_current_bid. simpl. by rewrite Hnone.
  - destruct (owner_queryset_hits (set_items db (Item_objects db ++ [item])) user pk
                profile item) as (queryset & object & _ & Hqs & Hget & _ & Hobj & _).
    { done. }
    { simpl. apply elem_of_app. right. by left. }
    { done. }
    { done. }
    unfold DeleteItemView.dispatch. rewrite Hqs, Hget, Hobj. f_equal.
    unfold delete_item. simpl. rewrite filter_app.
    rewrite (filter_all _ (Item_objects db)) by (intros i Hi; by apply Hitems).
    rewrite (filter_all _ (Bid_objects db)) by (intros b Hb; by apply Hbids).
    rewrite (filter_all _ (Comment_objects db)) by (intros x Hx; by apply Hcomments).
    rewrite filter_cons_False by (simpl; intros Hne; by apply Hne).
    rewrite filter_nil, app_nil_r. by destruct db.
Qed.

Lemma created_item_is_owned_and_can_be_deleted_again_witness :
  let form :=
    {| CreateItemForm.title := "Clock"; CreateItemForm.description := "";
       CreateItemForm.starting_bid := Some Example.one_cent;
       CreateItemForm.end_time := Some (Example.t0 + Example.hour) |} in
  ∃ db',
    CreateItemView.dispatch Example.db Example.t0 (Some 2%nat) POST form 7
    = (mkResponse HTTP_302_FOUND (Redirect "item_detail"), db') ∧
    Item.owner <$> Item_by_pk db' 7 = Some 2%nat ∧
    DeleteItemView.dispatch db' (Some 2%nat) POST 7
    = (mkResponse HTTP_302_FOUND (Redirect "item_list"), Example.db).
Proof.
  intros form.
  destruct (created_item_is_owned_and_can_be_deleted_again Example.db Example.t0 2 7
              Example.bob_p form (1, Example.t0 + Example.hour))
    as (db' & Hcreate & _ & Hfound & _ & _ & Hdelete).
  - reflexivity.
  - reflexivity.
  - intros i Hi. repeat (apply elem_of_cons in Hi as [->|Hi]); [done..|].
    by apply elem_of_nil in Hi.
  - intros b Hb. repeat (apply elem_of_cons in Hb as [->|Hb]); [done..|].
    by apply elem_of_nil in Hb.
  - intros x Hx. simpl in Hx. repeat (apply elem_of_cons in Hx as [->|Hx]); [done..|].
    by apply elem_of_nil in Hx.
  - exists db'. split; [exact Hcreate|]. split; [by rewrite Hfound|exact Hdelete].
Defined.

(** ** Comments *)

Lemma Comment_by_pk_Some (db : Store) (pk : nat) (comment : Comment.t) :
  Comment_by_pk db pk = Some comment →
  comment ∈ Comment_objects db ∧ Comment.pk comment = pk.
Proof.
  unfold Comment_by_pk. intros [[n i] [Hfind ->]]%fmap_Some.
  apply list_find_Some in Hfind as (Hn & Hpk & _).
  split; [by eapply list_elem_of_lookup_2|done].
Qed.

Lemma Comment_by_pk_None (db : Store) (pk : nat) :
  Comment_by_pk db pk = None ↔ ∀ c, c ∈ Comment_objects db → Comment.pk c ≠ pk.
Proof. unfold Comment_by_pk. by rewrite fmap_None, list_find_None, Forall_forall. Qed.

(** X26. A comment posted through the page by an account with one Profile,
    on an Item that exists, is stored with that Item, that Profile, the
    form's text (blank included) and the current time; the
    comments-of-an-item endpoint then answers 200 with
    exactly the Item's comments, the new one among them, most recent
    first. *)
Theorem page_comment_is_attributed_and_listed (db : Store) (now later : Z)
    (user item_id pk : nat) (caller : option nat) (profile : Profile.t) (item : Item.t)
    (form : CreateCommentForm.data) :
  MyLoginRequiredMixin.get_logged_in_profile db user = Ok (Some profile) →
  Item_by_pk db item_id = Some item →
  let comment :=
    {| Comment.pk := pk; Comment.item := item_id; Comment.profile := Profile.pk profile;
       Comment.text := CreateCommentForm.text form; Comment.timestamp := now |} in
  ∃ db' rows,
    CreateCommentView.dispatch db now (Some user) POST item_id form pk
    = (mkResponse HTTP_302_FOUND (Redirect "item_detail"), db') ∧
    Comment_objects db' = Comment_objects db ++ [comment] ∧
    ItemCommentsAPIView.get db' later caller item_id
    = Data HTTP_200_OK (CommentSerializer.to_representation db' later <$> rows) ∧
    rows ≡ₚ filter (λ c, Comment.item c = item_id) (Comment_objects db) ++ [comment] ∧
    StronglySorted (λ a b, Comment.timestamp b ≤ Comment.timestamp a) rows.
Proof.
  intros Hprofile Hitem comment.
  destruct (Item_by_pk_Some db item_id item Hitem) as [_ Hpk].
  set (db' := set_comments db (Comment_objects db ++ [comment])).
  exists db', (ItemCommentsAPIView.comments db' item).
  split; [|split; [done|split]].
  - unfold CreateCommentView.dispatch. by rewrite Hitem, Hprofile, Hpk.
  - unfold ItemCommentsAPIView.get. simpl.
    change (Item_by_pk db' item_id) with (Item_by_pk db item_id). by rewrite Hitem.
  - unfold ItemCommentsAPIView.comments. rewrite Hpk.
    destruct (filter_order_by_spec Comment_by_timestamp_desc
                (λ c, Comment.item c = item_id) (Comment_objects db'))
      as (Hperm & _ & Hsorted & _).
    split; [|done]. rewrite Hperm. simpl. rewrite filter_app.
    by rewrite (filter_cons_True _ comment []).
Qed.

Lemma page_comment_is_attributed_and_listed_witness :
  ∃ db' rows,
    CreateCommentView.dispatch Example.db Example.t0 (Some 2%nat) POST 1
      (CreateCommentForm.mk "") 1
    = (mkResponse HTTP_302_FOUND (Redirect "item_detail"), db') ∧
    Comment_objects db' = [ Comment.mk 1 1 2 "" Example.t0 ] ∧
    ItemCommentsAPIView.get db' Example.t0 None 1
    = Data HTTP_200_OK (CommentSerializer.to_representation db' Example.t0 <$> rows).
Proof.
  destruct (page_comment_is_attributed_and_listed Example.db Example.t0 Example.t0 2 1 1
              None Example.bob_p Example.vase (CreateCommentForm.mk "") eq_refl eq_refl)
    as (db' & rows & Hrun & Hstored & Hlist & _).
  exists db', rows. split; [exact Hrun|]. split; [exact Hstored|exact Hlist].
Defined.

Lemma Comment_by_pk_save (db : Store) (c : Comment.t) :
  is_Some (Comment_by_pk db (Comment.pk c)) →
  Comment_by_pk (save_comment db c) (Comment.pk c) = Some c.
Proof.
  intros [old Hold]. apply Comment_by_pk_Some in Hold as [Hin Hpk].
  destruct (Comment_by_pk (save_comment db c) (Comment.pk c)) as [found|] eqn:Hfound.
  - apply Comment_by_pk_Some in Hfound as [Hfoundin Hfoundpk]. simpl in Hfoundin.
    apply list_elem_of_fmap in Hfoundin as (x & -> & Hx). by case_decide.
  - exfalso. rewrite Comment_by_pk_None in Hfound. apply (Hfound c); [|done].
    simpl. apply list_elem_of_fmap. exists old. split; [|done]. by rewrite decide_True.
Qed.

(** X27. The comment endpoint of the API compares the caller with nothing:
    for every caller that its permission check admits, a PATCH of an
    existing comment with a new text is answered 200 and stores that text,
    trimmed of the whitespace around it, with the current time, under the
    same Item and the same author, unless the text holds a NUL character
    or a surrogate, which is answered 400 and stores nothing; a DELETE is
    answered 204 and removes the comment, leaving the comments of other
    primary keys as they are. A PUT without [item_id] is answered 400 and
    stores nothing. *)
Theorem api_comment_can_be_rewritten_or_deleted_by_anyone (db : Store) (now later : Z)
    (caller : option nat) (pk : nat) (instance : Comment.t) (text : string) :
  Comment_by_pk db pk = Some instance →
  (∀ method, default_permission method caller = true) →
  (has_null_character (strip text) = false →
   has_surrogate_character (strip text) = false →
   ∃ data db',
     CommentDetailAPIView.dispatch db now later caller PATCH pk
       (CommentSerializer.mkPayload None None (Some text))
     = (Data HTTP_200_OK data, db') ∧
     Comment_by_pk db' pk
     = Some {| Comment.pk := pk; Comment.item := Comment.item instance;
               Comment.profile := Comment.profile instance;
               Comment.text := strip text; Comment.timestamp := now |} ∧
     CommentSerializer.text data = strip text ∧
     length (Comment_objects db') = length (Comment_objects db)) ∧
  (has_null_character (strip text) = true ∨
   has_surrogate_character (strip text) = true →
   CommentDetailAPIView.dispatch db now later caller PATCH pk
     (CommentSerializer.mkPayload None None (Some text))
   = (Invalid ["text"], db)) ∧
  (∃ db',
     CommentDetailAPIView.dispatch db now later caller DELETE pk
       (CommentSerializer.mkPayload None None None)
     = (NoBody HTTP_204_NO_CONTENT, db') ∧
     Comment_by_pk db' pk = None ∧
     (∀ c, c ∈ Comment_objects db' ↔ c ∈ Comment_objects db ∧ Comment.pk c ≠ pk)) ∧
  (∃ errs,
     CommentDetailAPIView.dispatch db now later caller PUT pk
       (CommentSerializer.mkPayload None None (Some text))
     = (Invalid ("item_id" :: errs), db)).
Proof.
  intros Hcomment Hallowed.
  destruct (Comment_by_pk_Some db pk instance Hcomment) as [Hin Hpk].
  unfold CommentDetailAPIView.dispatch. rewrite !Hallowed. simpl. rewrite Hcomment.
  unfold CommentSerializer.errors, CommentSerializer.update, CharField.run_validation.
  simpl.
  split; [|split; [|split]].
  - intros -> ->. simpl. eexists _, _. split; [reflexivity|]. rewrite Hpk.
    set (saved := {| Comment.pk := pk; Comment.item := Comment.item instance;
                     Comment.profile := Comment.profile instance;
                     Comment.text := strip text; Comment.timestamp := now |}).
    split; [|split; [done|simpl; by rewrite length_fmap]].
    apply (Comment_by_pk_save db saved). by exists instance.
  - intros [-> | ->]; [done|]. by rewrite orb_true_r.
  - eexists. split; [reflexivity|]. split.
    + apply Comment_by_pk_None. by intros c [Hne _]%list_elem_of_filter.
    + intros c. simpl. rewrite list_elem_of_filter. tauto.
  - destruct (_ || _); by eexists.
Qed.

(** Alice rewrites the comment of Bob with the text "  hi  ", which is
    stored as "hi". *)
Lemma api_comment_can_be_rewritten_or_deleted_by_anyone_witness :
  let db := set_comments Example.db [ Comment.mk 1 1 2 "mine" Example.t0 ] in
  strip "  hi  " = "hi" ∧
  ∃ data db',
    CommentDetailAPIView.dispatch db Example.t0 Example.t0 (Some 1%nat) PATCH 1
      (CommentSerializer.mkPayload None None (Some "  hi  "))
    = (Data HTTP_200_OK data, db') ∧
    Comment_by_pk db' 1 = Some (Comment.mk 1 1 2 "hi" Example.t0).
Proof.
  intros db. split; [reflexivity|].
  destruct (api_comment_can_be_rewritten_or_deleted_by_anyone db Example.t0 Example.t0
              (Some 1%nat) 1 (Comment.mk 1 1 2 "mine" Example.t0) "  hi  " eq_refl)
    as (Hpatch & _); [done|].
  destruct Hpatch as (data & db' & Hrun & Hstored & _); [reflexivity..|].
  by exists data, db'.
Defined.
